(** * wryte: a structured-logging facade (src/wryte.py)

    A shallow embedding of the record pipeline of [wryte.py]: the
    normalisation of context objects, the enrichment of a record, the JSON
    and console formatters, and the handler registry of the [Wryte] facade.

    Conventions of the embedding.

    - A Python [str] is a Rocq [string]; a character stands for the code
      point of the same number (0..255).  The models of the string methods
      say where they are exact.
    - A Python [dict] is an association list in insertion order with one
      binding per key (Python 3.7 and later); keys are strings, as the
      field names of a record are.
    - A float is kept as its literal; nothing is computed with it.
    - An exception is a value of [exn]; code that can raise returns an
      [outcome].  Assertions are on.
    - The dictionary of a log record and the handlers are objects: the
      formatter and the facade work on stores of them, by address.
    - [json.dumps] and [json.loads] are those of Python 3.4 and later with
      their default options; the model has no recursion limit.
    - The clock, the uuid generator, the host name, the process id and the
      optional import of colorama are inputs of the functions that read
      them. *)

From Stdlib Require Import ZArith List String Ascii Bool Lia Arith.
From Stdlib Require Import Decimal DecimalString DecimalFacts DecimalPos DecimalN DecimalZ.
From Equations Require Import Equations.
Import ListNotations.

Open Scope list_scope.
Open Scope string_scope.

Set Warnings "-register-all".

(** ** Python values *)

(** The values a record can hold: what [json.loads] returns, and what a
    caller puts into a context mapping.  A float is kept as the numeric
    literal it was read from; float arithmetic and float printing are
    outside the embedding. *)
Inductive value : Type :=
| VNone
| VBool (b : bool)
| VInt (z : Z)
| VFloat (literal : string)
| VStr (s : string)
| VList (l : list value)
| VDict (d : list (string * value)).

Definition dict : Type := list (string * value).

(** [isinstance(v, dict)]. *)
Definition is_dict (v : value) : bool :=
  match v with VDict _ => true | _ => false end.

(** ** Exceptions *)

Inductive exn : Type :=
| KeyError (key : string)
| IndexError
| TypeError
| ValueError
| AttributeError
| NameError
| AssertionError
| WryteError
| Unmodelled.
(* [Unmodelled] is no exception of Python: it marks the one place where
   Python goes on with a value that the types of this model do not hold
   (see [update_from_items]). *)

Inductive outcome (A : Type) : Type :=
| Return (a : A)
| Raise (e : exn).

Arguments Return {A} a.
Arguments Raise {A} e.

Definition bind {A B : Type} (m : outcome A) (k : A -> outcome B) : outcome B :=
  match m with
  | Return a => k a
  | Raise e => Raise e
  end.

Declare Scope outcome_scope.
Delimit Scope outcome_scope with outcome.
Notation "x <- m ;; k" := (bind m (fun x => k))
  (at level 61, m at next level, right associativity) : outcome_scope.

(** ** Strings *)

Definition nl : string := String (ascii_of_nat 10) "".
Definition esc : string := String (ascii_of_nat 27) "".

(** [c in s] for a one-character string [c]. *)
Fixpoint contains_char (c : ascii) (s : string) : bool :=
  match s with
  | EmptyString => false
  | String a rest => if Ascii.eqb a c then true else contains_char c rest
  end.

(** The text before the first [c] in [s] (all of [s] when there is none). *)
Fixpoint before_first (c : ascii) (s : string) : string :=
  match s with
  | EmptyString => EmptyString
  | String a rest => if Ascii.eqb a c then EmptyString else String a (before_first c rest)
  end.

(** The text after the first [c] in [s] (empty when there is none). *)
Fixpoint after_first (c : ascii) (s : string) : string :=
  match s with
  | EmptyString => EmptyString
  | String a rest => if Ascii.eqb a c then rest else after_first c rest
  end.

(** [s.split(c, 1)]: at most one split, at the first occurrence. *)
Definition split_once (c : ascii) (s : string) : list string :=
  if contains_char c s then [before_first c s; after_first c s] else [s].

(** [str.lower], one character: the letters A-Z and the upper-case letters
    of Latin-1 (0xC0-0xDE but the multiplication sign 0xD7). *)
Definition lower_char (c : ascii) : ascii :=
  let n := nat_of_ascii c in
  if (((65 <=? n) && (n <=? 90)) || ((192 <=? n) && (n <=? 222) && negb (n =? 215)))%nat
  then ascii_of_nat (n + 32) else c.

Fixpoint lower (s : string) : string :=
  match s with
  | EmptyString => EmptyString
  | String c rest => String (lower_char c) (lower rest)
  end.

(** [str.upper], one character: the letters a-z and the lower-case letters
    of Latin-1 (0xE0-0xFE but the division sign 0xF7) go to their upper
    case, and the sharp s (0xDF) goes to [SS].  Two characters of the
    model have their upper case outside the code points 0..255: the micro
    sign (0xB5, to U+039C) and y with diaeresis (0xFF, to U+0178); the
    model leaves them as they are, so [upper] is exact on the strings
    without them, those [upper_in_range] accepts. *)
Definition upper_char (c : ascii) : string :=
  let n := nat_of_ascii c in
  if (((97 <=? n) && (n <=? 122))
      || ((224 <=? n) && (n <=? 254) && negb (n =? 247)))%nat
  then String (ascii_of_nat (n - 32)) EmptyString
  else if (n =? 223)%nat then "SS"
  else String c EmptyString.

Fixpoint upper (s : string) : string :=
  match s with
  | EmptyString => EmptyString
  | String c rest => upper_char c ++ upper rest
  end.

(** The upper case of every character of [s] is a character of the
    model: [s] has neither the micro sign nor y with diaeresis. *)
Fixpoint upper_in_range (s : string) : bool :=
  match s with
  | EmptyString => true
  | String c rest =>
      negb (nat_of_ascii c =? 181)%nat && negb (nat_of_ascii c =? 255)%nat
      && upper_in_range rest
  end.

(** [sep.join(parts)]. *)
Fixpoint join (sep : string) (parts : list string) : string :=
  match parts with
  | [] => ""
  | [p] => p
  | p :: rest => p ++ sep ++ join sep rest
  end.

Fixpoint repeat_string (n : nat) (s : string) : string :=
  match n with
  | O => ""
  | S n' => s ++ repeat_string n' s
  end.

(** ** Dictionaries *)

Section Dict.
Context {V : Type}.

(** [d.get(k)], with [None] for Python's [None] default kept apart. *)
Fixpoint dict_get (d : list (string * V)) (k : string) : option V :=
  match d with
  | [] => None
  | (k', v) :: rest => if String.eqb k' k then Some v else dict_get rest k
  end.

(** [k in d]. *)
Definition dict_has (d : list (string * V)) (k : string) : bool :=
  match dict_get d k with Some _ => true | None => false end.

(** [d[k] = v]: a key already present keeps its place. *)
Fixpoint dict_set (d : list (string * V)) (k : string) (v : V) : list (string * V) :=
  match d with
  | [] => [(k, v)]
  | (k', v') :: rest =>
      if String.eqb k' k then (k', v) :: rest else (k', v') :: dict_set rest k v
  end.

(** The bindings left once [k] is removed. *)
Definition dict_remove (d : list (string * V)) (k : string) : list (string * V) :=
  filter (fun kv => negb (String.eqb (fst kv) k)) d.

(** [d.update(other)] for a mapping [other]. *)
Definition dict_update (d other : list (string * V)) : list (string * V) :=
  fold_left (fun acc kv => dict_set acc (fst kv) (snd kv)) other d.

(** One binding per key. *)
Fixpoint unique_keys (d : list (string * V)) : bool :=
  match d with
  | [] => true
  | (k, _) :: rest => negb (dict_has rest k) && unique_keys rest
  end.
End Dict.

(** [d.pop(k)]: the value and the rest, or KeyError. *)
Definition dict_pop (d : dict) (k : string) : outcome (value * dict) :=
  match dict_get d k with
  | Some v => Return (v, dict_remove d k)
  | None => Raise (KeyError k)
  end.

(** ** Printing values: [str] and [repr] *)

Definition dquote : ascii := ascii_of_nat 34.
Definition squote : ascii := ascii_of_nat 39.
Definition backslash : ascii := ascii_of_nat 92.

Definition str1 (c : ascii) : string := String c "".

(** [repr(int)]: decimal digits, with a minus sign. *)
Definition string_of_Z (z : Z) : string := NilZero.string_of_int (Z.to_int z).

Definition hex_digit (n : nat) : ascii :=
  if (n <? 10)%nat then ascii_of_nat (48 + n) else ascii_of_nat (87 + n).

(** Two lower-case hexadecimal digits of a code point below 256. *)
Definition hex2 (n : nat) : string :=
  String (hex_digit (n / 16)) (String (hex_digit (n mod 16)) "").

(** [str.isprintable] on one character of the range 0..255. *)
Definition printable (c : ascii) : bool :=
  let n := nat_of_ascii c in
  (((32 <=? n) && (n <? 127)) || ((161 <=? n) && negb (n =? 173)))%nat.

Definition repr_char (quote : ascii) (c : ascii) : string :=
  if Ascii.eqb c backslash then String backslash (str1 backslash)
  else if Ascii.eqb c quote then String backslash (str1 quote)
  else if Ascii.eqb c (ascii_of_nat 9) then String backslash "t"
  else if Ascii.eqb c (ascii_of_nat 10) then String backslash "n"
  else if Ascii.eqb c (ascii_of_nat 13) then String backslash "r"
  else if printable c then str1 c
  else String backslash ("x" ++ hex2 (nat_of_ascii c)).

Fixpoint repr_chars (quote : ascii) (s : string) : string :=
  match s with
  | EmptyString => EmptyString
  | String c rest => repr_char quote c ++ repr_chars quote rest
  end.

(** [repr(s)] for a str: single quotes, unless the text has a single quote
    and no double quote. *)
Definition repr_str (s : string) : string :=
  let quote :=
    if contains_char squote s && negb (contains_char dquote s) then dquote else squote in
  String quote (repr_chars quote s ++ str1 quote).

(** [repr(x)] of a float, from its literal: exact for the three specials
    and for a literal that is already the shortest representation. *)
Definition repr_float (literal : string) : string :=
  if String.eqb literal "NaN" then "nan"
  else if String.eqb literal "Infinity" then "inf"
  else if String.eqb literal "-Infinity" then "-inf"
  else literal.

Fixpoint py_repr (v : value) : string :=
  match v with
  | VNone => "None"
  | VBool true => "True"
  | VBool false => "False"
  | VInt z => string_of_Z z
  | VFloat literal => repr_float literal
  | VStr s => repr_str s
  | VList l => "[" ++ join ", " (map py_repr l) ++ "]"
  | VDict d =>
      "{" ++ join ", " (map (fun kv => match kv with
                                       | (k, x) => repr_str k ++ ": " ++ py_repr x
                                       end) d) ++ "}"
  end.

(** [str(v)], which is what ['{0}'.format(v)] inserts. *)
Definition py_str (v : value) : string :=
  match v with
  | VStr s => s
  | _ => py_repr v
  end.

(** ** JSON encoding: [json.dumps] *)

(** One character under [ensure_ascii]: the short escapes, the character
    itself from space to tilde, and a [\u00XX] escape otherwise. *)
Definition json_escape_char (c : ascii) : string :=
  let n := nat_of_ascii c in
  if Ascii.eqb c dquote then String backslash (str1 dquote)
  else if Ascii.eqb c backslash then String backslash (str1 backslash)
  else if (n =? 10)%nat then String backslash "n"
  else if (n =? 13)%nat then String backslash "r"
  else if (n =? 9)%nat then String backslash "t"
  else if (n =? 8)%nat then String backslash "b"
  else if (n =? 12)%nat then String backslash "f"
  else if ((32 <=? n) && (n <=? 126))%nat then str1 c
  else String backslash ("u00" ++ hex2 n).

Fixpoint json_escape (s : string) : string :=
  match s with
  | EmptyString => EmptyString
  | String c rest => json_escape_char c ++ json_escape rest
  end.

Definition json_string (s : string) : string :=
  String dquote (json_escape s ++ str1 dquote).

(** The separator between the items of a container, what opens it and what
    closes it: [', '] and nothing when [indent] is None; a comma and a new
    line indented by [indent] spaces per level otherwise. *)
Definition item_separator (indent : option nat) (level : nat) : string :=
  match indent with
  | None => ", "
  | Some n => "," ++ nl ++ repeat_string (n * S level) " "
  end.

Definition container_open (indent : option nat) (level : nat) : string :=
  match indent with
  | None => ""
  | Some n => nl ++ repeat_string (n * S level) " "
  end.

Definition container_close (indent : option nat) (level : nat) : string :=
  match indent with
  | None => ""
  | Some n => nl ++ repeat_string (n * level) " "
  end.

Fixpoint json_encode (indent : option nat) (level : nat) (v : value) : string :=
  match v with
  | VNone => "null"
  | VBool true => "true"
  | VBool false => "false"
  | VInt z => string_of_Z z
  | VFloat literal => literal
  | VStr s => json_string s
  | VList [] => "[]"
  | VList l =>
      "[" ++ container_open indent level
          ++ join (item_separator indent level) (map (json_encode indent (S level)) l)
          ++ container_close indent level ++ "]"
  | VDict [] => "{}"
  | VDict d =>
      "{" ++ container_open indent level
          ++ join (item_separator indent level)
               (map (fun kv => match kv with
                               | (k, x) => json_string k ++ ": " ++ json_encode indent (S level) x
                               end) d)
          ++ container_close indent level ++ "}"
  end.

(** [json.dumps(v, indent=indent)] with the other options at their
    defaults. *)
Definition json_dumps (indent : option nat) (v : value) : string :=
  json_encode indent 0 v.

(** ** JSON decoding: [json.loads]

    The decoder of the standard library, as its scanner works: a value
    starts at the current position and the text that follows it is handed
    back.  The recursion through arrays and objects is on [fuel]; the text
    bounds the number of calls, so the fuel [json_loads] gives is never the
    reason of a failure ([scan_once_adequate] below).  Python bounds the
    nesting depth by its recursion limit; the model does not. *)

Definition is_ws (c : ascii) : bool :=
  let n := nat_of_ascii c in
  ((n =? 32) || (n =? 9) || (n =? 10) || (n =? 13))%nat.

Fixpoint skip_ws (s : string) : string :=
  match s with
  | String c rest => if is_ws c then skip_ws rest else s
  | EmptyString => s
  end.

Definition is_digit (c : ascii) : bool :=
  let n := nat_of_ascii c in ((48 <=? n) && (n <=? 57))%nat.

(** The value of a hexadecimal digit. *)
Definition hex_value (c : ascii) : option nat :=
  let n := nat_of_ascii c in
  if ((48 <=? n) && (n <=? 57))%nat then Some (n - 48)%nat
  else if ((97 <=? n) && (n <=? 102))%nat then Some (n - 87)%nat
  else if ((65 <=? n) && (n <=? 70))%nat then Some (n - 55)%nat
  else None.

Definition hex4 (a b c d : ascii) : option nat :=
  match hex_value a, hex_value b, hex_value c, hex_value d with
  | Some x, Some y, Some z, Some w => Some (((x * 16 + y) * 16 + z) * 16 + w)%nat
  | _, _, _, _ => None
  end.

(** The character a one-letter escape stands for. *)
Definition unescape (c : ascii) : option ascii :=
  if Ascii.eqb c dquote then Some dquote
  else if Ascii.eqb c backslash then Some backslash
  else if Ascii.eqb c "/" then Some "/"%char
  else if Ascii.eqb c "b" then Some (ascii_of_nat 8)
  else if Ascii.eqb c "f" then Some (ascii_of_nat 12)
  else if Ascii.eqb c "n" then Some (ascii_of_nat 10)
  else if Ascii.eqb c "r" then Some (ascii_of_nat 13)
  else if Ascii.eqb c "t" then Some (ascii_of_nat 9)
  else None.

Definition cons_char (c : ascii) (r : option (string * string)) : option (string * string) :=
  match r with
  | Some (text, rest) => Some (String c text, rest)
  | None => None
  end.

(** The string that starts after an opening quote, and what follows its
    closing quote.  Strict mode: a raw control character is refused.  A
    [\uXXXX] escape above 0xFF names a character the strings of this
    model do not have; the model answers [None] there, where Python
    returns the character. *)
Fixpoint scanstring (s : string) : option (string * string) :=
  match s with
  | EmptyString => None
  | String c rest =>
      if Ascii.eqb c dquote then Some (EmptyString, rest)
      else if Ascii.eqb c backslash then
        match rest with
        | EmptyString => None
        | String e rest1 =>
            if Ascii.eqb e "u" then
              match rest1 with
              | String h1 (String h2 (String h3 (String h4 rest2))) =>
                  match hex4 h1 h2 h3 h4 with
                  | Some n =>
                      if (n <? 256)%nat then cons_char (ascii_of_nat n) (scanstring rest2)
                      else None
                  | None => None
                  end
              | _ => None
              end
            else
              match unescape e with
              | Some ch => cons_char ch (scanstring rest1)
              | None => None
              end
        end
      else if (nat_of_ascii c <? 32)%nat then None
      else cons_char c (scanstring rest)
  end.

Definition digit_cons (c : ascii) (d : uint) : uint :=
  match c with
  | "0" => D0 d | "1" => D1 d | "2" => D2 d | "3" => D3 d | "4" => D4 d
  | "5" => D5 d | "6" => D6 d | "7" => D7 d | "8" => D8 d | _ => D9 d
  end%char.

(** The longest run of digits at the start of [s], and the rest. *)
Fixpoint lex_digits (s : string) : uint * string :=
  match s with
  | String c rest =>
      if is_digit c then
        let (d, r) := lex_digits rest in (digit_cons c d, r)
      else (Nil, s)
  | EmptyString => (Nil, s)
  end.

(** The integer part of a number: [0], or a digit 1-9 and more digits. *)
Definition lex_integer (s : string) : option (uint * string) :=
  match s with
  | String c rest =>
      if Ascii.eqb c "0" then Some (D0 Nil, rest)
      else if is_digit c then Some (lex_digits s)
      else None
  | EmptyString => None
  end.

(** The text after the character [c], when [s] starts with it. *)
Definition starts_with (c : ascii) (s : string) : option string :=
  match s with
  | String a r => if Ascii.eqb a c then Some r else None
  | EmptyString => None
  end.

(** An optional fraction: a dot and at least one digit. *)
Definition lex_fraction (s : string) : option (string * string) :=
  match starts_with "." s with
  | Some rest =>
      match lex_digits rest with
      | (Nil, _) => None
      | (d, r) => Some ("." ++ NilEmpty.string_of_uint d, r)
      end
  | None => None
  end.

(** An optional exponent: e or E, an optional sign, at least one digit. *)
Definition lex_exponent (s : string) : option (string * string) :=
  match s with
  | String e rest =>
      if Ascii.eqb e "e" || Ascii.eqb e "E" then
        let (sign, rest1) :=
          match starts_with "+" rest, starts_with "-" rest with
          | Some r, _ => ("+", r)
          | None, Some r => ("-", r)
          | None, None => ("", rest)
          end in
        match lex_digits rest1 with
        | (Nil, _) => None
        | (d, r) => Some (str1 e ++ sign ++ NilEmpty.string_of_uint d, r)
        end
      else None
  | EmptyString => None
  end.

(** A number: an int when it has neither fraction nor exponent, a float
    otherwise. *)
Definition match_number (s : string) : option (value * string) :=
  let (negative, s1) :=
    match starts_with "-" s with
    | Some r => (true, r)
    | None => (false, s)
    end in
  match lex_integer s1 with
  | None => None
  | Some (d, s2) =>
      match lex_fraction s2, lex_exponent s2 with
      | None, None => Some (VInt (Z.of_int (if negative then Neg d else Pos d)), s2)
      | None, Some (expo, s4) =>
          Some (VFloat ((if negative then "-" else "")
                          ++ NilEmpty.string_of_uint d ++ expo), s4)
      | Some (frac, s3), _ =>
          match lex_exponent s3 with
          | Some (expo, s4) =>
              Some (VFloat ((if negative then "-" else "")
                              ++ NilEmpty.string_of_uint d ++ frac ++ expo), s4)
          | None =>
              Some (VFloat ((if negative then "-" else "")
                              ++ NilEmpty.string_of_uint d ++ frac), s3)
          end
      end
  end.

(** [s] without the prefix [p], when it starts with it. *)
Fixpoint strip_prefix (p s : string) : option string :=
  match p, s with
  | EmptyString, _ => Some s
  | String a p', String b s' => if Ascii.eqb a b then strip_prefix p' s' else None
  | String _ _, EmptyString => None
  end.

(** A constant, when the text starts with its name. *)
Definition match_constant (s : string) : option (value * string) :=
  match s with
  | String c _ =>
      let word (name : string) (v : value) :=
        match strip_prefix name s with
        | Some r => Some (v, r)
        | None => None
        end in
      if Ascii.eqb c "n" then word "null" VNone
      else if Ascii.eqb c "t" then word "true" (VBool true)
      else if Ascii.eqb c "f" then word "false" (VBool false)
      else if Ascii.eqb c "N" then word "NaN" (VFloat "NaN")
      else if Ascii.eqb c "I" then word "Infinity" (VFloat "Infinity")
      else if Ascii.eqb c "-" then word "-Infinity" (VFloat "-Infinity")
      else None
  | EmptyString => None
  end.

Fixpoint scan_once (fuel : nat) (s : string) {struct fuel} : option (value * string) :=
  match fuel with
  | O => None
  | S fuel' =>
      match s with
      | EmptyString => None
      | String c rest =>
          if Ascii.eqb c dquote then
            match scanstring rest with
            | Some (text, r) => Some (VStr text, r)
            | None => None
            end
          else if Ascii.eqb c "{" then
            match starts_with "}" (skip_ws rest) with
            | Some r => Some (VDict [], r)
            | None => parse_members fuel' (skip_ws rest) []
            end
          else if Ascii.eqb c "[" then
            match starts_with "]" (skip_ws rest) with
            | Some r => Some (VList [], r)
            | None => parse_elements fuel' (skip_ws rest) []
            end
          else
            match match_constant s with
            | Some r => Some r
            | None => match_number s
            end
      end
  end

(** The elements of an array after its opening bracket; [acc] holds the
    elements read so far, last first. *)
with parse_elements (fuel : nat) (s : string) (acc : list value) {struct fuel}
  : option (value * string) :=
  match fuel with
  | O => None
  | S fuel' =>
      match scan_once fuel' s with
      | None => None
      | Some (v, s1) =>
          match starts_with "]" (skip_ws s1), starts_with "," (skip_ws s1) with
          | Some r, _ => Some (VList (List.rev (v :: acc)), r)
          | None, Some r => parse_elements fuel' (skip_ws r) (v :: acc)
          | None, None => None
          end
      end
  end

(** The members of an object after its opening brace; [acc] is the
    dictionary built so far. *)
with parse_members (fuel : nat) (s : string) (acc : dict) {struct fuel}
  : option (value * string) :=
  match fuel with
  | O => None
  | S fuel' =>
      match starts_with dquote s with
      | None => None
      | Some rest =>
          match scanstring rest with
          | None => None
          | Some (key, s1) =>
              match starts_with ":" (skip_ws s1) with
              | None => None
              | Some s2 =>
                  match scan_once fuel' (skip_ws s2) with
                  | None => None
                  | Some (v, s3) =>
                      match starts_with "}" (skip_ws s3), starts_with "," (skip_ws s3) with
                      | Some r, _ => Some (VDict (dict_set acc key v), r)
                      | None, Some r =>
                          parse_members fuel' (skip_ws r) (dict_set acc key v)
                      | None, None => None
                      end
                  end
              end
          end
      end
  end.

(** [json.loads(s)]: [Some v] when it returns [v], [None] when it raises
    (a JSONDecodeError).  White space may surround the value; nothing else
    may follow it. *)
Definition json_loads (s : string) : option value :=
  let s0 := skip_ws s in
  match scan_once (S (String.length s0)) s0 with
  | Some (v, rest) =>
      match skip_ws rest with
      | EmptyString => Some v
      | String _ _ => None
      end
  | None => None
  end.

(** ** The module constants *)

(** [LEVEL_CONVERSION], with the numeric levels of [logging]. *)
Definition LEVEL_CONVERSION : list (string * Z) :=
  [("debug", 10%Z); ("info", 20%Z); ("warning", 30%Z);
   ("warn", 30%Z); ("error", 40%Z); ("critical", 50%Z)].

(** The escape sequences of colorama's [Fore] and [Style]. *)
Definition Fore_RED : string := esc ++ "[31m".
Definition Fore_GREEN : string := esc ++ "[32m".
Definition Fore_YELLOW : string := esc ++ "[33m".
Definition Fore_MAGENTA : string := esc ++ "[35m".
Definition Fore_CYAN : string := esc ++ "[36m".
Definition Style_BRIGHT : string := esc ++ "[1m".
Definition Style_RESET_ALL : string := esc ++ "[0m".

(** ** JsonFormatter *)

(** [JsonFormatter.format]: [json.dumps(record.msg, indent=4 if pretty else None)]. *)
Definition JsonFormatter_format (pretty : bool) (msg : value) : string :=
  json_dumps (if pretty then Some 4%nat else None) msg.

(** ** ConsoleFormatter *)

(** The store of the dictionaries that log records carry: [record.msg] is
    an address, [dict.copy] allocates, [dict.pop] writes in place. *)
Definition addr : Type := nat.
Definition heap : Type := list dict.

(** Computations that read and write the store and may raise. *)
Definition M (A : Type) : Type := heap -> outcome A * heap.

Definition ret {A : Type} (a : A) : M A := fun h => (Return a, h).

Definition raise {A : Type} (e : exn) : M A := fun h => (Raise e, h).

Definition mbind {A B : Type} (m : M A) (k : A -> M B) : M B :=
  fun h =>
    match m h with
    | (Return a, h') => k a h'
    | (Raise e, h') => (Raise e, h')
    end.

Declare Scope heap_scope.
Delimit Scope heap_scope with heap.
Notation "x <- m ;; k" := (mbind m (fun x => k))
  (at level 61, m at next level, right associativity) : heap_scope.
Notation "m ;;; k" := (mbind m (fun _ => k))
  (at level 61, right associativity) : heap_scope.

(** [h] with the dictionary at address [a] replaced by [d]. *)
Fixpoint heap_write (h : heap) (a : addr) (d : dict) : heap :=
  match h, a with
  | [], _ => []
  | _ :: rest, O => d :: rest
  | x :: rest, S a' => x :: heap_write rest a' d
  end.

(** The dictionary at [a]; an address that holds none stands for a
    [msg] that is no dictionary, whose methods are missing. *)
Definition heap_read (a : addr) : M dict :=
  fun h =>
    match nth_error h a with
    | Some d => (Return d, h)
    | None => (Raise AttributeError, h)
    end.

(** [d.copy()]: a new dictionary with the bindings of the one at [a]. *)
Definition heap_copy (a : addr) : M addr :=
  fun h =>
    match nth_error h a with
    | Some d => (Return (List.length h), (h ++ [d])%list)
    | None => (Raise AttributeError, h)
    end.

(** [d.get(k)] on the dictionary at [a]: Python's None when absent. *)
Definition heap_get (a : addr) (k : string) : M value :=
  (d <- heap_read a ;;
   ret (match dict_get d k with Some v => v | None => VNone end))%heap.

(** [d.pop(k)] on the dictionary at [a]. *)
Definition heap_pop (a : addr) (k : string) : M value :=
  fun h =>
    match nth_error h a with
    | Some d =>
        match dict_pop d k with
        | Return (v, d') => (Return v, heap_write h a d')
        | Raise e => (Raise e, h)
        end
    | None => (Raise AttributeError, h)
    end.

(** [ConsoleFormatter._get_level_color]: AttributeError when [level] has
    no [lower] method; [None] for a name outside the table. *)
Definition ConsoleFormatter_get_level_color (level : value) : outcome (option string) :=
  match level with
  | VStr l =>
      Return (dict_get [("debug", Fore_CYAN); ("info", Fore_GREEN);
                        ("warning", Fore_YELLOW); ("warn", Fore_YELLOW);
                        ("error", Fore_RED); ("critical", Style_BRIGHT ++ Fore_RED)]
                       (lower l))
  | _ => Raise AttributeError
  end.

(** [prefix + v + Style.RESET_ALL] for a str prefix: TypeError unless [v]
    is a str. *)
Definition colored (prefix : string) (v : value) : outcome value :=
  match v with
  | VStr s => Return (VStr (prefix ++ s ++ Style_RESET_ALL))
  | _ => Raise TypeError
  end.

(** The colouring step of [format]: level, then timestamp, then name. *)
Definition colorize (level timestamp name : value) : outcome (value * value * value) :=
  (color <- ConsoleFormatter_get_level_color level ;;
   level' <- match color with
             | Some c => colored c level
             | None => Raise TypeError
             end ;;
   timestamp' <- colored Fore_GREEN timestamp ;;
   name' <- colored Fore_MAGENTA name ;;
   Return (level', timestamp', name'))%outcome.

Definition lift {A : Type} (o : outcome A) : M A := fun h => (o, h).

(** The lines of the extra fields, as the loop over [record.items()]
    appends them. *)
Fixpoint extra_lines (msg : string) (items : dict) : string :=
  match items with
  | [] => msg
  | (key, v) :: rest => extra_lines (msg ++ nl ++ "  " ++ key ++ "=" ++ py_str v) rest
  end.

(** [ConsoleFormatter.format], on the store.  [COLORAMA] is the module
    flag set by the optional import; [pretty] and [color] are the fields
    of the formatter; [msg] is [record.msg]. *)
Definition ConsoleFormatter_format_heap (COLORAMA pretty color : bool) (msg : addr)
  : M string :=
  (record <- heap_copy msg ;;
   name <- heap_get record "name" ;;
   timestamp <- heap_get record "timestamp" ;;
   level <- heap_get record "level" ;;
   message <- heap_get record "message" ;;
   heap_pop record "name" ;;;
   heap_pop record "timestamp" ;;;
   heap_pop record "level" ;;;
   heap_pop record "message" ;;;
   heap_pop record "hostname" ;;;
   heap_pop record "pid" ;;;
   shown <- (if COLORAMA && color
             then lift (colorize level timestamp name)
             else ret (level, timestamp, name)) ;;
   let '(level, timestamp, name) := shown in
   let msg := py_str timestamp ++ " - " ++ py_str name ++ " - "
                ++ py_str level ++ " - " ++ py_str message in
   extras <- heap_read record ;;
   if pretty then ret (extra_lines msg extras)
   else match extras with
        | [] => ret msg
        | _ => ret (msg ++ nl ++ json_dumps (Some 4%nat) (VDict extras))
        end)%heap.

(** [format] as a function of the contents of [record.msg]: the output on
    a store that holds that dictionary alone. *)
Definition ConsoleFormatter_format (COLORAMA pretty color : bool) (msg : dict)
  : outcome string :=
  fst (ConsoleFormatter_format_heap COLORAMA pretty color 0 [msg]).

(** ** The Wryte facade: context objects *)

(** A context object as a caller passes it: a mapping or a string. *)
Inductive context_object : Type :=
| Mapping (d : dict)
| Text (s : string).

(** [Wryte._split_kv]: [kv = pair.split('=', 1)], then [{kv[0]: kv[1]}]. *)
Definition _split_kv (pair : string) : outcome value :=
  let kv := split_once "=" pair in
  match nth_error kv 0, nth_error kv 1 with
  | Some k, Some v => Return (VDict [(k, VStr v)])
  | _, _ => Raise IndexError
  end.

Section Normalizer.
(** [json.loads] on a str: [Some v] when it returns [v], [None] when it
    raises.  The functions of this section take it as a parameter;
    [json_loads] above is the instance the scenarios run. *)
Variable loads : string -> option value.

(** The body of the loop of [_normalize_objects]: the value appended
    for [obj]. *)
Definition normalize_object (obj : context_object) : outcome value :=
  match obj with
  | Mapping d => Return (VDict d)
  | Text s =>
      match loads s with
      | Some v => Return v
      | None =>
          if contains_char "=" s then _split_kv s
          else Return (VDict [("_bad_object", VStr s)])
      end
  end.

Fixpoint normalize_loop (objects : list context_object) (normalized_objects : list value)
  : outcome (list value) :=
  match objects with
  | [] => Return normalized_objects
  | obj :: rest =>
      (v <- normalize_object obj ;;
       normalize_loop rest (normalized_objects ++ [v])%list)%outcome
  end.

(** [Wryte._normalize_objects]. *)
Definition _normalize_objects (objects : list context_object) : outcome (list value) :=
  normalize_loop objects [].
End Normalizer.

(** ** The Wryte facade: enrichment *)

(** [Wryte._get_base]; [gethostname] and [pid] are what
    [socket.gethostname()] and [os.getpid()] answer.  An empty [hostname]
    is false for [or], as [None] is. *)
Definition _get_base (name hostname : option string) (gethostname : string) (pid : Z) : dict :=
  [("name", match name with Some n => VStr n | None => VNone end);
   ("hostname", VStr match hostname with
                     | Some EmptyString | None => gethostname
                     | Some h => h
                     end);
   ("pid", VInt pid)].

(** One item of an iterable passed to [dict.update]: a sequence of
    exactly two elements. *)
Definition update_item (item : value) : outcome (value * value) :=
  match item with
  | VList [k; v] => Return (k, v)
  | VList _ => Raise ValueError
  | VStr (String a (String b EmptyString)) => Return (VStr (str1 a), VStr (str1 b))
  | VStr _ => Raise ValueError
  | VDict [(k1, _); (k2, _)] => Return (VStr k1, VStr k2)
  | VDict _ => Raise ValueError
  | VNone | VBool _ | VInt _ | VFloat _ => Raise TypeError
  end.

(** [log.update(items)] for a list: each item gives a key and a value.  A
    list or a dict is no key (TypeError).  A key that is a number, a
    boolean or None has no place in the string-keyed dictionaries of this
    model: [Unmodelled] marks it, and is no Python exception. *)
Fixpoint update_from_items (log : dict) (items : list value) : outcome dict :=
  match items with
  | [] => Return log
  | item :: rest =>
      (kv <- update_item item ;;
       match fst kv with
       | VStr k => update_from_items (dict_set log k (snd kv)) rest
       | VList _ | VDict _ => Raise TypeError
       | VNone | VBool _ | VInt _ | VFloat _ => Raise Unmodelled
       end)%outcome
  end.

(** [log.update(part)]: a mapping is merged; any other value is read as an
    iterable of pairs (a non-empty str fails on its first character). *)
Definition update_with (log : dict) (part : value) : outcome dict :=
  match part with
  | VDict d => Return (dict_update log d)
  | VList items => update_from_items log items
  | VStr EmptyString => Return log
  | VStr _ => Raise ValueError
  | VNone | VBool _ | VInt _ | VFloat _ => Raise TypeError
  end.

Fixpoint update_all (log : dict) (objects : list value) : outcome dict :=
  match objects with
  | [] => Return log
  | part :: rest => (log' <- update_with log part ;; update_all log' rest)%outcome
  end.

(** [Wryte._enrich]; [log_base] is [self.log_base] and [now] is what
    [self._get_timestamp()] answers. *)
Definition _enrich (loads : string -> option value) (log_base : dict) (now : string)
    (message : value) (level : string) (objects : list context_object) : outcome dict :=
  (objects <- _normalize_objects loads objects ;;
   let log := log_base in
   log <- update_all log objects ;;
   Return (dict_update log [("message", message);
                            ("level", VStr (upper level));
                            ("timestamp", VStr now)]))%outcome.

(** ** The Wryte facade: handlers *)

Inductive formatter : Type :=
| JsonFormatter (pretty : bool)
| ConsoleFormatter (pretty color : bool).

(** What the facade reads and writes of a [logging.Handler] object. *)
Record handler : Type := mk_handler {
  handler_name : option string;
  handler_formatter : option formatter
}.

(** A handler is an object: callers and the logger hold its address, and
    [set_name] and [setFormatter] write to the object itself. *)
Definition handler_store : Type := list (addr * handler).

Definition new_handler : handler := mk_handler None None.

Fixpoint store_get (st : handler_store) (a : addr) : handler :=
  match st with
  | [] => new_handler
  | (a', h) :: rest => if Nat.eqb a' a then h else store_get rest a
  end.

Definition store_set (st : handler_store) (a : addr) (h : handler) : handler_store :=
  (a, h) :: st.

(** The logger of [logging]: its level (the one threshold of the sink) and
    its list of handlers. *)
Record logger : Type := mk_logger {
  logger_level : Z;
  logger_handlers : list addr
}.

Record Wryte : Type := mk_Wryte {
  wryte_name : string;
  wryte_pretty : option bool;
  wryte_color : bool;
  wryte_log_base : dict;
  wryte_logger : logger;
  wryte_handlers : handler_store
}.

(** [x or default] for an optional flag [x]. *)
Definition flag_or (x : option bool) (default : bool) : bool :=
  match x with
  | Some true => true
  | Some false | None => default
  end.

Definition mem_addr (a : addr) (l : list addr) : bool := existsb (Nat.eqb a) l.

(** [Logger.addHandler]: a handler already in the list is not added again. *)
Definition Logger_addHandler (lg : logger) (hdlr : addr) : logger :=
  if mem_addr hdlr (logger_handlers lg) then lg
  else mk_logger (logger_level lg) (logger_handlers lg ++ [hdlr])%list.

Definition Logger_setLevel (lg : logger) (level : Z) : logger :=
  mk_logger level (logger_handlers lg).

(** [list.remove(x)]: the first occurrence goes. *)
Fixpoint remove_first (a : addr) (l : list addr) : list addr :=
  match l with
  | [] => []
  | x :: rest => if Nat.eqb x a then rest else x :: remove_first a rest
  end.

(** [Logger.removeHandler]. *)
Definition Logger_removeHandler (lg : logger) (hdlr : addr) : logger :=
  if mem_addr hdlr (logger_handlers lg)
  then mk_logger (logger_level lg) (remove_first hdlr (logger_handlers lg))
  else lg.

(** [Wryte.add_handler].  [uuid4] is what [str(uuid.uuid4())] answers when
    it is called; [handler] is the address of the handler object.  The
    assertion leaves two kinds of formatter; the console one needs
    [colorama], a name that is not bound when the import failed. *)
Definition add_handler (COLORAMA : bool) (uuid4 : string) (self : Wryte)
    (handler : addr) (name : option string) (formatter level : string)
  : outcome (string * Wryte) :=
  if negb (dict_has LEVEL_CONVERSION (lower level)) then Raise WryteError
  else
    let name := match name with
                | Some (String _ _ as n) => n
                | Some EmptyString | None => uuid4
                end in
    if negb (String.eqb formatter "console" || String.eqb formatter "json")
    then Raise AssertionError
    else
      (_formatter <- (if String.eqb formatter "json"
                      then Return (JsonFormatter (flag_or (wryte_pretty self) false))
                      else if COLORAMA
                           then Return (ConsoleFormatter (flag_or (wryte_pretty self) true)
                                                         (wryte_color self))
                           else Raise NameError) ;;
       let objects := store_set (wryte_handlers self) handler
                                (mk_handler (Some name) (Some _formatter)) in
       numeric <- match dict_get LEVEL_CONVERSION (lower level) with
                  | Some n => Return n
                  | None => Raise (KeyError (lower level))
                  end ;;
       let lg := Logger_addHandler (Logger_setLevel (wryte_logger self) numeric) handler in
       Return (name, mk_Wryte (wryte_name self) (wryte_pretty self) (wryte_color self)
                              (wryte_log_base self) lg objects))%outcome.

(** [Wryte.list_handlers]. *)
Definition list_handlers (self : Wryte) : list (option string) :=
  map (fun a => handler_name (store_get (wryte_handlers self) a))
      (logger_handlers (wryte_logger self)).

(** [handler.name == name]. *)
Definition name_is (st : handler_store) (h : addr) (name : string) : bool :=
  match handler_name (store_get st h) with
  | Some n => String.eqb n name
  | None => false
  end.

(** A value together with the equation that names it. *)
Definition inspect {A : Type} (x : A) : {y : A | x = y} := exist _ x eq_refl.

(** The loop of [Wryte.remove_handler].  A [for] over a Python list reads
    the element at the next index of the list as it is at that moment, and
    stops when the index is past the end; [removeHandler] shortens that
    same list meanwhile.  [i] is the index of the iterator. *)
Equations? remove_loop (st : handler_store) (name : string) (lg : logger) (i : nat)
  : logger by wf (List.length (logger_handlers lg) - i)%nat lt :=
  remove_loop st name lg i with inspect (nth_error (logger_handlers lg) i) := {
    | exist _ None _ => lg
    | exist _ (Some h) Hnth with name_is st h name := {
        | true => remove_loop st name (Logger_removeHandler lg h) (S i)
        | false => remove_loop st name lg (S i)
      }
  }.
Proof.
  - clear remove_loop.
    assert (i < List.length (logger_handlers lg))%nat
      by (apply nth_error_Some; congruence).
    assert (List.length (logger_handlers (Logger_removeHandler lg h))
            <= List.length (logger_handlers lg))%nat; [|lia].
    unfold Logger_removeHandler.
    destruct (mem_addr h (logger_handlers lg)); simpl; [|apply Nat.le_refl].
    generalize (logger_handlers lg) as l; clear.
    induction l as [|x l IH]; simpl; [lia|].
    destruct (Nat.eqb x h); simpl; lia.
  - clear remove_loop.
    assert (i < List.length (logger_handlers lg))%nat
      by (apply nth_error_Some; congruence).
    lia.
Qed.

(** [Wryte.remove_handler]. *)
Definition remove_handler (self : Wryte) (name : string) : Wryte :=
  mk_Wryte (wryte_name self) (wryte_pretty self) (wryte_color self)
           (wryte_log_base self)
           (remove_loop (wryte_handlers self) name (wryte_logger self) 0)
           (wryte_handlers self).

(** ** The precedence of the fields of a record, in the words of the
    specification *)

(** The severity names. *)
Definition severity_names : list string := map fst LEVEL_CONVERSION.

(** What the context objects say about [k]: they are read in call order
    and a later object overrides what is [below]. *)
Fixpoint context_lookup (parts : list dict) (k : string) (below : option value)
  : option value :=
  match parts with
  | [] => below
  | d :: rest =>
      context_lookup rest k (match dict_get d k with
                             | Some v => Some v
                             | None => below
                             end)
  end.

(** The field [k] of an enriched record by precedence: message, level and
    timestamp first, then the context objects, then the identity base. *)
Definition precedence_lookup (log_base : dict) (parts : list dict)
    (message : value) (level now : string) (k : string) : option value :=
  if String.eqb k "timestamp" then Some (VStr now)
  else if String.eqb k "level" then Some (VStr (upper level))
  else if String.eqb k "message" then Some message
  else context_lookup parts k (dict_get log_base k).

(** ** The output of the console formatter, as a function of the record *)

(** The fields [format] takes out of its copy, in the order of the pops. *)
Definition expected_fields : list string :=
  ["name"; "timestamp"; "level"; "message"; "hostname"; "pid"].

(** The first expected field that [msg] lacks. *)
Definition first_missing (msg : dict) : option string :=
  find (fun k => negb (dict_has msg k)) expected_fields.

(** The extra fields of a record: all but the expected ones, in the order
    of the record. *)
Definition extra_fields (msg : dict) : dict :=
  filter (fun kv => negb (existsb (String.eqb (fst kv)) expected_fields)) msg.

(** [d.get(k)]. *)
Definition field (d : dict) (k : string) : value :=
  match dict_get d k with Some v => v | None => VNone end.

(** One line ["  key=value"] per field, each after a new line. *)
Fixpoint detail_lines (items : dict) : string :=
  match items with
  | [] => ""
  | (key, v) :: rest => nl ++ "  " ++ key ++ "=" ++ py_str v ++ detail_lines rest
  end.

(** The head line ["{timestamp} - {name} - {level} - {message}"]. *)
Definition head_line (timestamp name level message : value) : string :=
  py_str timestamp ++ " - " ++ py_str name ++ " - " ++ py_str level
    ++ " - " ++ py_str message.

(** A sequence of pops on a dictionary. *)
Fixpoint pop_fields (record : dict) (fields : list string) : outcome dict :=
  match fields with
  | [] => Return record
  | k :: rest =>
      match dict_pop record k with
      | Return (_, record') => pop_fields record' rest
      | Raise e => Raise e
      end
  end.

(** What [ConsoleFormatter.format] returns or raises for a record with the
    contents [msg] ([format_heap_run] below). *)
Definition format_output (COLORAMA pretty color : bool) (msg : dict) : outcome string :=
  (extras <- pop_fields msg expected_fields ;;
   shown <- (if COLORAMA && color
             then colorize (field msg "level") (field msg "timestamp") (field msg "name")
             else Return (field msg "level", field msg "timestamp", field msg "name")) ;;
   let '(level, timestamp, name) := shown in
   let head := head_line timestamp name level (field msg "message") in
   Return (if pretty then extra_lines head extras
           else match extras with
                | [] => head
                | _ => head ++ nl ++ json_dumps (Some 4%nat) (VDict extras)
                end))%outcome.

(** ** Building a facade, and sequences of calls *)

(** [Wryte.__init__].  [logging.getLogger(name)] answers the logger of that
    name as it is at that moment, [lg] with the handler objects [objects];
    [module_name] is [__name__]; [stream_handler] is the address of the
    new [logging.StreamHandler]. *)
Definition Wryte_init (COLORAMA : bool) (lg : logger) (objects : handler_store)
    (module_name gethostname : string) (pid : Z) (stream_handler : addr)
    (name hostname : option string) (level : string) (pretty : option bool)
    (bare jsonify color : bool) : outcome Wryte :=
  let self :=
    mk_Wryte (match name with
              | Some (String _ _ as n) => n
              | Some EmptyString | None => module_name
              end)
             pretty color (_get_base name hostname gethostname pid) lg objects in
  if bare then Return self
  else
    (added <- (if jsonify
               then add_handler COLORAMA "" self stream_handler (Some "_json") "json" level
               else add_handler COLORAMA "" self stream_handler (Some "_console")
                                "console" level) ;;
     Return (snd added))%outcome.

(** One call of [add_handler]: its arguments, and what [uuid4] answers if
    the call asks. *)
Record call : Type := mk_call {
  call_handler : addr;
  call_name : option string;
  call_formatter : string;
  call_level : string;
  call_uuid4 : string
}.

(** Calls of [add_handler] one after the other; the first that raises
    ends the sequence. *)
Fixpoint add_handlers (COLORAMA : bool) (self : Wryte) (calls : list call)
  : outcome Wryte :=
  match calls with
  | [] => Return self
  | c :: rest =>
      (added <- add_handler COLORAMA (call_uuid4 c) self (call_handler c)
                            (call_name c) (call_formatter c) (call_level c) ;;
       add_handlers COLORAMA (snd added) rest)%outcome
  end.

(** The lowest of the severities that the calls ask for, in the words of
    the specification. *)
Fixpoint lowest_requested (calls : list call) : option Z :=
  match calls with
  | [] => None
  | c :: rest =>
      match dict_get LEVEL_CONVERSION (lower (call_level c)), lowest_requested rest with
      | Some n, Some m => Some (Z.min n m)
      | Some n, None => Some n
      | None, m => m
      end
  end.

(** The name [add_handler] gives the handler: [name or str(uuid.uuid4())]. *)
Definition name_or_uuid (name : option string) (uuid4 : string) : string :=
  match name with
  | Some (String _ _ as n) => n
  | Some EmptyString | None => uuid4
  end.

(** A facade built with [bare=True] on a logger that has no handler yet
    and the level NOTSET. *)
Definition bare_facade : Wryte :=
  mk_Wryte "svc" None true (_get_base (Some "svc") (Some "h1") "localhost" 42)
           (mk_logger 0 []) [].

(** ** JSON values that the round trip covers *)

(** A value built from None, booleans, integers, strings, lists and
    dictionaries with one binding per key: no float inside. *)
Fixpoint plain_json (v : value) : bool :=
  match v with
  | VFloat _ => false
  | VList l => forallb plain_json l
  | VDict d =>
      unique_keys d
      && forallb (fun kv => match kv with (_, x) => plain_json x end) d
  | VNone | VBool _ | VInt _ | VStr _ => true
  end.

(** The number of calls the decoder makes for a value. *)
Fixpoint decode_cost (v : value) : nat :=
  match v with
  | VList l => S (list_sum (map (fun x => S (decode_cost x)) l))
  | VDict d => S (list_sum (map (fun kv => match kv with
                                           | (_, x) => S (decode_cost x)
                                           end) d))
  | _ => 1
  end.

(** The text after a value of an encoded container, or its end. *)
Definition stops (rest : string) : bool :=
  match rest with
  | EmptyString => true
  | String c _ => Ascii.eqb c "," || Ascii.eqb c "]" || Ascii.eqb c "}"
  end.

(** ** The JSON round trip, stated *)

(** Text that does not go on a number: no digit, dot or exponent mark. *)
Definition ends_number (rest : string) : bool :=
  match rest with
  | EmptyString => true
  | String c _ =>
      negb (is_digit c) && negb (Ascii.eqb c ".")
      && negb (Ascii.eqb c "e") && negb (Ascii.eqb c "E")
  end.

Section ValueInduction.
Variable P : value -> Prop.
Hypothesis HNone : P VNone.
Hypothesis HBool : forall b, P (VBool b).
Hypothesis HInt : forall z, P (VInt z).
Hypothesis HFloat : forall literal, P (VFloat literal).
Hypothesis HStr : forall s, P (VStr s).
Hypothesis HList : forall l, Forall P l -> P (VList l).
Hypothesis HDict : forall d, Forall (fun kv => P (snd kv)) d -> P (VDict d).

(** Induction on a value with the hypothesis for every element of a
    list and every value of a dictionary. *)
Fixpoint value_nested_ind (v : value) : P v :=
  match v with
  | VNone => HNone
  | VBool b => HBool b
  | VInt z => HInt z
  | VFloat literal => HFloat literal
  | VStr s => HStr s
  | VList l =>
      HList l ((fix elements (l : list value) : Forall P l :=
                  match l with
                  | [] => Forall_nil P
                  | x :: rest => Forall_cons x (value_nested_ind x) (elements rest)
                  end) l)
  | VDict d =>
      HDict d ((fix members (d : list (string * value))
                 : Forall (fun kv => P (snd kv)) d :=
                  match d with
                  | [] => Forall_nil _
                  | (k, x) :: rest =>
                      Forall_cons (k, x) (value_nested_ind x) (members rest)
                  end) d)
  end.
End ValueInduction.

(** The characters an encoded value can start with. *)
Definition value_head (c : ascii) : bool :=
  is_digit c || Ascii.eqb c "-" || Ascii.eqb c dquote || Ascii.eqb c "["
  || Ascii.eqb c "{" || Ascii.eqb c "n" || Ascii.eqb c "t" || Ascii.eqb c "f".

(** ** Floats, and the values that the compact round trip covers *)

(** The text [json.dumps] prints for a float other than NaN: [Infinity],
    [-Infinity], or, for a finite float, the text of [float.__repr__],
    which is a JSON number with a fraction or an exponent and nothing
    after it.  A float of a record is held as that text. *)
Definition float_text (s : string) : bool :=
  String.eqb s "Infinity" || String.eqb s "-Infinity"
  || match match_number s with
     | Some (VFloat _, EmptyString) => true
     | _ => false
     end.

(** A value built from None, booleans, integers, floats other than NaN,
    strings, lists and dictionaries with one binding per key. *)
Fixpoint json_exact (v : value) : bool :=
  match v with
  | VFloat literal => float_text literal
  | VList l => forallb json_exact l
  | VDict d =>
      unique_keys d
      && forallb (fun kv => match kv with (_, x) => json_exact x end) d
  | VNone | VBool _ | VInt _ | VStr _ => true
  end.

(** The characters the encoding of such a value can start with. *)
Definition text_head (c : ascii) : bool := value_head c || Ascii.eqb c "I".

(** A result of a lexer with [rest] put after what it left. *)
Definition with_rest {A : Type} (rest : string) (r : option (A * string))
  : option (A * string) :=
  match r with
  | Some (a, s) => Some (a, s ++ rest)
  | None => None
  end.

(** ** Equality of values, as [==] decides it *)

(** Conjunction of answers that may be unknown: false as soon as one is
    known to be false. *)
Definition and3 (a b : option bool) : option bool :=
  match a, b with
  | Some false, _ => Some false
  | _, Some false => Some false
  | Some true, Some true => Some true
  | _, _ => None
  end.

Fixpoint all3 {A : Type} (f : A -> option bool) (l : list A) : option bool :=
  match l with
  | [] => Some true
  | x :: rest => and3 (f x) (all3 f rest)
  end.

(** Element by element, for two lists of one length. *)
Fixpoint all3_pairs {A B : Type} (f : A -> B -> option bool) (l : list A) (m : list B)
  : option bool :=
  match l, m with
  | [], [] => Some true
  | x :: l', y :: m' => and3 (f x y) (all3_pairs f l' m')
  | _, _ => Some false
  end.

Definition is_nan (literal : string) : bool := String.eqb literal "NaN".

Definition is_infinite (literal : string) : bool :=
  String.eqb literal "Infinity" || String.eqb literal "-Infinity".

(** [a == b] for two values that share no float object, as a record a
    caller built and the mapping the decoder builds from text: [Some b]
    when the answer is [b]; [None] where the answer needs the numeric
    value of a finite float, which is outside the embedding.  NaN is
    equal to no value, itself included; a boolean is the integer 0 or 1;
    two lists are equal element by element; two dictionaries are equal
    when they have the same number of keys and every key of the first has
    an equal value in the second, whatever the order. *)
Fixpoint py_eq (a b : value) {struct a} : option bool :=
  match a, b with
  | VNone, VNone => Some true
  | VBool x, VBool y => Some (Bool.eqb x y)
  | VBool x, VInt z => Some (Z.eqb (Z.b2z x) z)
  | VInt z, VBool x => Some (Z.eqb z (Z.b2z x))
  | VInt x, VInt y => Some (Z.eqb x y)
  | VFloat f, VFloat g =>
      if is_nan f || is_nan g then Some false
      else if String.eqb f g then Some true
      else None
  | VFloat f, VInt _ | VFloat f, VBool _ | VInt _, VFloat f | VBool _, VFloat f =>
      if is_nan f || is_infinite f then Some false else None
  | VStr s, VStr t => Some (String.eqb s t)
  | VList l, VList m => all3_pairs py_eq l m
  | VDict d, VDict e =>
      if Nat.eqb (List.length d) (List.length e) then
        all3 (fun kv => match kv with
                        | (k, x) =>
                            match dict_get e k with
                            | Some y => py_eq x y
                            | None => Some false
                            end
                        end) d
      else Some false
  | _, _ => Some false
  end.

(** What the round trip says of one value: the decoder, given the fuel
    the value costs, reads the encoding back and stops where it ends. *)
Definition reads_back (v : value) : Prop :=
  json_exact v = true ->
  forall (level fuel : nat) (rest : string),
    stops rest = true ->
    (decode_cost v <= fuel)%nat ->
    scan_once fuel (json_encode None level v ++ rest) = Some (v, rest).

(** The text of one member of an object. *)
Definition member_text (level : nat) (kv : string * value) : string :=
  match kv with
  | (k, x) => json_string k ++ ": " ++ json_encode None level x
  end.

(** What a successful run says: it used up text, and any fuel that is at
    least the length of the text it used gives the same result. *)
Definition settled {A : Type} (run : nat -> string -> A -> option (value * string))
    (fuel : nat) : Prop :=
  forall (s : string) (a : A) (v : value) (r : string),
    run fuel s a = Some (v, r) ->
    (String.length r < String.length s)%nat
    /\ forall fuel', (String.length s - String.length r <= fuel')%nat ->
                     run fuel' s a = Some (v, r).

(** ** The facade: default handlers, logging methods, entry point *)

(** [Wryte.add_default_json_handler]; [stream_handler] is the address of
    the new [logging.StreamHandler(sys.stdout)]. *)
Definition add_default_json_handler (COLORAMA : bool) (uuid4 : string) (self : Wryte)
    (stream_handler : addr) (level : string) : outcome (string * Wryte) :=
  add_handler COLORAMA uuid4 self stream_handler (Some "_json") "json" level.

(** [Wryte.add_default_console_handler]. *)
Definition add_default_console_handler (COLORAMA : bool) (uuid4 : string) (self : Wryte)
    (stream_handler : addr) (level : string) : outcome (string * Wryte) :=
  add_handler COLORAMA uuid4 self stream_handler (Some "_console") "console" level.

(** The logging methods build a record and hand it to the logger of
    [logging] with a numeric level: a method answers that pair, the call
    it makes to the sink. *)
Definition sink_call : Type := (Z * dict)%type.

(** [Wryte.log]: the record first, then [LEVEL_CONVERSION[level]], a
    lookup of [level] as it is given. *)
Definition Wryte_log (loads : string -> option value) (self : Wryte) (now : string)
    (level : string) (message : value) (objects : list context_object)
  : outcome sink_call :=
  (obj <- _enrich loads (wryte_log_base self) now message level objects ;;
   match dict_get LEVEL_CONVERSION level with
   | Some numeric => Return (numeric, obj)
   | None => Raise (KeyError level)
   end)%outcome.

(** The body shared by the methods named after a level: [level] is the
    name given to [_enrich], [numeric] the level of the logger method
    that the record goes to. *)
Definition log_at (loads : string -> option value) (self : Wryte) (now : string)
    (level : string) (numeric : Z) (message : value) (objects : list context_object)
  : outcome sink_call :=
  (obj <- _enrich loads (wryte_log_base self) now message level objects ;;
   Return (numeric, obj))%outcome.

(** [Wryte.debug], [info], [warn], [warning], [error], [critical]. *)
Definition Wryte_debug loads self now message objects : outcome sink_call :=
  log_at loads self now "debug" 10 message objects.

Definition Wryte_info loads self now message objects : outcome sink_call :=
  log_at loads self now "info" 20 message objects.

Definition Wryte_warn loads self now message objects : outcome sink_call :=
  log_at loads self now "warning" 30 message objects.

Definition Wryte_warning loads self now message objects : outcome sink_call :=
  log_at loads self now "warning" 30 message objects.

Definition Wryte_error loads self now message objects : outcome sink_call :=
  log_at loads self now "error" 40 message objects.

Definition Wryte_critical loads self now message objects : outcome sink_call :=
  log_at loads self now "critical" 50 message objects.

(** [main], after click has read the command line: the facade is built
    with the level as given, then [getattr(wryter, level.lower())] is
    called with the message and the objects.  Once [__init__] has
    returned, the lower-cased level is one of the six names; the last
    branch is not reached. *)
Definition main (COLORAMA : bool) (loads : string -> option value)
    (lg : logger) (handlers : handler_store) (module_name gethostname : string)
    (pid : Z) (stream_handler : addr) (now : string)
    (level message : string) (objects : list string)
    (pretty jsonify : bool) (name : string) (no_color : bool) : outcome sink_call :=
  (wryter <- Wryte_init COLORAMA lg handlers module_name gethostname pid stream_handler
                        (Some name) None level (Some pretty) false jsonify
                        (negb no_color) ;;
   let method := lower level in
   let objects := map Text objects in
   if String.eqb method "debug" then Wryte_debug loads wryter now (VStr message) objects
   else if String.eqb method "info" then Wryte_info loads wryter now (VStr message) objects
   else if String.eqb method "warning"
        then Wryte_warning loads wryter now (VStr message) objects
   else if String.eqb method "warn" then Wryte_warn loads wryter now (VStr message) objects
   else if String.eqb method "error" then Wryte_error loads wryter now (VStr message) objects
   else if String.eqb method "critical"
        then Wryte_critical loads wryter now (VStr message) objects
   else Raise AttributeError)%outcome.

(** ** What the loop of [remove_handler] computes *)

(** The handlers that stay when the loop runs over [l]: a handler that
    matches goes, and the one that follows it is kept without a test,
    since the iterator has moved past it. *)
Fixpoint skip_remove (matches : addr -> bool) (l : list addr) : list addr :=
  match l with
  | [] => []
  | h :: rest =>
      if matches h then
        match rest with
        | [] => []
        | kept :: rest' => kept :: skip_remove matches rest'
        end
      else h :: skip_remove matches rest
  end.

(** No two neighbours of [l] both match. *)
Fixpoint no_matching_neighbours (matches : addr -> bool) (l : list addr) : bool :=
  match l with
  | [] => true
  | h :: rest =>
      match rest with
      | [] => true
      | next :: _ => negb (matches h && matches next)
      end && no_matching_neighbours matches rest
  end.

(** ** JSON text at any indentation *)

(** All the characters of [s] are white space of JSON. *)
Fixpoint all_ws (s : string) : bool :=
  match s with
  | EmptyString => true
  | String c rest => is_ws c && all_ws rest
  end.

(** The white space that follows the comma of the item separator. *)
Definition separator_space (indent : option nat) (level : nat) : string :=
  match indent with
  | None => " "
  | Some n => nl ++ repeat_string (n * S level) " "
  end.

(** The round trip of one value at the indentation [indent]. *)
Definition reads_back_at (indent : option nat) (v : value) : Prop :=
  plain_json v = true ->
  forall (level fuel : nat) (rest : string),
    ends_number rest = true ->
    (decode_cost v <= fuel)%nat ->
    scan_once fuel (json_encode indent level v ++ rest) = Some (v, rest).

(** The text of one member of an object at the indentation [indent]. *)
Definition member_text_at (indent : option nat) (level : nat) (kv : string * value)
  : string :=
  match kv with
  | (k, x) => json_string k ++ ": " ++ json_encode indent level x
  end.

(** All the values of a dictionary are plain. *)
Definition plain_values (d : dict) : bool :=
  forallb (fun kv => match kv with (_, x) => plain_json x end) d.

(** A context object whose normal form is plain: a plain mapping, or a
    string that [loads] does not decode or decodes to a plain value. *)
Definition plain_object (loads : string -> option value) (obj : context_object) : bool :=
  match obj with
  | Mapping d => plain_json (VDict d)
  | Text s =>
      match loads s with
      | Some v => plain_json v
      | None => true
      end
  end.

(** * Properties *)

(** ** Dictionaries *)

Section DictFacts.
Context {V : Type}.
Implicit Types (d o : list (string * V)) (k : string) (v : V).

Lemma dict_get_set d k v k' :
  dict_get (dict_set d k v) k' = if String.eqb k k' then Some v else dict_get d k'.
Proof.
  induction d as [|[k0 v0] d IH]; simpl.
  - reflexivity.
  - destruct (String.eqb_spec k0 k) as [->|Hne]; simpl.
    + destruct (String.eqb k k'); reflexivity.
    + rewrite IH.
      destruct (String.eqb_spec k0 k') as [->|Hne'].
      * destruct (String.eqb_spec k k'); [congruence|reflexivity].
      * reflexivity.
Qed.

Lemma dict_get_set_same d k v : dict_get (dict_set d k v) k = Some v.
Proof. rewrite dict_get_set, String.eqb_refl. reflexivity. Qed.

Lemma dict_get_set_other d k v k' :
  k <> k' -> dict_get (dict_set d k v) k' = dict_get d k'.
Proof.
  intros Hne. rewrite dict_get_set.
  destruct (String.eqb_spec k k'); [contradiction|reflexivity].
Qed.

Lemma dict_update_cons d k v o :
  dict_update d ((k, v) :: o) = dict_update (dict_set d k v) o.
Proof. reflexivity. Qed.

(** Looking a key up after [update]: the other mapping first. *)
Lemma dict_get_update d o k :
  unique_keys o = true ->
  dict_get (dict_update d o) k =
  match dict_get o k with Some v => Some v | None => dict_get d k end.
Proof.
  revert d. induction o as [|[k0 v0] o IH]; intros d Hu.
  - reflexivity.
  - simpl in Hu. apply andb_true_iff in Hu as [Hk Hu].
    rewrite dict_update_cons, (IH _ Hu). simpl.
    destruct (String.eqb_spec k0 k) as [->|Hne].
    + unfold dict_has in Hk.
      destruct (dict_get o k); [discriminate|].
      apply dict_get_set_same.
    + rewrite (dict_get_set_other _ _ _ _ Hne). reflexivity.
Qed.

Lemma dict_get_remove d k k' :
  dict_get (dict_remove d k) k' = if String.eqb k k' then None else dict_get d k'.
Proof.
  unfold dict_remove.
  induction d as [|[k0 v0] d IH]; simpl.
  - destruct (String.eqb k k'); reflexivity.
  - destruct (String.eqb_spec k0 k) as [->|Hne]; simpl.
    + rewrite IH. destruct (String.eqb k k'); reflexivity.
    + rewrite IH.
      destruct (String.eqb_spec k0 k') as [->|Hne'].
      * destruct (String.eqb_spec k k'); [congruence|reflexivity].
      * reflexivity.
Qed.

Lemma dict_has_remove d k k' :
  dict_has (dict_remove d k) k' = negb (String.eqb k k') && dict_has d k'.
Proof.
  unfold dict_has. rewrite dict_get_remove.
  destruct (String.eqb k k'); reflexivity.
Qed.

Lemma dict_has_set d k v k' :
  dict_has (dict_set d k v) k' = String.eqb k k' || dict_has d k'.
Proof.
  unfold dict_has. rewrite dict_get_set.
  destruct (String.eqb k k'); reflexivity.
Qed.

Lemma unique_keys_set d k v :
  unique_keys d = true -> unique_keys (dict_set d k v) = true.
Proof.
  induction d as [|[k0 v0] d IH]; simpl; intros Hu.
  - reflexivity.
  - apply andb_true_iff in Hu as [Hk Hu].
    destruct (String.eqb_spec k0 k) as [->|Hne]; simpl.
    + rewrite Hk, Hu. reflexivity.
    + rewrite dict_has_set, (IH Hu).
      destruct (String.eqb_spec k k0); [congruence|].
      simpl. rewrite Hk. reflexivity.
Qed.

(** Setting a key that is absent appends its binding. *)
Lemma dict_set_fresh d k v :
  dict_has d k = false -> dict_set d k v = (d ++ [(k, v)])%list.
Proof.
  unfold dict_has.
  induction d as [|[k0 v0] d IH]; simpl; intros Hk.
  - reflexivity.
  - destruct (String.eqb k0 k); [discriminate|].
    rewrite (IH Hk). reflexivity.
Qed.

Lemma dict_has_app d o k : dict_has (d ++ o)%list k = dict_has d k || dict_has o k.
Proof.
  unfold dict_has.
  induction d as [|[k0 v0] d IH]; simpl.
  - reflexivity.
  - destruct (String.eqb k0 k); [reflexivity|exact IH].
Qed.
End DictFacts.

(** ** Splitting at the first [=] *)

Lemma split_first_append (c : ascii) (s : string) :
  contains_char c s = true ->
  s = before_first c s ++ String c (after_first c s).
Proof.
  induction s as [|a s IH]; simpl; intros Hc.
  - discriminate.
  - destruct (Ascii.eqb_spec a c) as [->|Hne]; simpl.
    + reflexivity.
    + rewrite <- (IH Hc). reflexivity.
Qed.

Lemma before_first_free (c : ascii) (s : string) :
  contains_char c (before_first c s) = false.
Proof.
  induction s as [|a s IH]; simpl.
  - reflexivity.
  - destruct (Ascii.eqb a c) eqn:Hac; simpl; [reflexivity|].
    rewrite Hac. exact IH.
Qed.

Lemma _split_kv_returns (s : string) :
  contains_char "=" s = true ->
  _split_kv s = Return (VDict [(before_first "=" s, VStr (after_first "=" s))]).
Proof.
  intros Hc. unfold _split_kv, split_once. rewrite Hc. reflexivity.
Qed.

(** ** Normalisation *)

Section NormalizerFacts.
Variable loads : string -> option value.

(** The loop body never raises. *)
Lemma normalize_object_returns (obj : context_object) :
  exists v, normalize_object loads obj = Return v.
Proof.
  destruct obj as [d|s]; simpl.
  - eauto.
  - destruct (loads s) as [v|]; [eauto|].
    destruct (contains_char "=" s) eqn:Hc; [|eauto].
    rewrite (_split_kv_returns s Hc). eauto.
Qed.

Lemma normalize_loop_returns (objects : list context_object) (acc : list value) :
  exists parts,
    normalize_loop loads objects acc = Return (acc ++ parts)%list
    /\ Forall2 (fun obj v => normalize_object loads obj = Return v) objects parts.
Proof.
  revert acc. induction objects as [|obj objects IH]; intros acc; simpl.
  - exists []. rewrite List.app_nil_r. split; [reflexivity|constructor].
  - destruct (normalize_object_returns obj) as [v Hv]. rewrite Hv. simpl.
    destruct (IH (acc ++ [v])%list) as [parts [Hloop Hall]].
    exists (v :: parts). rewrite Hloop, <- List.app_assoc. simpl.
    split; [reflexivity|constructor; assumption].
Qed.

(** [_normalize_objects] never raises and answers one value per item,
    the value of the loop body on that item. *)
Lemma _normalize_objects_returns (objects : list context_object) :
  exists parts,
    _normalize_objects loads objects = Return parts
    /\ List.length parts = List.length objects
    /\ Forall2 (fun obj v => normalize_object loads obj = Return v) objects parts.
Proof.
  destruct (normalize_loop_returns objects []) as [parts [Hloop Hall]].
  exists parts. repeat split; try assumption.
  symmetry. exact (Forall2_length Hall).
Qed.

(** Mappings pass through unchanged. *)
Lemma _normalize_objects_mappings (ds : list dict) :
  _normalize_objects loads (map Mapping ds) = Return (map VDict ds).
Proof.
  unfold _normalize_objects.
  enough (H : forall acc, normalize_loop loads (map Mapping ds) acc
                          = Return (acc ++ map VDict ds)%list) by apply (H []).
  induction ds as [|d ds IH]; intros acc; simpl.
  - rewrite List.app_nil_r. reflexivity.
  - rewrite IH, <- List.app_assoc. reflexivity.
Qed.

(** The one way to a value that is no mapping: a string that
    [json.loads] decodes to something else than an object. *)
Lemma normalize_object_not_dict (obj : context_object) (v : value) :
  normalize_object loads obj = Return v ->
  is_dict v = false ->
  exists s, obj = Text s /\ loads s = Some v.
Proof.
  destruct obj as [d|s]; simpl.
  - intros [= <-]. discriminate.
  - destruct (loads s) as [w|] eqn:Hl.
    + intros [= <-] _. exists s. split; [reflexivity|exact Hl].
    + destruct (contains_char "=" s) eqn:Hc.
      * rewrite (_split_kv_returns s Hc). intros [= <-]. discriminate.
      * intros [= <-]. discriminate.
Qed.
End NormalizerFacts.

(** C6.  A string that [json.loads] refuses and that contains [=] is split
    at its first [=] only, into a mapping with one pair: the key is the
    text before that [=] (it contains none) and the value is all the text
    after it.  Without any [=] the string becomes the [_bad_object]
    sentinel.  With the decoder of the model, ["a=b=c"] gives
    [{"a": "b=c"}] and ["hello"] gives [{"_bad_object": "hello"}]. *)
Theorem normalize_splits_at_first_equals :
  (forall (loads : string -> option value) (s : string),
      loads s = None ->
      contains_char "=" s = true ->
      _normalize_objects loads [Text s]
      = Return [VDict [(before_first "=" s, VStr (after_first "=" s))]]
      /\ s = before_first "=" s ++ "=" ++ after_first "=" s
      /\ contains_char "=" (before_first "=" s) = false)
  /\ (forall (loads : string -> option value) (s : string),
         loads s = None ->
         contains_char "=" s = false ->
         _normalize_objects loads [Text s] = Return [VDict [("_bad_object", VStr s)]])
  /\ _normalize_objects json_loads [Text "a=b=c"] = Return [VDict [("a", VStr "b=c")]]
  /\ _normalize_objects json_loads [Text "hello"]
     = Return [VDict [("_bad_object", VStr "hello")]].
Proof.
  split; [|split; [|split]].
  - intros loads s Hnone Hc. split; [|split].
    + unfold _normalize_objects. simpl. rewrite Hnone, Hc.
      rewrite (_split_kv_returns s Hc). reflexivity.
    + apply (split_first_append "=" s Hc).
    + apply before_first_free.
  - intros loads s Hnone Hc.
    unfold _normalize_objects. simpl. rewrite Hnone, Hc. reflexivity.
  - vm_compute. reflexivity.
  - vm_compute. reflexivity.
Qed.

Lemma normalize_splits_at_first_equals_witness :
  json_loads "k=v=w" = None
  /\ contains_char "=" "k=v=w" = true
  /\ _normalize_objects json_loads [Text "k=v=w"] = Return [VDict [("k", VStr "v=w")]].
Proof.
  assert (Hn : json_loads "k=v=w" = None) by (vm_compute; reflexivity).
  assert (Hc : contains_char "=" "k=v=w" = true) by reflexivity.
  split; [exact Hn|split; [exact Hc|]].
  exact (proj1 (proj1 normalize_splits_at_first_equals json_loads "k=v=w" Hn Hc)).
Defined.

(** C2.  On the item ["42"], which [json.loads] decodes to the number 42,
    [_normalize_objects] answers the list [[42]]: one value for the one
    item, and that value is no mapping.  [_enrich] then raises TypeError
    when it merges it. *)
Theorem normalize_json_number_is_no_mapping :
  _normalize_objects json_loads [Text "42"] = Return [VInt 42]
  /\ is_dict (VInt 42) = false
  /\ (forall (log_base : dict) (now : string) (message : value) (level : string),
         _enrich json_loads log_base now message level [Text "42"] = Raise TypeError).
Proof.
  split; [vm_compute; reflexivity|split; [reflexivity|]].
  intros. reflexivity.
Qed.

(** ** Enrichment *)

Lemma update_all_mappings (ds : list dict) (log : dict) :
  update_all log (map VDict ds) = Return (fold_left dict_update ds log).
Proof.
  revert log. induction ds as [|d ds IH]; intros log; simpl.
  - reflexivity.
  - apply IH.
Qed.

Lemma dict_get_fold_update (ds : list dict) (log : dict) (k : string) :
  Forall (fun d => unique_keys d = true) ds ->
  dict_get (fold_left dict_update ds log) k = context_lookup ds k (dict_get log k).
Proof.
  intros Hu. revert log.
  induction Hu as [|d ds Hd _ IH]; intros log; simpl.
  - reflexivity.
  - rewrite IH, (dict_get_update log d k Hd). reflexivity.
Qed.

(** The last step of [_enrich]: message, level and timestamp are set
    whatever the record held. *)
Lemma dict_get_final_update (log : dict) (message level now : value) (k : string) :
  dict_get (dict_update log [("message", message); ("level", level); ("timestamp", now)]) k
  = if String.eqb k "timestamp" then Some now
    else if String.eqb k "level" then Some level
    else if String.eqb k "message" then Some message
    else dict_get log k.
Proof.
  unfold dict_update. simpl. rewrite !dict_get_set.
  rewrite (String.eqb_sym "timestamp" k), (String.eqb_sym "level" k),
    (String.eqb_sym "message" k).
  reflexivity.
Qed.

(** [_enrich] on context objects that normalise to mappings. *)
Lemma _enrich_mappings (loads : string -> option value) (log_base : dict)
    (now : string) (message : value) (level : string)
    (objects : list context_object) (ds : list dict) :
  _normalize_objects loads objects = Return (map VDict ds) ->
  _enrich loads log_base now message level objects
  = Return (dict_update (fold_left dict_update ds log_base)
              [("message", message); ("level", VStr (upper level));
               ("timestamp", VStr now)]).
Proof.
  intros Hn. unfold _enrich. rewrite Hn. simpl.
  rewrite update_all_mappings. reflexivity.
Qed.

(** C1.  For every identity base, message, severity level and context
    objects that normalise to mappings, [_enrich] returns a record: the
    base, updated with each normalised object in call order, then with
    message, upper-cased level and timestamp.  Read field by field, with
    precedence from lowest to highest: identity fields, then the context
    objects in call order (a later one overrides), then message, level and
    timestamp, which always win: they are the given ones in every record
    that [_enrich] returns, whatever the context objects.  With
    [{"level": "spoofed"}] at level info the level is ["INFO"]; with
    [{"x": 1}, {"x": 2}] the field x is 2. *)
Theorem enrich_precedence :
  (forall (loads : string -> option value) (log_base : dict) (now : string)
          (message : value) (level : string)
          (objects : list context_object) (ds : list dict),
      In level severity_names ->
      _normalize_objects loads objects = Return (map VDict ds) ->
      Forall (fun d => unique_keys d = true) ds ->
      exists record,
        _enrich loads log_base now message level objects = Return record
        /\ record = dict_update (fold_left dict_update ds log_base)
                      [("message", message); ("level", VStr (upper level));
                       ("timestamp", VStr now)]
        /\ forall k, dict_get record k
                     = precedence_lookup log_base ds message level now k)
  /\ (forall (loads : string -> option value) (log_base : dict) (now : string)
             (message : value) (level : string)
             (objects : list context_object) (record : dict),
         In level severity_names ->
         _enrich loads log_base now message level objects = Return record ->
         dict_get record "message" = Some message
         /\ dict_get record "level" = Some (VStr (upper level))
         /\ dict_get record "timestamp" = Some (VStr now))
  /\ (forall (log_base : dict) (now : string) (message : value),
         exists record,
           _enrich json_loads log_base now message "info"
                   [Mapping [("level", VStr "spoofed")]] = Return record
           /\ dict_get record "level" = Some (VStr "INFO"))
  /\ (forall (log_base : dict) (now : string) (message : value) (level : string),
         exists record,
           _enrich json_loads log_base now message level
                   [Mapping [("x", VInt 1)]; Mapping [("x", VInt 2)]] = Return record
           /\ dict_get record "x" = Some (VInt 2)).
Proof.
  split; [|split; [|split]].
  - intros loads log_base now message level objects ds _ Hn Hu.
    eexists. split; [apply (_enrich_mappings _ _ _ _ _ _ _ Hn)|].
    split; [reflexivity|].
    intros k. rewrite dict_get_final_update. unfold precedence_lookup.
    rewrite (dict_get_fold_update ds log_base k Hu). reflexivity.
  - intros loads log_base now message level objects record _. unfold _enrich.
    destruct (_normalize_objects loads objects) as [parts|e]; [|discriminate].
    cbn [bind].
    destruct (update_all log_base parts) as [log|e]; [|discriminate].
    cbn [bind]. intros [= <-].
    rewrite !dict_get_set. repeat split.
  - intros log_base now message.
    eexists. split.
    + apply (_enrich_mappings json_loads log_base now message "info"
               [Mapping [("level", VStr "spoofed")]] [[("level", VStr "spoofed")]]).
      reflexivity.
    + rewrite dict_get_final_update. reflexivity.
  - intros log_base now message level.
    eexists. split.
    + apply (_enrich_mappings json_loads log_base now message level
               [Mapping [("x", VInt 1)]; Mapping [("x", VInt 2)]]
               [[("x", VInt 1)]; [("x", VInt 2)]]).
      reflexivity.
    + rewrite dict_get_final_update. cbn [fold_left].
      rewrite !dict_get_update by reflexivity. reflexivity.
Qed.

Lemma enrich_precedence_witness :
  exists record,
    _enrich json_loads (_get_base (Some "svc") (Some "h1") "localhost" 42)
            "2017-12-22T17:02:59.550920" (VStr "started") "info"
            [Text "env=prod"; Mapping [("pid", VInt 7)]] = Return record
    /\ dict_get record "pid" = Some (VInt 7)
    /\ dict_get record "env" = Some (VStr "prod")
    /\ dict_get record "name" = Some (VStr "svc")
    /\ dict_get record "level" = Some (VStr "INFO").
Proof.
  destruct (proj1 enrich_precedence json_loads
              (_get_base (Some "svc") (Some "h1") "localhost" 42)
              "2017-12-22T17:02:59.550920" (VStr "started") "info"
              [Text "env=prod"; Mapping [("pid", VInt 7)]]
              [[("env", VStr "prod")]; [("pid", VInt 7)]])
    as [record [Hr [_ Hk]]].
  - simpl. tauto.
  - vm_compute. reflexivity.
  - repeat constructor.
  - exists record. split; [exact Hr|].
    rewrite !Hk. repeat split.
Defined.

(** ** Strings *)

Lemma append_assoc (a b c : string) : (a ++ b) ++ c = a ++ (b ++ c).
Proof.
  induction a as [|x a IH]; simpl; [reflexivity|].
  rewrite IH. reflexivity.
Qed.

Lemma append_nil_r (a : string) : a ++ "" = a.
Proof.
  induction a as [|x a IH]; simpl; [reflexivity|].
  rewrite IH. reflexivity.
Qed.

(** ** The console formatter on the store *)

Lemma nth_error_snoc (h : heap) (d : dict) :
  nth_error (h ++ [d])%list (List.length h) = Some d.
Proof.
  induction h as [|x h IH]; simpl; [reflexivity|exact IH].
Qed.

Lemma heap_write_snoc (h : heap) (d d' : dict) :
  heap_write (h ++ [d])%list (List.length h) d' = (h ++ [d'])%list.
Proof.
  induction h as [|x h IH]; simpl; [reflexivity|].
  rewrite IH. reflexivity.
Qed.

Lemma heap_get_snoc (h : heap) (d : dict) (k : string) :
  heap_get (List.length h) k (h ++ [d])%list = (Return (field d k), (h ++ [d])%list).
Proof.
  unfold heap_get, mbind, heap_read, ret. rewrite nth_error_snoc. reflexivity.
Qed.

Lemma heap_read_snoc (h : heap) (d : dict) :
  heap_read (List.length h) (h ++ [d])%list = (Return d, (h ++ [d])%list).
Proof.
  unfold heap_read. rewrite nth_error_snoc. reflexivity.
Qed.

Lemma heap_pop_snoc (h : heap) (d : dict) (k : string) :
  heap_pop (List.length h) k (h ++ [d])%list
  = match dict_get d k with
    | Some v => (Return v, (h ++ [dict_remove d k])%list)
    | None => (Raise (KeyError k), (h ++ [d])%list)
    end.
Proof.
  unfold heap_pop, dict_pop. rewrite nth_error_snoc.
  destruct (dict_get d k); [|reflexivity].
  rewrite heap_write_snoc. reflexivity.
Qed.

(** [format] on any store: the output is [format_output] of the contents
    of the record, and the store gains one dictionary, the copy. *)
Lemma format_heap_run (COLORAMA pretty color : bool) (h : heap) (a : addr) (d : dict) :
  nth_error h a = Some d ->
  exists d',
    ConsoleFormatter_format_heap COLORAMA pretty color a h
    = (format_output COLORAMA pretty color d, (h ++ [d'])%list).
Proof.
  intros Ha.
  unfold ConsoleFormatter_format_heap, format_output, expected_fields, pop_fields,
    dict_pop.
  unfold mbind at 1. unfold heap_copy. rewrite Ha.
  repeat (unfold mbind at 1; rewrite heap_get_snoc).
  unfold mbind at 1. rewrite heap_pop_snoc.
  destruct (dict_get d "name"); [|eexists; reflexivity].
  unfold mbind at 1. rewrite heap_pop_snoc.
  destruct (dict_get (dict_remove d "name") "timestamp"); [|eexists; reflexivity].
  unfold mbind at 1. rewrite heap_pop_snoc.
  destruct (dict_get (dict_remove (dict_remove d "name") "timestamp") "level");
    [|eexists; reflexivity].
  unfold mbind at 1. rewrite heap_pop_snoc.
  destruct (dict_get (dict_remove (dict_remove (dict_remove d "name") "timestamp")
                        "level") "message"); [|eexists; reflexivity].
  unfold mbind at 1. rewrite heap_pop_snoc.
  destruct (dict_get (dict_remove (dict_remove (dict_remove (dict_remove d "name")
                        "timestamp") "level") "message") "hostname");
    [|eexists; reflexivity].
  unfold mbind at 1. rewrite heap_pop_snoc.
  destruct (dict_get (dict_remove (dict_remove (dict_remove (dict_remove
                        (dict_remove d "name") "timestamp") "level") "message")
                        "hostname") "pid"); [|eexists; reflexivity].
  unfold bind at 1.
  unfold mbind at 1.
  destruct (COLORAMA && color).
  - unfold lift.
    destruct (colorize (field d "level") (field d "timestamp") (field d "name"))
      as [[[lv ts] nm]|e]; [|eexists; reflexivity].
    simpl. unfold mbind. rewrite heap_read_snoc.
    destruct pretty; [eexists; reflexivity|].
    match goal with |- context [match ?x with [] => _ | _ :: _ => _ end] =>
      destruct x end; eexists; reflexivity.
  - unfold ret at 1. simpl. unfold mbind. rewrite heap_read_snoc.
    destruct pretty; [eexists; reflexivity|].
    match goal with |- context [match ?x with [] => _ | _ :: _ => _ end] =>
      destruct x end; eexists; reflexivity.
Qed.

(** [ConsoleFormatter_format] is [format_output]. *)
Lemma ConsoleFormatter_format_output (COLORAMA pretty color : bool) (msg : dict) :
  ConsoleFormatter_format COLORAMA pretty color msg
  = format_output COLORAMA pretty color msg.
Proof.
  unfold ConsoleFormatter_format.
  destruct (format_heap_run COLORAMA pretty color [msg] 0 msg eq_refl) as [d' H].
  rewrite H. reflexivity.
Qed.

(** ** The pops of the console formatter *)

Lemma dict_remove_comm_filter (d : dict) (k : string) (fields : list string) :
  filter (fun kv => negb (existsb (String.eqb (fst kv)) fields)) (dict_remove d k)
  = filter (fun kv => negb (existsb (String.eqb (fst kv)) (k :: fields))) d.
Proof.
  unfold dict_remove.
  induction d as [|[k0 v0] d IH]; simpl; [reflexivity|].
  destruct (String.eqb k0 k); simpl.
  - exact IH.
  - destruct (existsb (String.eqb k0) fields); simpl; rewrite IH; reflexivity.
Qed.

(** Pops of distinct keys: the first absent key raises; when all are
    there, what is left is the record without them. *)
Lemma pop_fields_spec (fields : list string) (d : dict) :
  NoDup fields ->
  pop_fields d fields
  = match find (fun k => negb (dict_has d k)) fields with
    | Some k => Raise (KeyError k)
    | None => Return (filter (fun kv => negb (existsb (String.eqb (fst kv)) fields)) d)
    end.
Proof.
  intros Hnd. revert d.
  induction Hnd as [|k fields Hk Hnd IH]; intros d; simpl.
  - f_equal. induction d as [|kv d IHd]; simpl; [reflexivity|].
    rewrite <- IHd. reflexivity.
  - unfold dict_pop, dict_has.
    destruct (dict_get d k) eqn:Hg; simpl; [|reflexivity].
    rewrite IH.
    replace (find (fun k' => negb (dict_has (dict_remove d k) k')) fields)
      with (find (fun k' => negb (dict_has d k')) fields).
    + unfold dict_has. rewrite dict_remove_comm_filter. reflexivity.
    + clear IH Hnd. induction fields as [|k' fields IHf]; simpl; [reflexivity|].
      rewrite dict_has_remove.
      destruct (String.eqb_spec k k') as [->|Hne].
      * exfalso. apply Hk. left. reflexivity.
      * simpl. destruct (dict_has d k'); simpl; [|reflexivity].
        apply IHf. intros Hin. apply Hk. right. exact Hin.
Qed.

Lemma expected_fields_NoDup : NoDup expected_fields.
Proof.
  unfold expected_fields.
  repeat (constructor; [simpl; intuition discriminate|]).
  constructor.
Qed.

Lemma pop_expected_fields (d : dict) :
  pop_fields d expected_fields
  = match first_missing d with
    | Some k => Raise (KeyError k)
    | None => Return (extra_fields d)
    end.
Proof. apply (pop_fields_spec expected_fields d expected_fields_NoDup). Qed.

Lemma extra_lines_detail (items : dict) (msg : string) :
  extra_lines msg items = msg ++ detail_lines items.
Proof.
  revert msg. induction items as [|[k v] items IH]; intros msg;
    cbn [extra_lines detail_lines].
  - symmetry. apply append_nil_r.
  - rewrite IH. rewrite !append_assoc. reflexivity.
Qed.

(** A record with the six expected fields. *)
Lemma first_missing_none (msg : dict) :
  first_missing msg = None <->
  forall k, In k expected_fields -> dict_has msg k = true.
Proof.
  unfold first_missing. split.
  - intros Hf k Hin.
    pose proof (find_none _ _ Hf k Hin) as Hk. simpl in Hk.
    destruct (dict_has msg k); [reflexivity|discriminate].
  - intros Hall.
    destruct (find (fun k => negb (dict_has msg k)) expected_fields) as [k|] eqn:Hf;
      [|reflexivity].
    apply find_some in Hf as [Hin Hk].
    rewrite (Hall k Hin) in Hk. discriminate.
Qed.

(** Rendering without colour, for a record that has the six fields. *)
Lemma format_output_plain (COLORAMA pretty color : bool) (msg : dict) :
  first_missing msg = None ->
  COLORAMA && color = false ->
  format_output COLORAMA pretty color msg
  = Return (let head := head_line (field msg "timestamp") (field msg "name")
                                  (field msg "level") (field msg "message") in
            if pretty then head ++ detail_lines (extra_fields msg)
            else match extra_fields msg with
                 | [] => head
                 | _ => head ++ nl ++ json_dumps (Some 4%nat) (VDict (extra_fields msg))
                 end).
Proof.
  intros Hm Hc. unfold format_output.
  rewrite pop_expected_fields, Hm, Hc. simpl.
  destruct pretty; [|reflexivity].
  rewrite extra_lines_detail. reflexivity.
Qed.

(** C3 as the code has it.  Rendering raises KeyError for the first of
    the fields name, timestamp, level, message, hostname and pid that the
    record lacks, whatever the flags; no placeholder is put in its place.
    When the record has the six fields and no colour is applied, rendering
    returns a string. *)
Theorem console_format_missing_field_raises
    (COLORAMA pretty color : bool) (msg : dict) :
  (forall k, first_missing msg = Some k ->
             ConsoleFormatter_format COLORAMA pretty color msg = Raise (KeyError k))
  /\ (first_missing msg = None ->
      COLORAMA && color = false ->
      exists text, ConsoleFormatter_format COLORAMA pretty color msg = Return text).
Proof.
  rewrite ConsoleFormatter_format_output. split.
  - intros k Hk. unfold format_output.
    rewrite pop_expected_fields, Hk. reflexivity.
  - intros Hm Hc. rewrite (format_output_plain _ _ _ _ Hm Hc). eauto.
Qed.

Lemma console_format_missing_field_raises_witness :
  ConsoleFormatter_format true true true
    [("name", VStr "svc"); ("timestamp", VStr "t"); ("level", VStr "INFO");
     ("message", VStr "m"); ("pid", VInt 42)]
  = Raise (KeyError "hostname")
  /\ exists text,
       ConsoleFormatter_format true true false
         [("name", VStr "svc"); ("timestamp", VStr "t"); ("level", VStr "INFO");
          ("message", VStr "m"); ("hostname", VStr "h1"); ("pid", VInt 42)]
       = Return text.
Proof.
  split.
  - apply (proj1 (console_format_missing_field_raises true true true
             [("name", VStr "svc"); ("timestamp", VStr "t"); ("level", VStr "INFO");
              ("message", VStr "m"); ("pid", VInt 42)]) "hostname").
    reflexivity.
  - apply (proj2 (console_format_missing_field_raises true true false
             [("name", VStr "svc"); ("timestamp", VStr "t"); ("level", VStr "INFO");
              ("message", VStr "m"); ("hostname", VStr "h1"); ("pid", VInt 42)]));
      reflexivity.
Defined.

(** C3 as stated fails: for a record that lacks the field pid, rendering
    raises KeyError and returns no string. *)
Lemma console_format_missing_pid_fails :
  dict_has [("name", VStr "svc"); ("timestamp", VStr "t"); ("level", VStr "INFO");
            ("message", VStr "m"); ("hostname", VStr "h1")] "pid" = false
  /\ ConsoleFormatter_format true true false
       [("name", VStr "svc"); ("timestamp", VStr "t"); ("level", VStr "INFO");
        ("message", VStr "m"); ("hostname", VStr "h1")]
     = Raise (KeyError "pid")
  /\ ~ (forall (COLORAMA pretty color : bool) (msg : dict) (k : string),
           In k expected_fields -> dict_has msg k = false ->
           exists text, ConsoleFormatter_format COLORAMA pretty color msg = Return text).
Proof.
  split; [reflexivity|split; [reflexivity|]].
  intros H.
  destruct (H true true false
              [("name", VStr "svc"); ("timestamp", VStr "t"); ("level", VStr "INFO");
               ("message", VStr "m"); ("hostname", VStr "h1")] "pid")
    as [text Ht].
  - simpl. tauto.
  - reflexivity.
  - discriminate Ht.
Qed.

(** ** What the console output depends on *)

Lemma field_set_other (msg : dict) (k k' : string) (v : value) :
  k <> k' -> field (dict_set msg k v) k' = field msg k'.
Proof.
  intros Hne. unfold field. rewrite (dict_get_set_other _ _ _ _ Hne). reflexivity.
Qed.

Lemma extra_fields_set (msg : dict) (k : string) (v : value) :
  In k expected_fields -> extra_fields (dict_set msg k v) = extra_fields msg.
Proof.
  intros Hin.
  assert (Hk : existsb (String.eqb k) expected_fields = true).
  { apply existsb_exists. exists k. split; [exact Hin|apply String.eqb_refl]. }
  unfold extra_fields.
  induction msg as [|[k0 v0] msg IH]; cbn [dict_set filter fst].
  - rewrite Hk. reflexivity.
  - destruct (String.eqb_spec k0 k) as [->|Hne]; cbn [filter fst].
    + rewrite Hk. reflexivity.
    + rewrite IH. reflexivity.
Qed.

Lemma first_missing_set (msg : dict) (k : string) (v : value) :
  first_missing msg = None -> first_missing (dict_set msg k v) = None.
Proof.
  rewrite !first_missing_none. intros Hall k' Hin.
  rewrite dict_has_set, (Hall k' Hin). apply orb_true_r.
Qed.

Lemma extra_fields_In (msg : dict) (k : string) (v : value) :
  In (k, v) (extra_fields msg) <-> In (k, v) msg /\ ~ In k expected_fields.
Proof.
  unfold extra_fields. rewrite filter_In. cbn [fst].
  split; intros [Hin Hk]; split; try exact Hin.
  - intros Hex. apply negb_true_iff in Hk.
    assert (existsb (String.eqb k) expected_fields = true); [|congruence].
    apply existsb_exists. exists k. split; [exact Hex|apply String.eqb_refl].
  - apply negb_true_iff.
    destruct (existsb (String.eqb k) expected_fields) eqn:Hex; [|reflexivity].
    apply existsb_exists in Hex as [k' [Hin' Heq]].
    apply String.eqb_eq in Heq. subst k'. contradiction.
Qed.

(** C7.  For a record with the six expected fields, console rendering
    with [pretty] and without colour gives the head line
    ["{timestamp} - {name} - {level} - {message}"] followed by one line
    ["  {key}={value}"] per extra field, in the order of the record.  The
    extra fields are the fields of the record but name, timestamp, level,
    message, hostname and pid.  The values of hostname and pid are not
    rendered: the output is the same whatever they are.  For the record of
    the scenario the output is the head line of svc and the line
    ["  env=prod"]. *)
Theorem console_format_pretty_plain :
  (forall (COLORAMA : bool) (msg : dict),
      first_missing msg = None ->
      ConsoleFormatter_format COLORAMA true false msg
      = Return (head_line (field msg "timestamp") (field msg "name")
                          (field msg "level") (field msg "message")
                  ++ detail_lines (extra_fields msg))
      /\ (forall k v, In (k, v) (extra_fields msg)
                      <-> In (k, v) msg /\ ~ In k expected_fields)
      /\ (forall hostname pid : value,
             ConsoleFormatter_format COLORAMA true false
               (dict_set (dict_set msg "hostname" hostname) "pid" pid)
             = ConsoleFormatter_format COLORAMA true false msg))
  /\ (forall (COLORAMA : bool) (ts : string),
         ConsoleFormatter_format COLORAMA true false
           [("name", VStr "svc"); ("hostname", VStr "h1"); ("pid", VInt 42);
            ("env", VStr "prod"); ("message", VStr "started");
            ("level", VStr "INFO"); ("timestamp", VStr ts)]
         = Return (ts ++ " - svc - INFO - started" ++ nl ++ "  env=prod")).
Proof.
  assert (Hplain : forall COLORAMA msg,
             first_missing msg = None ->
             ConsoleFormatter_format COLORAMA true false msg
             = Return (head_line (field msg "timestamp") (field msg "name")
                                 (field msg "level") (field msg "message")
                         ++ detail_lines (extra_fields msg))).
  { intros COLORAMA msg Hm. rewrite ConsoleFormatter_format_output.
    apply (format_output_plain COLORAMA true false msg Hm).
    apply andb_false_r. }
  split.
  - intros COLORAMA msg Hm. split; [apply (Hplain _ _ Hm)|].
    split; [apply extra_fields_In|].
    intros hostname pid.
    rewrite (Hplain _ _ Hm).
    rewrite Hplain by (apply first_missing_set, first_missing_set, Hm).
    rewrite !extra_fields_set by (simpl; tauto).
    rewrite !field_set_other by discriminate.
    reflexivity.
  - intros COLORAMA ts.
    rewrite Hplain by reflexivity.
    unfold head_line, field. cbn [dict_get String.eqb Ascii.eqb Bool.eqb py_str].
    rewrite !append_assoc. reflexivity.
Qed.

Lemma console_format_pretty_plain_witness :
  ConsoleFormatter_format true true false
    [("name", VStr "svc"); ("hostname", VStr "h1"); ("pid", VInt 42);
     ("env", VStr "prod"); ("n", VInt 3); ("message", VStr "started");
     ("level", VStr "INFO"); ("timestamp", VStr "2017-12-22T17:02:59.550920")]
  = Return ("2017-12-22T17:02:59.550920 - svc - INFO - started"
              ++ nl ++ "  env=prod" ++ nl ++ "  n=3").
Proof.
  rewrite (proj1 (proj1 console_format_pretty_plain true
             [("name", VStr "svc"); ("hostname", VStr "h1"); ("pid", VInt 42);
              ("env", VStr "prod"); ("n", VInt 3); ("message", VStr "started");
              ("level", VStr "INFO"); ("timestamp", VStr "2017-12-22T17:02:59.550920")]
             eq_refl)).
  reflexivity.
Defined.

(** C10.  [format] leaves the store as it found it but for the copy it
    allocates: every dictionary that was there, the one of the record
    among them, has the same bindings afterwards, and formatting the same
    record once more gives the same output. *)
Theorem console_format_leaves_record
    (COLORAMA pretty color : bool) (h : heap) (a : addr) :
  let result := ConsoleFormatter_format_heap COLORAMA pretty color a h in
  (forall b, (b < List.length h)%nat -> nth_error (snd result) b = nth_error h b)
  /\ nth_error (snd result) a = nth_error h a
  /\ fst (ConsoleFormatter_format_heap COLORAMA pretty color a (snd result))
     = fst result.
Proof.
  cbv zeta.
  destruct (nth_error h a) as [d|] eqn:Ha.
  - destruct (format_heap_run COLORAMA pretty color h a d Ha) as [d' Hrun].
    rewrite Hrun. cbn [fst snd].
    assert (Hlt : (a < List.length h)%nat) by (apply nth_error_Some; congruence).
    assert (Hkeep : forall b, (b < List.length h)%nat ->
                              nth_error (h ++ [d'])%list b = nth_error h b)
      by (intros b Hb; apply nth_error_app1; exact Hb).
    split; [exact Hkeep|].
    split; [rewrite (Hkeep a Hlt); exact Ha|].
    assert (Ha' : nth_error (h ++ [d'])%list a = Some d)
      by (rewrite (Hkeep a Hlt); exact Ha).
    destruct (format_heap_run COLORAMA pretty color _ a d Ha') as [d'' Hrun'].
    rewrite Hrun'. reflexivity.
  - assert (Hrun : ConsoleFormatter_format_heap COLORAMA pretty color a h
                   = (Raise AttributeError, h)).
    { unfold ConsoleFormatter_format_heap, mbind, heap_copy. rewrite Ha. reflexivity. }
    rewrite Hrun. cbn [fst snd]. rewrite Hrun. cbn [fst].
    split; [reflexivity|]. split; [exact Ha|reflexivity].
Qed.

(** ** Handlers *)

Lemma mem_addr_In (a : addr) (l : list addr) : mem_addr a l = true <-> In a l.
Proof.
  unfold mem_addr. rewrite existsb_exists. split.
  - intros [x [Hin Heq]]. apply Nat.eqb_eq in Heq. subst x. exact Hin.
  - intros Hin. exists a. split; [exact Hin|apply Nat.eqb_refl].
Qed.

Lemma Logger_addHandler_In (lg : logger) (h : addr) :
  In h (logger_handlers (Logger_addHandler lg h)).
Proof.
  unfold Logger_addHandler.
  destruct (mem_addr h (logger_handlers lg)) eqn:Hm.
  - apply mem_addr_In. exact Hm.
  - simpl. apply in_or_app. right. left. reflexivity.
Qed.

Lemma Logger_addHandler_level (lg : logger) (h : addr) :
  logger_level (Logger_addHandler lg h) = logger_level lg.
Proof.
  unfold Logger_addHandler. destruct (mem_addr h (logger_handlers lg)); reflexivity.
Qed.

Lemma level_known_iff (level : string) :
  dict_has LEVEL_CONVERSION level = true <-> In level severity_names.
Proof.
  unfold dict_has, severity_names, LEVEL_CONVERSION.
  cbn [dict_get map fst In]. split.
  - repeat match goal with
           | |- context [String.eqb ?a level] =>
               destruct (String.eqb_spec a level); [tauto|]
           end.
    discriminate.
  - intros H.
    repeat destruct H as [<-|H]; try reflexivity.
    contradiction.
Qed.

(** [bare_facade] is what the constructor answers for [bare=True]. *)
Lemma Wryte_init_bare (COLORAMA : bool) (stream_handler : addr) (level : string) :
  Wryte_init COLORAMA (mk_logger 0 []) [] "wryte" "localhost" 42 stream_handler
             (Some "svc") (Some "h1") level None true false true
  = Return bare_facade.
Proof. reflexivity. Qed.

(** Without [bare], on a logger that has no handler, the constructor adds
    the one default handler: [_json] with [jsonify], [_console] without. *)
Lemma Wryte_init_default_handler (stream_handler : addr) (jsonify : bool) :
  exists self,
    Wryte_init true (mk_logger 0 []) [] "wryte" "localhost" 42 stream_handler
               (Some "svc") (Some "h1") "info" None false jsonify true
    = Return self
    /\ list_handlers self = [Some (if jsonify then "_json" else "_console")].
Proof.
  destruct jsonify; eexists; (split; [reflexivity|]);
    unfold list_handlers; cbn; rewrite Nat.eqb_refl; reflexivity.
Qed.

(** What a call of [add_handler] that returns has done. *)
Lemma add_handler_returns (COLORAMA : bool) (uuid4 : string) (self : Wryte)
    (handler : addr) (name : option string) (formatter level : string) :
  dict_has LEVEL_CONVERSION (lower level) = true ->
  formatter = "json" \/ (formatter = "console" /\ COLORAMA = true) ->
  exists numeric fmt,
    dict_get LEVEL_CONVERSION (lower level) = Some numeric
    /\ add_handler COLORAMA uuid4 self handler name formatter level
       = Return (name_or_uuid name uuid4,
                 mk_Wryte (wryte_name self) (wryte_pretty self) (wryte_color self)
                   (wryte_log_base self)
                   (Logger_addHandler (Logger_setLevel (wryte_logger self) numeric) handler)
                   (store_set (wryte_handlers self) handler
                      (mk_handler (Some (name_or_uuid name uuid4)) (Some fmt)))).
Proof.
  intros Hl Hf. unfold add_handler. rewrite Hl. cbn [negb].
  unfold dict_has in Hl.
  destruct (dict_get LEVEL_CONVERSION (lower level)) as [numeric|] eqn:Hn;
    [|discriminate].
  exists numeric.
  destruct Hf as [->|[-> ->]]; cbn; eexists; split; reflexivity.
Qed.

(** A call of [add_handler] that returns has set the level of the logger
    to the severity it asked for. *)
Lemma add_handler_level (COLORAMA : bool) (uuid4 : string) (self self' : Wryte)
    (handler : addr) (name : option string) (formatter level n : string) :
  add_handler COLORAMA uuid4 self handler name formatter level = Return (n, self') ->
  dict_get LEVEL_CONVERSION (lower level) = Some (logger_level (wryte_logger self')).
Proof.
  unfold add_handler.
  destruct (dict_has LEVEL_CONVERSION (lower level)); cbn [negb]; [|discriminate].
  destruct (String.eqb formatter "console" || String.eqb formatter "json");
    cbn [negb]; [|discriminate].
  destruct (dict_get LEVEL_CONVERSION (lower level)) as [numeric|].
  - destruct (String.eqb formatter "json"); [|destruct COLORAMA]; cbn;
      try discriminate;
      intros [= _ <-]; cbn; rewrite Logger_addHandler_level; reflexivity.
  - destruct (String.eqb formatter "json"); [|destruct COLORAMA]; cbn; discriminate.
Qed.

Lemma add_handlers_app (COLORAMA : bool) (self : Wryte) (calls more : list call) :
  add_handlers COLORAMA self (calls ++ more)%list
  = (self' <- add_handlers COLORAMA self calls ;;
     add_handlers COLORAMA self' more)%outcome.
Proof.
  revert self. induction calls as [|c calls IH]; intros self; simpl.
  - reflexivity.
  - destruct (add_handler COLORAMA (call_uuid4 c) self (call_handler c) (call_name c)
                (call_formatter c) (call_level c)) as [[n s]|e]; simpl.
    + apply IH.
    + reflexivity.
Qed.

(** C4 as the code has it.  After a sequence of calls of [add_handler]
    that all return, the level of the logger, the one threshold of the
    sink, is the severity that the last call asked for. *)
Theorem threshold_is_last_requested
    (COLORAMA : bool) (self self' : Wryte) (calls : list call) (last : call) :
  add_handlers COLORAMA self (calls ++ [last])%list = Return self' ->
  dict_get LEVEL_CONVERSION (lower (call_level last))
  = Some (logger_level (wryte_logger self')).
Proof.
  rewrite add_handlers_app.
  destruct (add_handlers COLORAMA self calls) as [s|e]; simpl; [|discriminate].
  destruct (add_handler COLORAMA (call_uuid4 last) s (call_handler last)
              (call_name last) (call_formatter last) (call_level last))
    as [[n s']|e] eqn:Hadd; simpl; [|discriminate].
  intros [= <-]. apply (add_handler_level _ _ _ _ _ _ _ _ _ Hadd).
Qed.

Lemma threshold_is_last_requested_witness :
  exists self',
    add_handlers true bare_facade
      [mk_call 1 (Some "low") "json" "debug" ""; mk_call 2 (Some "high") "json" "ERROR" ""]
    = Return self'
    /\ dict_get LEVEL_CONVERSION (lower "ERROR")
       = Some (logger_level (wryte_logger self')).
Proof.
  eexists. split.
  - vm_compute. reflexivity.
  - apply (threshold_is_last_requested true bare_facade _
             [mk_call 1 (Some "low") "json" "debug" ""]
             (mk_call 2 (Some "high") "json" "ERROR" "")).
    vm_compute. reflexivity.
Defined.

(** C4 as stated fails: a handler added at debug and then one added at
    error are both active, the lowest severity asked for is 10 (debug),
    and the level of the logger is 40 (error). *)
Lemma threshold_is_not_lowest_requested :
  (exists self',
      add_handlers true bare_facade
        [mk_call 1 (Some "low") "json" "debug" ""; mk_call 2 (Some "high") "json" "error" ""]
      = Return self'
      /\ list_handlers self' = [Some "low"; Some "high"]
      /\ logger_level (wryte_logger self') = 40%Z
      /\ lowest_requested
           [mk_call 1 (Some "low") "json" "debug" ""; mk_call 2 (Some "high") "json" "error" ""]
         = Some 10%Z)
  /\ ~ (forall (COLORAMA : bool) (self self' : Wryte) (calls : list call),
           add_handlers COLORAMA self calls = Return self' ->
           lowest_requested calls = Some (logger_level (wryte_logger self'))).
Proof.
  split.
  - eexists. split; [vm_compute; reflexivity|].
    split; [reflexivity|]. split; reflexivity.
  - intros H.
    specialize (H true bare_facade _
                  [mk_call 1 (Some "low") "json" "debug" "";
                   mk_call 2 (Some "high") "json" "error" ""] eq_refl).
    vm_compute in H. discriminate H.
Qed.

(** C9 as the code has it.  [add_handler] raises WryteError exactly when
    the lower-cased level is none of debug, info, warning, warn, error and
    critical.  For a level that is one of them and a formatter kind json,
    or console with colorama imported, it returns the name of the handler:
    the given name when it is a non-empty string, what uuid4 answers
    otherwise; the handler object carries that name and is in the list of
    the logger. *)
Theorem add_handler_raises_iff_unknown_level
    (COLORAMA : bool) (uuid4 : string) (self : Wryte) (handler : addr)
    (name : option string) (formatter level : string) :
  (add_handler COLORAMA uuid4 self handler name formatter level = Raise WryteError
   <-> ~ In (lower level) severity_names)
  /\ (In (lower level) severity_names ->
      formatter = "json" \/ (formatter = "console" /\ COLORAMA = true) ->
      exists self',
        add_handler COLORAMA uuid4 self handler name formatter level
        = Return (name_or_uuid name uuid4, self')
        /\ (forall n, name = Some n -> n <> "" -> name_or_uuid name uuid4 = n)
        /\ (name = None \/ name = Some "" -> name_or_uuid name uuid4 = uuid4)
        /\ handler_name (store_get (wryte_handlers self') handler)
           = Some (name_or_uuid name uuid4)
        /\ In (Some (name_or_uuid name uuid4)) (list_handlers self')).
Proof.
  split.
  - rewrite <- level_known_iff. unfold add_handler.
    destruct (dict_has LEVEL_CONVERSION (lower level)) eqn:Hl; cbn [negb].
    + split; [|intros H; exfalso; apply H; reflexivity].
      destruct (String.eqb formatter "console" || String.eqb formatter "json");
        cbn [negb]; [|discriminate].
      unfold dict_has in Hl.
      destruct (dict_get LEVEL_CONVERSION (lower level)); [|discriminate].
      destruct (String.eqb formatter "json"); [|destruct COLORAMA]; cbn; discriminate.
    + split; [intros _; discriminate|reflexivity].
  - intros Hl Hf. apply level_known_iff in Hl.
    destruct (add_handler_returns COLORAMA uuid4 self handler name formatter level Hl Hf)
      as [numeric [fmt [_ Hadd]]].
    eexists. split; [exact Hadd|].
    split; [intros n -> Hn; destruct n; [contradiction|reflexivity]|].
    split; [intros [->| ->]; reflexivity|].
    cbn [wryte_handlers]. split.
    + unfold store_set. cbn [store_get]. rewrite Nat.eqb_refl. reflexivity.
    + unfold list_handlers. cbn [wryte_handlers wryte_logger].
      apply in_map_iff. exists handler. split.
      * unfold store_set. cbn [store_get]. rewrite Nat.eqb_refl. reflexivity.
      * apply Logger_addHandler_In.
Qed.

Lemma add_handler_raises_iff_unknown_level_witness :
  exists self',
    add_handler true "0f5fa1c2" bare_facade 1 (Some "audit") "console" "WARNING"
    = Return ("audit", self')
    /\ In (Some "audit") (list_handlers self').
Proof.
  destruct (proj2 (add_handler_raises_iff_unknown_level true "0f5fa1c2" bare_facade 1
                     (Some "audit") "console" "WARNING"))
    as [self' [Hadd [_ [_ [_ Hin]]]]].
  - vm_compute. tauto.
  - right. split; reflexivity.
  - exists self'. split; [exact Hadd|exact Hin].
Defined.

(** C9 as stated fails: the empty string given as the name does not come
    back; the call returns what uuid4 answers. *)
Lemma add_handler_empty_name_is_replaced :
  exists self',
    add_handler true "0f5fa1c2" bare_facade 1 (Some "") "json" "info"
    = Return ("0f5fa1c2", self')
    /\ "0f5fa1c2" <> "".
Proof.
  eexists. split; [vm_compute; reflexivity|discriminate].
Qed.

(** Two handlers next to each other at the head of the list, the first
    of the name asked for: the loop removes it and, the list being one
    shorter, ends without a look at the second. *)
Lemma remove_loop_skips_neighbour (st : handler_store) (name : string)
    (level : Z) (h1 h2 : addr) :
  name_is st h1 name = true ->
  remove_loop st name (mk_logger level [h1; h2]) 0 = mk_logger level [h2].
Proof.
  intros H1.
  rewrite remove_loop_equation_1.
  cbn [logger_handlers nth_error]. unfold inspect.
  cbn [remove_loop_unfold_clause_1]. rewrite H1.
  cbn [remove_loop_unfold_clause_1_clause_2].
  assert (Hrm : Logger_removeHandler (mk_logger level [h1; h2]) h1
                = mk_logger level [h2]).
  { unfold Logger_removeHandler. cbn [logger_handlers mem_addr existsb].
    rewrite Nat.eqb_refl. cbn [orb remove_first logger_level].
    rewrite Nat.eqb_refl. reflexivity. }
  rewrite Hrm.
  rewrite remove_loop_equation_1. reflexivity.
Qed.

(** C5.  On a facade without handlers, two handler objects added with the
    same name, then [remove_handler] called once with that name: the loop
    removes the first and ends before it sees the second, which stays
    listed under the name. *)
Theorem remove_handler_leaves_one_of_two
    (COLORAMA : bool) (self : Wryte) (h1 h2 : addr) (n level1 level2 u1 u2 : string) :
  logger_handlers (wryte_logger self) = [] ->
  h1 <> h2 ->
  n <> "" ->
  In (lower level1) severity_names ->
  In (lower level2) severity_names ->
  exists s1 s2,
    add_handler COLORAMA u1 self h1 (Some n) "json" level1 = Return (n, s1)
    /\ add_handler COLORAMA u2 s1 h2 (Some n) "json" level2 = Return (n, s2)
    /\ list_handlers s2 = [Some n; Some n]
    /\ logger_handlers (wryte_logger (remove_handler s2 n)) = [h2]
    /\ list_handlers (remove_handler s2 n) = [Some n].
Proof.
  intros Hempty Hne Hn Hl1 Hl2.
  assert (Hname : forall u, name_or_uuid (Some n) u = n)
    by (intros u; destruct n; [contradiction|reflexivity]).
  apply level_known_iff in Hl1, Hl2.
  destruct (add_handler_returns COLORAMA u1 self h1 (Some n) "json" level1 Hl1
              (or_introl eq_refl)) as [n1 [f1 [_ Hadd1]]].
  rewrite Hname in Hadd1.
  match type of Hadd1 with _ = Return (_, ?st) => set (s1 := st) in * end.
  destruct (add_handler_returns COLORAMA u2 s1 h2 (Some n) "json" level2 Hl2
              (or_introl eq_refl)) as [n2 [f2 [_ Hadd2]]].
  rewrite Hname in Hadd2.
  match type of Hadd2 with _ = Return (_, ?st) => set (s2 := st) in * end.
  exists s1, s2.
  split; [exact Hadd1|]. split; [exact Hadd2|].
  unfold s2, s1.
  cbn [wryte_name wryte_pretty wryte_color wryte_log_base wryte_logger wryte_handlers].
  assert (Hlist : Logger_addHandler
                    (Logger_setLevel
                       (Logger_addHandler (Logger_setLevel (wryte_logger self) n1) h1)
                       n2) h2
                  = mk_logger n2 [h1; h2]).
  { unfold Logger_addHandler, Logger_setLevel. cbn [logger_handlers].
    rewrite Hempty. cbn [mem_addr existsb logger_handlers logger_level List.app].
    destruct (Nat.eqb_spec h2 h1) as [->|_]; [contradiction|]. reflexivity. }
  assert (Hget1 : store_get (store_set (store_set (wryte_handlers self) h1
                                          (mk_handler (Some n) (Some f1)))
                               h2 (mk_handler (Some n) (Some f2))) h1
                  = mk_handler (Some n) (Some f1)).
  { unfold store_set. cbn [store_get].
    destruct (Nat.eqb_spec h2 h1) as [->|_]; [contradiction|].
    rewrite Nat.eqb_refl. reflexivity. }
  assert (Hget2 : store_get (store_set (store_set (wryte_handlers self) h1
                                          (mk_handler (Some n) (Some f1)))
                               h2 (mk_handler (Some n) (Some f2))) h2
                  = mk_handler (Some n) (Some f2)).
  { unfold store_set. cbn [store_get]. rewrite Nat.eqb_refl. reflexivity. }
  unfold remove_handler, list_handlers.
  cbn [wryte_logger wryte_handlers]. rewrite Hlist.
  split.
  { cbn [logger_handlers map]. rewrite Hget1, Hget2. reflexivity. }
  rewrite remove_loop_skips_neighbour.
  - cbn [logger_handlers map]. rewrite Hget2. split; reflexivity.
  - unfold name_is. rewrite Hget1. cbn [handler_name]. apply String.eqb_refl.
Qed.

Lemma remove_handler_leaves_one_of_two_witness :
  exists s1 s2,
    add_handler true "" bare_facade 1 (Some "a") "json" "info" = Return ("a", s1)
    /\ add_handler true "" s1 2 (Some "a") "json" "info" = Return ("a", s2)
    /\ list_handlers s2 = [Some "a"; Some "a"]
    /\ logger_handlers (wryte_logger (remove_handler s2 "a")) = [2%nat]
    /\ list_handlers (remove_handler s2 "a") = [Some "a"].
Proof.
  apply (remove_handler_leaves_one_of_two true bare_facade 1 2 "a" "info" "info" "" "").
  - reflexivity.
  - discriminate.
  - discriminate.
  - vm_compute. tauto.
  - vm_compute. tauto.
Defined.

(** ** The JSON round trip: strings *)

Lemma length_append (a b : string) :
  String.length (a ++ b) = (String.length a + String.length b)%nat.
Proof.
  induction a as [|x a IH]; simpl; [reflexivity|].
  rewrite IH. reflexivity.
Qed.

(** The decoder reads an escaped character back. *)
Lemma scanstring_escape_char (c : ascii) (s : string) :
  scanstring (json_escape_char c ++ s) = cons_char c (scanstring s).
Proof.
  destruct c as [[|] [|] [|] [|] [|] [|] [|] [|]]; reflexivity.
Qed.

Lemma scanstring_escape (s rest : string) :
  scanstring (json_escape s ++ String dquote rest) = Some (s, rest).
Proof.
  induction s as [|c s IH]; cbn [json_escape].
  - reflexivity.
  - rewrite append_assoc, scanstring_escape_char, IH. reflexivity.
Qed.

Lemma scan_once_string (fuel : nat) (s rest : string) :
  scan_once (S fuel) (json_string s ++ rest) = Some (VStr s, rest).
Proof.
  unfold json_string. cbn [append]. rewrite append_assoc. cbn [append str1].
  cbn [scan_once]. 
  change (Ascii.eqb dquote dquote) with true. cbv iota.
  rewrite scanstring_escape. reflexivity.
Qed.
(** ** The JSON round trip: integers *)

Lemma stops_ends_number (rest : string) : stops rest = true -> ends_number rest = true.
Proof.
  destruct rest as [|c rest]; [reflexivity|].
  destruct c as [[|] [|] [|] [|] [|] [|] [|] [|]]; cbn; intros H;
    first [reflexivity | discriminate H].
Qed.

Lemma lex_digits_print (d : uint) (rest : string) :
  ends_number rest = true ->
  lex_digits (NilEmpty.string_of_uint d ++ rest) = (d, rest).
Proof.
  intros Hr.
  induction d; cbn [NilEmpty.string_of_uint append];
    try (cbn [lex_digits]; change (is_digit _) with true; cbv iota;
         rewrite IHd; reflexivity).
  destruct rest as [|c rest]; [reflexivity|].
  cbn [lex_digits]. cbn [ends_number] in Hr.
  destruct (is_digit c); [discriminate Hr|reflexivity].
Qed.

(** The digits of a positive number start with a digit that is not 0. *)
Lemma to_uint_head (p : positive) :
  Pos.to_uint p <> Nil /\ forall d, Pos.to_uint p <> D0 d.
Proof.
  split; [apply Unsigned.to_uint_nonnil|].
  intros d Hd.
  assert (Hn : unorm (Pos.to_uint p) = Pos.to_uint p).
  { rewrite <- (DecimalPos.Unsigned.to_of (Pos.to_uint p)).
    rewrite DecimalPos.Unsigned.of_to. reflexivity. }
  rewrite Hd in Hn. unfold unorm in Hn. cbn [nzhead] in Hn.
  destruct (nzhead d) as [|u|u|u|u|u|u|u|u|u|u] eqn:Hz; try discriminate Hn.
  - injection Hn as <-.
    apply (DecimalPos.Unsigned.to_uint_nonzero p). exact Hd.
  - exact (nzhead_nonzero d u Hz).
Qed.

Lemma lex_integer_print (p : positive) (rest : string) :
  ends_number rest = true ->
  lex_integer (NilEmpty.string_of_uint (Pos.to_uint p) ++ rest)
  = Some (Pos.to_uint p, rest).
Proof.
  intros Hr.
  destruct (to_uint_head p) as [Hnil Hzero].
  pose proof (lex_digits_print (Pos.to_uint p) rest Hr) as Hlex.
  destruct (Pos.to_uint p) as [|d|d|d|d|d|d|d|d|d|d];
    [contradiction|exfalso; apply (Hzero d); reflexivity|..];
    cbn [NilEmpty.string_of_uint append] in *;
    unfold lex_integer; change (Ascii.eqb _ "0") with false;
    change (is_digit _) with true; cbv iota; rewrite Hlex; reflexivity.
Qed.

Lemma lex_fraction_none (rest : string) :
  ends_number rest = true -> lex_fraction rest = None.
Proof.
  destruct rest as [|c rest]; [reflexivity|].
  cbn [ends_number]. unfold lex_fraction, starts_with.
  destruct (Ascii.eqb c "."); [|reflexivity].
  rewrite andb_false_r. discriminate.
Qed.

Lemma lex_exponent_none (rest : string) :
  ends_number rest = true -> lex_exponent rest = None.
Proof.
  destruct rest as [|c rest]; [reflexivity|].
  cbn [ends_number lex_exponent].
  destruct (Ascii.eqb c "e"), (Ascii.eqb c "E"); cbn;
    rewrite ?andb_false_r; try discriminate; reflexivity.
Qed.

Lemma match_number_print (z : Z) (rest : string) :
  ends_number rest = true ->
  match_number (string_of_Z z ++ rest) = Some (VInt z, rest).
Proof.
  intros Hr. unfold string_of_Z.
  destruct z as [|p|p]; cbn [Z.to_int NilZero.string_of_int].
  - cbn. rewrite (lex_fraction_none rest Hr), (lex_exponent_none rest Hr). reflexivity.
  - destruct (to_uint_head p) as [Hnil Hzero].
    assert (Hs : NilZero.string_of_uint (Pos.to_uint p)
                 = NilEmpty.string_of_uint (Pos.to_uint p))
      by (destruct (Pos.to_uint p); [contradiction|reflexivity..]).
    rewrite Hs. unfold match_number.
    assert (Hst : starts_with "-" (NilEmpty.string_of_uint (Pos.to_uint p) ++ rest) = None).
    { destruct (Pos.to_uint p); [contradiction|reflexivity..]. }
    rewrite Hst, (lex_integer_print p rest Hr).
    rewrite (lex_fraction_none rest Hr), (lex_exponent_none rest Hr).
    do 3 f_equal. apply (DecimalZ.of_to (Z.pos p)).
  - destruct (to_uint_head p) as [Hnil Hzero].
    assert (Hs : NilZero.string_of_uint (Pos.to_uint p)
                 = NilEmpty.string_of_uint (Pos.to_uint p))
      by (destruct (Pos.to_uint p); [contradiction|reflexivity..]).
    rewrite Hs. unfold match_number. cbn [append starts_with].
    change (Ascii.eqb "-" "-") with true. cbv iota.
    rewrite (lex_integer_print p rest Hr).
    rewrite (lex_fraction_none rest Hr), (lex_exponent_none rest Hr).
    do 3 f_equal. apply (DecimalZ.of_to (Z.neg p)).
Qed.

(** The first character of a printed integer. *)
Lemma string_of_Z_head (z : Z) :
  exists c s, string_of_Z z = String c s
              /\ (is_digit c = true \/ (c = "-"%char /\ exists c' s', s = String c' s' /\ is_digit c' = true)).
Proof.
  unfold string_of_Z.
  destruct z as [|p|p]; cbn [Z.to_int NilZero.string_of_int].
  - exists "0"%char, "". split; [reflexivity|left; reflexivity].
  - destruct (to_uint_head p) as [Hnil _].
    destruct (Pos.to_uint p); [contradiction|..];
      eexists; eexists; (split; [reflexivity|left; reflexivity]).
  - destruct (to_uint_head p) as [Hnil _].
    exists "-"%char. eexists. split; [reflexivity|]. right. split; [reflexivity|].
    destruct (Pos.to_uint p); [contradiction|..];
      eexists; eexists; (split; [reflexivity|reflexivity]).
Qed.

Lemma scan_once_int (fuel : nat) (z : Z) (rest : string) :
  ends_number rest = true ->
  scan_once (S fuel) (string_of_Z z ++ rest) = Some (VInt z, rest).
Proof.
  intros Hr.
  pose proof (match_number_print z rest Hr) as Hm.
  destruct (string_of_Z_head z) as [c [s [Hs Hc]]].
  rewrite Hs in *. cbn [append] in *.
  destruct Hc as [Hc|[-> [c' [s' [-> Hc']]]]].
  - destruct c as [[|] [|] [|] [|] [|] [|] [|] [|]]; try discriminate Hc;
      cbn [scan_once]; exact Hm.
  - cbn [append] in *.
    destruct c' as [[|] [|] [|] [|] [|] [|] [|] [|]]; try discriminate Hc';
      cbn [scan_once]; exact Hm.
Qed.
(** ** The JSON round trip: floats *)

(** What follows an encoded value goes on no number. *)
Lemma stops_facts (c : ascii) (r : string) :
  stops (String c r) = true ->
  is_digit c = false /\ Ascii.eqb c "0" = false /\ Ascii.eqb c "." = false
  /\ Ascii.eqb c "e" = false /\ Ascii.eqb c "E" = false
  /\ Ascii.eqb c "+" = false /\ Ascii.eqb c "-" = false.
Proof.
  destruct c as [[|] [|] [|] [|] [|] [|] [|] [|]]; cbn; intros H;
    first [discriminate H | repeat split].
Qed.

Lemma lex_digits_app (s rest : string) :
  stops rest = true ->
  lex_digits (s ++ rest) = (fst (lex_digits s), snd (lex_digits s) ++ rest).
Proof.
  intros Hr. induction s as [|c s IH]; cbn [append lex_digits].
  - destruct rest as [|c r]; [reflexivity|]. cbn [lex_digits].
    destruct (stops_facts c r Hr) as [Hd _]. rewrite Hd. reflexivity.
  - destruct (is_digit c); [|reflexivity].
    rewrite IH. destruct (lex_digits s) as [d r]. reflexivity.
Qed.

Lemma digit_cons_text (c : ascii) (d : uint) :
  is_digit c = true ->
  NilEmpty.string_of_uint (digit_cons c d) = String c (NilEmpty.string_of_uint d).
Proof.
  destruct c as [[|] [|] [|] [|] [|] [|] [|] [|]]; cbn; intros H;
    first [discriminate H | reflexivity].
Qed.

Lemma lex_digits_text (s : string) :
  s = NilEmpty.string_of_uint (fst (lex_digits s)) ++ snd (lex_digits s).
Proof.
  induction s as [|c s IH]; cbn [lex_digits]; [reflexivity|].
  destruct (is_digit c) eqn:Hc; [|reflexivity].
  destruct (lex_digits s) as [d r]. cbn [fst snd] in *.
  rewrite (digit_cons_text c d Hc). cbn [append]. rewrite <- IH. reflexivity.
Qed.

Lemma lex_integer_app (s rest : string) :
  stops rest = true ->
  lex_integer (s ++ rest) = with_rest rest (lex_integer s).
Proof.
  intros Hr. destruct s as [|c s]; cbn [append].
  - destruct rest as [|c r]; [reflexivity|]. cbn [lex_integer with_rest].
    destruct (stops_facts c r Hr) as [Hd [Hz _]]. rewrite Hd, Hz. reflexivity.
  - cbn [lex_integer]. destruct (Ascii.eqb c "0"); [reflexivity|].
    destruct (is_digit c); [|reflexivity].
    change (String c (s ++ rest)) with (String c s ++ rest).
    rewrite (lex_digits_app _ _ Hr).
    destruct (lex_digits (String c s)) as [d r]. reflexivity.
Qed.

Lemma lex_integer_text (s : string) (d : uint) (r : string) :
  lex_integer s = Some (d, r) -> s = NilEmpty.string_of_uint d ++ r.
Proof.
  destruct s as [|c s]; cbn [lex_integer]; [discriminate|].
  destruct (Ascii.eqb_spec c "0") as [->|_]; [intros [= <- <-]; reflexivity|].
  destruct (is_digit c); [|discriminate].
  pose proof (lex_digits_text (String c s)) as Ht.
  destruct (lex_digits (String c s)) as [d' r']. cbn [fst snd] in Ht.
  intros [= <- <-]. exact Ht.
Qed.

Lemma lex_fraction_app (s rest : string) :
  stops rest = true ->
  lex_fraction (s ++ rest) = with_rest rest (lex_fraction s).
Proof.
  intros Hr. destruct s as [|c s]; cbn [append].
  - rewrite (lex_fraction_none rest (stops_ends_number rest Hr)). reflexivity.
  - unfold lex_fraction. cbn [starts_with].
    destruct (Ascii.eqb c "."); [|reflexivity].
    rewrite (lex_digits_app _ _ Hr).
    destruct (lex_digits s) as [d r]. cbn [fst snd]. destruct d; reflexivity.
Qed.

Lemma lex_fraction_text (s text r : string) :
  lex_fraction s = Some (text, r) -> s = text ++ r.
Proof.
  unfold lex_fraction. destruct s as [|c s]; cbn [starts_with]; [discriminate|].
  destruct (Ascii.eqb_spec c ".") as [->|_]; [|discriminate].
  pose proof (lex_digits_text s) as Ht.
  destruct (lex_digits s) as [d r']. cbn [fst snd] in Ht.
  destruct d; try discriminate; intros [= <- <-]; cbn [append]; rewrite Ht at 1;
    reflexivity.
Qed.

Lemma lex_exponent_app (s rest : string) :
  stops rest = true ->
  lex_exponent (s ++ rest) = with_rest rest (lex_exponent s).
Proof.
  intros Hr. destruct s as [|e s]; cbn [append].
  - rewrite (lex_exponent_none rest (stops_ends_number rest Hr)). reflexivity.
  - cbn [lex_exponent]. destruct (Ascii.eqb e "e" || Ascii.eqb e "E"); [|reflexivity].
    destruct s as [|c s]; cbn [append].
    + destruct rest as [|c r]; [reflexivity|].
      destruct (stops_facts c r Hr) as [Hd [_ [_ [_ [_ [Hplus Hminus]]]]]].
      cbn [starts_with]. rewrite Hplus, Hminus. cbn [lex_digits]. rewrite Hd.
      reflexivity.
    + cbn [starts_with].
      destruct (Ascii.eqb c "+").
      { rewrite (lex_digits_app _ _ Hr). destruct (lex_digits s) as [d r].
        cbn [fst snd]. destruct d; reflexivity. }
      destruct (Ascii.eqb c "-").
      { rewrite (lex_digits_app _ _ Hr). destruct (lex_digits s) as [d r].
        cbn [fst snd]. destruct d; reflexivity. }
      change (String c (s ++ rest)) with (String c s ++ rest).
      rewrite (lex_digits_app _ _ Hr). destruct (lex_digits (String c s)) as [d r].
      cbn [fst snd]. destruct d; reflexivity.
Qed.

Lemma lex_exponent_text (s text r : string) :
  lex_exponent s = Some (text, r) -> s = text ++ r.
Proof.
  destruct s as [|e s]; cbn [lex_exponent]; [discriminate|].
  destruct (Ascii.eqb e "e" || Ascii.eqb e "E"); [|discriminate].
  assert (Hsign : forall sign rest1,
             s = sign ++ rest1 ->
             match lex_digits rest1 with
             | (Nil, _) => None
             | (d, r0) => Some (str1 e ++ sign ++ NilEmpty.string_of_uint d, r0)
             end = Some (text, r) ->
             String e s = text ++ r).
  { intros sign rest1 -> Hlex.
    pose proof (lex_digits_text rest1) as Ht.
    destruct (lex_digits rest1) as [d r']. cbn [fst snd] in Ht.
    destruct d; try discriminate Hlex; injection Hlex as <- <-;
      rewrite Ht; unfold str1; cbn [append]; rewrite ?append_assoc; reflexivity. }
  destruct s as [|c s]; cbn [starts_with].
  - apply (Hsign "" ""). reflexivity.
  - destruct (Ascii.eqb_spec c "+") as [->|_]; [apply (Hsign "+" s); reflexivity|].
    destruct (Ascii.eqb_spec c "-") as [->|_]; [apply (Hsign "-" s); reflexivity|].
    apply (Hsign "" (String c s)). reflexivity.
Qed.

(** The number lexer goes on no further when an encoded value is
    followed by what follows it in a container. *)
Lemma match_number_app (s rest : string) :
  stops rest = true ->
  match_number (s ++ rest) = with_rest rest (match_number s).
Proof.
  intros Hr.
  assert (Htail : forall (negative : bool) (s1 : string),
             match lex_integer (s1 ++ rest) with
             | None => None
             | Some (d, s2) =>
                 match lex_fraction s2, lex_exponent s2 with
                 | None, None =>
                     Some (VInt (Z.of_int (if negative then Neg d else Pos d)), s2)
                 | None, Some (expo, s4) =>
                     Some (VFloat ((if negative then "-" else "")
                                     ++ NilEmpty.string_of_uint d ++ expo), s4)
                 | Some (frac, s3), _ =>
                     match lex_exponent s3 with
                     | Some (expo, s4) =>
                         Some (VFloat ((if negative then "-" else "")
                                         ++ NilEmpty.string_of_uint d ++ frac ++ expo), s4)
                     | None =>
                         Some (VFloat ((if negative then "-" else "")
                                         ++ NilEmpty.string_of_uint d ++ frac), s3)
                     end
                 end
             end
             = with_rest rest
                 match lex_integer s1 with
                 | None => None
                 | Some (d, s2) =>
                     match lex_fraction s2, lex_exponent s2 with
                     | None, None =>
                         Some (VInt (Z.of_int (if negative then Neg d else Pos d)),
                               s2)
                     | None, Some (expo, s4) =>
                         Some (VFloat ((if negative then "-" else "")
                                         ++ NilEmpty.string_of_uint d ++ expo), s4)
                     | Some (frac, s3), _ =>
                         match lex_exponent s3 with
                         | Some (expo, s4) =>
                             Some (VFloat ((if negative then "-" else "")
                                             ++ NilEmpty.string_of_uint d ++ frac ++ expo),
                                   s4)
                         | None =>
                             Some (VFloat ((if negative then "-" else "")
                                             ++ NilEmpty.string_of_uint d ++ frac), s3)
                         end
                     end
                 end).
  { intros negative s1. rewrite (lex_integer_app _ _ Hr).
    destruct (lex_integer s1) as [[d s2]|]; cbn [with_rest]; [|reflexivity].
    rewrite (lex_fraction_app _ _ Hr), (lex_exponent_app _ _ Hr).
    destruct (lex_fraction s2) as [[frac s3]|]; cbn [with_rest].
    - rewrite (lex_exponent_app _ _ Hr).
      destruct (lex_exponent s3) as [[expo s4]|]; reflexivity.
    - destruct (lex_exponent s2) as [[expo s4]|]; reflexivity. }
  unfold match_number.
  destruct s as [|c s]; cbn [append].
  - destruct rest as [|c r]; [reflexivity|].
    destruct (stops_facts c r Hr) as [Hd [Hz [_ [_ [_ [_ Hminus]]]]]].
    cbn [starts_with lex_integer with_rest]. rewrite Hminus.
    cbn [lex_integer]. rewrite Hz, Hd. reflexivity.
  - cbn [starts_with]. destruct (Ascii.eqb c "-").
    + apply (Htail true s).
    + apply (Htail false (String c s)).
Qed.

(** The literal the decoder keeps for a float is the text it read. *)
Lemma match_number_text (s t r : string) :
  match_number s = Some (VFloat t, r) -> s = t ++ r.
Proof.
  unfold match_number.
  assert (Htail : forall (sign s1 : string),
             match lex_integer s1 with
             | None => None
             | Some (d, s2) =>
                 match lex_fraction s2, lex_exponent s2 with
                 | None, None => None
                 | None, Some (expo, s4) =>
                     Some (VFloat (sign ++ NilEmpty.string_of_uint d ++ expo), s4)
                 | Some (frac, s3), _ =>
                     match lex_exponent s3 with
                     | Some (expo, s4) =>
                         Some (VFloat (sign ++ NilEmpty.string_of_uint d ++ frac ++ expo),
                               s4)
                     | None =>
                         Some (VFloat (sign ++ NilEmpty.string_of_uint d ++ frac), s3)
                     end
                 end
             end = Some (VFloat t, r) ->
             sign ++ s1 = t ++ r).
  { intros sign s1.
    destruct (lex_integer s1) as [[d s2]|] eqn:Hi; [|discriminate].
    apply lex_integer_text in Hi. subst s1.
    destruct (lex_fraction s2) as [[frac s3]|] eqn:Hf.
    - apply lex_fraction_text in Hf. subst s2.
      destruct (lex_exponent s3) as [[expo s4]|] eqn:He.
      + apply lex_exponent_text in He. subst s3. intros [= <- <-].
        rewrite !append_assoc. reflexivity.
      + intros [= <- <-]. rewrite !append_assoc. reflexivity.
    - destruct (lex_exponent s2) as [[expo s4]|] eqn:He; [|discriminate].
      apply lex_exponent_text in He. subst s2. intros [= <- <-].
      rewrite !append_assoc. reflexivity. }
  destruct s as [|c s]; cbn [starts_with].
  - intros H. apply (Htail "" ""). revert H.
    destruct (lex_integer "") as [[d s2]|]; [|discriminate].
    destruct (lex_fraction s2) as [[frac s3]|]; [exact (fun H => H)|].
    destruct (lex_exponent s2) as [[expo s4]|]; [exact (fun H => H)|discriminate].
  - destruct (Ascii.eqb_spec c "-") as [->|_].
    + intros H. apply (Htail "-" s). revert H.
      destruct (lex_integer s) as [[d s2]|]; [|discriminate].
      destruct (lex_fraction s2) as [[frac s3]|]; [exact (fun H => H)|].
      destruct (lex_exponent s2) as [[expo s4]|]; [exact (fun H => H)|discriminate].
    + intros H. apply (Htail "" (String c s)). revert H.
      destruct (lex_integer (String c s)) as [[d s2]|]; [|discriminate].
      destruct (lex_fraction s2) as [[frac s3]|]; [exact (fun H => H)|].
      destruct (lex_exponent s2) as [[expo s4]|]; [exact (fun H => H)|discriminate].
Qed.

(** A number starts with a digit, or with a minus sign and a digit. *)
Lemma match_number_head (s : string) (v : value) (r : string) :
  match_number s = Some (v, r) ->
  exists c s', s = String c s'
               /\ (is_digit c = true
                   \/ (c = "-"%char /\ exists c' s'', s' = String c' s'' /\ is_digit c' = true)).
Proof.
  assert (Hint : forall s1 : string,
             lex_integer s1 <> None ->
             exists c s', s1 = String c s' /\ is_digit c = true).
  { intros s1. destruct s1 as [|c s']; cbn [lex_integer]; [congruence|].
    destruct (Ascii.eqb_spec c "0") as [->|_]; [intros _; eauto|].
    destruct (is_digit c) eqn:Hc; [intros _; eauto|congruence]. }
  unfold match_number.
  destruct s as [|c s]; cbn [starts_with].
  - cbn [lex_integer]. discriminate.
  - destruct (Ascii.eqb_spec c "-") as [->|_]; intros H.
    + exists "-"%char, s. split; [reflexivity|]. right. split; [reflexivity|].
      apply Hint. intros Hn. rewrite Hn in H. discriminate H.
    + destruct (Hint (String c s)) as [c0 [s0 [Heq Hc]]].
      * intros Hn. rewrite Hn in H. discriminate H.
      * injection Heq as <- <-. exists c, s. split; [reflexivity|left; exact Hc].
Qed.

(** The decoder reads back a float as [json.dumps] prints it. *)
Lemma scan_once_float (fuel : nat) (literal rest : string) :
  float_text literal = true ->
  stops rest = true ->
  scan_once (S fuel) (literal ++ rest) = Some (VFloat literal, rest).
Proof.
  intros Hf Hr. unfold float_text in Hf.
  destruct (String.eqb_spec literal "Infinity") as [->|_]; [reflexivity|].
  destruct (String.eqb_spec literal "-Infinity") as [->|_]; [reflexivity|].
  cbn [orb] in Hf.
  destruct (match_number literal) as [[v r]|] eqn:Hm; [|discriminate Hf].
  destruct v as [| | |t| | |]; try discriminate Hf.
  destruct r; [|discriminate Hf].
  pose proof (match_number_text _ _ _ Hm) as Ht. rewrite append_nil_r in Ht. subst t.
  pose proof (match_number_app literal rest Hr) as Happ.
  rewrite Hm in Happ. cbn [with_rest append] in Happ.
  destruct (match_number_head _ _ _ Hm) as [c [s [Hs Hc]]].
  rewrite Hs in *. cbn [append] in *.
  destruct Hc as [Hc|[-> [c' [s' [-> Hc']]]]].
  - destruct c as [[|] [|] [|] [|] [|] [|] [|] [|]]; try discriminate Hc;
      cbn [scan_once]; exact Happ.
  - cbn [append] in *.
    destruct c' as [[|] [|] [|] [|] [|] [|] [|] [|]]; try discriminate Hc';
      cbn [scan_once]; exact Happ.
Qed.

Lemma float_text_head (literal : string) :
  float_text literal = true ->
  exists c s, literal = String c s /\ text_head c = true.
Proof.
  intros Hf. unfold float_text in Hf.
  destruct (String.eqb_spec literal "Infinity") as [Heq|_];
    [exists "I"%char, "nfinity"; split; [exact Heq|reflexivity]|].
  destruct (String.eqb_spec literal "-Infinity") as [Heq|_];
    [exists "-"%char, "Infinity"; split; [exact Heq|reflexivity]|].
  cbn [orb] in Hf.
  destruct (match_number literal) as [[v r]|] eqn:Hm; [|discriminate Hf].
  destruct (match_number_head _ _ _ Hm) as [c [s [Hs Hc]]].
  exists c, s. split; [exact Hs|].
  destruct Hc as [Hc|[-> _]]; [|reflexivity].
  unfold text_head, value_head. rewrite Hc. reflexivity.
Qed.

Lemma float_text_not_nan (literal : string) :
  float_text literal = true -> is_nan literal = false.
Proof.
  unfold is_nan. destruct (String.eqb_spec literal "NaN") as [->|_]; [|reflexivity].
  discriminate.
Qed.

(** ** The JSON round trip: values *)

Lemma value_head_facts (c : ascii) :
  value_head c = true ->
  is_ws c = false /\ Ascii.eqb c "]" = false /\ Ascii.eqb c "}" = false.
Proof.
  destruct c as [[|] [|] [|] [|] [|] [|] [|] [|]]; cbn; intros H;
    first [discriminate H | repeat split].
Qed.

Lemma text_head_facts (c : ascii) :
  text_head c = true ->
  is_ws c = false /\ Ascii.eqb c "]" = false /\ Ascii.eqb c "}" = false.
Proof.
  destruct c as [[|] [|] [|] [|] [|] [|] [|] [|]]; cbn; intros H;
    first [discriminate H | repeat split].
Qed.

Lemma json_encode_head (level : nat) (v : value) :
  json_exact v = true ->
  exists c s, json_encode None level v = String c s /\ text_head c = true.
Proof.
  destruct v as [|[|]|z|literal|s|[|x l]|[|kv d]]; cbn [json_exact json_encode];
    intros Hp;
    try (eexists; eexists; split; [reflexivity|reflexivity]).
  - destruct (string_of_Z_head z) as [c [s [Hs Hc]]].
    exists c, s. split; [exact Hs|].
    destruct Hc as [Hc|[-> _]]; [|reflexivity].
    unfold text_head, value_head. rewrite Hc. reflexivity.
  - apply float_text_head, Hp.
Qed.

Lemma skip_ws_head (c : ascii) (s : string) :
  is_ws c = false -> skip_ws (String c s) = String c s.
Proof. intros H. cbn [skip_ws]. rewrite H. reflexivity. Qed.

Lemma join_cons_app (sep a : string) (l : list string) :
  exists t, join sep (a :: l) = a ++ t.
Proof.
  destruct l as [|b l]; cbn [join].
  - exists "". symmetry. apply append_nil_r.
  - eexists. reflexivity.
Qed.

Lemma join_cons_cons (sep a b : string) (l : list string) :
  join sep (a :: b :: l) = a ++ sep ++ join sep (b :: l).
Proof. reflexivity. Qed.

(** The equations of the decoder that the proofs unfold. *)
Lemma scan_once_array (fuel : nat) (s : string) :
  scan_once (S fuel) (String "[" s)
  = match starts_with "]" (skip_ws s) with
    | Some r => Some (VList [], r)
    | None => parse_elements fuel (skip_ws s) []
    end.
Proof. reflexivity. Qed.

Lemma scan_once_object (fuel : nat) (s : string) :
  scan_once (S fuel) (String "{" s)
  = match starts_with "}" (skip_ws s) with
    | Some r => Some (VDict [], r)
    | None => parse_members fuel (skip_ws s) []
    end.
Proof. reflexivity. Qed.

Lemma parse_elements_step (fuel : nat) (s : string) (acc : list value) :
  parse_elements (S fuel) s acc
  = match scan_once fuel s with
    | None => None
    | Some (v, s1) =>
        match starts_with "]" (skip_ws s1), starts_with "," (skip_ws s1) with
        | Some r, _ => Some (VList (List.rev (v :: acc)), r)
        | None, Some r => parse_elements fuel (skip_ws r) (v :: acc)
        | None, None => None
        end
    end.
Proof. reflexivity. Qed.

Lemma parse_members_step (fuel : nat) (s : string) (acc : dict) :
  parse_members (S fuel) s acc
  = match starts_with dquote s with
    | None => None
    | Some rest =>
        match scanstring rest with
        | None => None
        | Some (key, s1) =>
            match starts_with ":" (skip_ws s1) with
            | None => None
            | Some s2 =>
                match scan_once fuel (skip_ws s2) with
                | None => None
                | Some (v, s3) =>
                    match starts_with "}" (skip_ws s3), starts_with "," (skip_ws s3) with
                    | Some r, _ => Some (VDict (dict_set acc key v), r)
                    | None, Some r =>
                        parse_members fuel (skip_ws r) (dict_set acc key v)
                    | None, None => None
                    end
                end
            end
        end
    end.
Proof. reflexivity. Qed.

Lemma skip_ws_encode (level : nat) (v : value) (rest : string) :
  json_exact v = true ->
  skip_ws (json_encode None level v ++ rest) = json_encode None level v ++ rest.
Proof.
  intros Hp. destruct (json_encode_head level v Hp) as [c [s [Hs Hc]]].
  rewrite Hs. cbn [append]. apply skip_ws_head.
  apply (text_head_facts c Hc).
Qed.

Lemma parse_elements_encode (level : nat) (l : list value) :
  Forall reads_back l ->
  forallb json_exact l = true ->
  l <> [] ->
  forall (fuel : nat) (acc : list value) (rest : string),
    (list_sum (map (fun x => S (decode_cost x)) l) <= fuel)%nat ->
    parse_elements fuel
      (join ", " (map (json_encode None level) l) ++ String "]" rest) acc
    = Some (VList (List.rev acc ++ l)%list, rest).
Proof.
  intros Hall. induction Hall as [|x l Hx Hall IH]; intros Hp Hne fuel acc rest Hfuel.
  - contradiction.
  - cbn [forallb] in Hp. apply andb_true_iff in Hp as [Hpx Hpl].
    change (list_sum (map (fun x => S (decode_cost x)) (x :: l)))
      with (S (decode_cost x) + list_sum (map (fun x => S (decode_cost x)) l))%nat
      in Hfuel.
    destruct fuel as [|fuel]; [lia|].
    rewrite parse_elements_step.
    destruct l as [|y l].
    + cbn [map join].
      rewrite (Hx Hpx level fuel (String "]" rest)) by (try reflexivity; lia).
      cbn [skip_ws]. change (is_ws "]") with false. cbv iota.
      cbn [starts_with]. change (Ascii.eqb "]" "]") with true. cbv iota.
      cbn [List.rev]. reflexivity.
    + cbn [map]. rewrite join_cons_cons, !append_assoc.
      cbn [append].
      rewrite (Hx Hpx level fuel) by (try reflexivity; lia).
      cbn [skip_ws]. change (is_ws ",") with false. cbv iota.
      cbn [starts_with]. change (Ascii.eqb "," "]") with false.
      change (Ascii.eqb "," ",") with true. cbv iota.
      cbn [skip_ws]. change (is_ws " ") with true. cbv iota.
      change (json_encode None level y :: map (json_encode None level) l)
        with (map (json_encode None level) (y :: l)).
      assert (Hskip : forall r,
                 skip_ws (join ", " (map (json_encode None level) (y :: l)) ++ r)
                 = join ", " (map (json_encode None level) (y :: l)) ++ r).
      { intros r. cbn [map].
        destruct (join_cons_app ", " (json_encode None level y)
                    (map (json_encode None level) l)) as [t Ht].
        rewrite Ht, append_assoc. apply skip_ws_encode.
        cbn [forallb] in Hpl. apply andb_true_iff in Hpl as [Hpy _]. exact Hpy. }
      rewrite Hskip.
      rewrite (IH Hpl) by (try discriminate; lia).
      cbn [List.rev]. rewrite <- List.app_assoc. reflexivity.
Qed.

Lemma skip_ws_members (level : nat) (kv : string * value) (d : dict) (r : string) :
  skip_ws (join ", " (map (member_text level) (kv :: d)) ++ r)
  = join ", " (map (member_text level) (kv :: d)) ++ r.
Proof.
  cbn [map].
  destruct (join_cons_app ", " (member_text level kv) (map (member_text level) d))
    as [t Ht].
  rewrite Ht. destruct kv as [k x]. reflexivity.
Qed.

Lemma starts_with_members (level : nat) (kv : string * value) (d : dict) (r : string) :
  starts_with "}" (join ", " (map (member_text level) (kv :: d)) ++ r) = None.
Proof.
  cbn [map].
  destruct (join_cons_app ", " (member_text level kv) (map (member_text level) d))
    as [t Ht].
  rewrite Ht. destruct kv as [k x]. reflexivity.
Qed.

Lemma parse_members_encode (level : nat) (d : dict) :
  Forall (fun kv => reads_back (snd kv)) d ->
  forallb (fun kv => match kv with (_, x) => json_exact x end) d = true ->
  d <> [] ->
  forall (fuel : nat) (acc : dict) (rest : string),
    (list_sum (map (fun kv => match kv with (_, x) => S (decode_cost x) end) d)
     <= fuel)%nat ->
    parse_members fuel
      (join ", " (map (member_text level) d) ++ String "}" rest) acc
    = Some (VDict (dict_update acc d), rest).
Proof.
  intros Hall.
  induction Hall as [|[k x] d Hx Hall IH]; intros Hp Hne fuel acc rest Hfuel.
  - contradiction.
  - cbn [forallb] in Hp. apply andb_true_iff in Hp as [Hpx Hpd].
    cbn [snd] in Hx.
    change (list_sum (map (fun kv => match kv with (_, x) => S (decode_cost x) end)
                        ((k, x) :: d)))
      with (S (decode_cost x)
            + list_sum (map (fun kv => match kv with (_, x) => S (decode_cost x) end) d))%nat
      in Hfuel.
    destruct fuel as [|fuel]; [lia|].
    rewrite parse_members_step, dict_update_cons.
    assert (Hmember : forall tail,
               member_text level (k, x) ++ tail
               = String dquote (json_escape k
                                  ++ String dquote (String ":" (String " "
                                       (json_encode None level x ++ tail))))).
    { intros tail. unfold member_text, json_string, str1.
      cbn [append]. rewrite !append_assoc. reflexivity. }
    destruct d as [|kv d].
    + cbn [map join]. rewrite Hmember.
      cbn [starts_with]. change (Ascii.eqb dquote dquote) with true. cbv iota.
      rewrite scanstring_escape.
      cbn [skip_ws]. change (is_ws ":") with false. cbv iota.
      cbn [starts_with]. change (Ascii.eqb ":" ":") with true. cbv iota.
      cbn [skip_ws]. change (is_ws " ") with true. cbv iota.
      rewrite (skip_ws_encode level x _ Hpx).
      rewrite (Hx Hpx level fuel (String "}" rest)) by (try reflexivity; lia).
      cbn [skip_ws]. change (is_ws "}") with false. cbv iota.
      cbn [starts_with]. change (Ascii.eqb "}" "}") with true. cbv iota.
      reflexivity.
    + cbn [map]. rewrite join_cons_cons, append_assoc, Hmember.
      cbn [starts_with]. change (Ascii.eqb dquote dquote) with true. cbv iota.
      rewrite scanstring_escape.
      cbn [skip_ws]. change (is_ws ":") with false. cbv iota.
      cbn [starts_with]. change (Ascii.eqb ":" ":") with true. cbv iota.
      cbn [skip_ws]. change (is_ws " ") with true. cbv iota.
      rewrite (skip_ws_encode level x _ Hpx).
      rewrite append_assoc. cbn [append].
      rewrite (Hx Hpx level fuel) by (try reflexivity; lia).
      cbn [skip_ws]. change (is_ws ",") with false. cbv iota.
      cbn [starts_with]. change (Ascii.eqb "," "}") with false.
      change (Ascii.eqb "," ",") with true. cbv iota.
      cbn [skip_ws]. change (is_ws " ") with true. cbv iota.
      change (member_text level kv :: map (member_text level) d)
        with (map (member_text level) (kv :: d)).
      rewrite skip_ws_members.
      rewrite (IH Hpd) by (try discriminate; lia).
      reflexivity.
Qed.

(** A dictionary with one binding per key is what its bindings build. *)
Lemma dict_update_unique (acc d : dict) :
  unique_keys d = true ->
  (forall k, dict_has d k = true -> dict_has acc k = false) ->
  dict_update acc d = (acc ++ d)%list.
Proof.
  revert acc. induction d as [|[k v] d IH]; intros acc Hu Hdis.
  - cbn. rewrite List.app_nil_r. reflexivity.
  - cbn [unique_keys] in Hu. apply andb_true_iff in Hu as [Hk Hu].
    apply negb_true_iff in Hk.
    rewrite dict_update_cons, dict_set_fresh.
    + rewrite (IH _ Hu).
      * rewrite <- List.app_assoc. reflexivity.
      * intros k' Hk'. rewrite dict_has_app.
        rewrite (Hdis k').
        -- unfold dict_has at 1. cbn [dict_get].
           destruct (String.eqb_spec k k') as [->|Hne]; [congruence|reflexivity].
        -- unfold dict_has. cbn [dict_get].
           destruct (String.eqb k k'); [reflexivity|exact Hk'].
    + apply Hdis. unfold dict_has. cbn [dict_get]. rewrite String.eqb_refl. reflexivity.
Qed.

(** The decoder reads back the compact encoding of every value without
    NaN. *)
Lemma scan_once_encode (v : value) : reads_back v.
Proof.
  induction v as [|b|z|literal|s|l IH|d IH] using value_nested_ind;
    intros Hp level fuel rest Hstop Hfuel;
    (destruct fuel as [|fuel]; [cbn [decode_cost] in Hfuel; lia|]).
  - reflexivity.
  - destruct b; reflexivity.
  - apply scan_once_int, stops_ends_number, Hstop.
  - apply scan_once_float; [exact Hp|exact Hstop].
  - apply scan_once_string.
  - cbn [json_exact] in Hp. cbn [decode_cost] in Hfuel.
    destruct l as [|x l]; [reflexivity|].
    cbn [json_encode container_open container_close item_separator].
    change ("[" ++ "" ++ ?j ++ "" ++ "]") with (String "[" (j ++ "]")).
    cbn [append]. rewrite append_assoc. cbn [append].
    rewrite scan_once_array.
    assert (Hskip : forall r,
               skip_ws (join ", " (map (json_encode None (S level)) (x :: l)) ++ r)
               = join ", " (map (json_encode None (S level)) (x :: l)) ++ r
               /\ starts_with "]" (join ", " (map (json_encode None (S level)) (x :: l)) ++ r)
                  = None).
    { intros r. cbn [map].
      destruct (join_cons_app ", " (json_encode None (S level) x)
                  (map (json_encode None (S level)) l)) as [t Ht].
      rewrite Ht, append_assoc.
      cbn [forallb] in Hp. apply andb_true_iff in Hp as [Hpx _].
      destruct (json_encode_head (S level) x Hpx) as [c [s0 [Hs Hc]]].
      rewrite Hs. cbn [append].
      destruct (text_head_facts c Hc) as [Hws [Hb _]].
      split; [apply skip_ws_head; exact Hws|].
      cbn [starts_with]. rewrite Hb. reflexivity. }
    destruct (Hskip (String "]" rest)) as [Hs1 Hs2]. rewrite Hs1, Hs2.
    rewrite (parse_elements_encode (S level) (x :: l) IH Hp) by (try discriminate; lia).
    reflexivity.
  - cbn [json_exact] in Hp. apply andb_true_iff in Hp as [Hu Hp].
    cbn [decode_cost] in Hfuel.
    destruct d as [|kv d]; [reflexivity|].
    cbn [json_encode container_open container_close item_separator].
    change (map (fun kv0 : string * value =>
                   let (k, x) := kv0 in json_string k ++ ": " ++ json_encode None (S level) x)
                (kv :: d))
      with (map (member_text (S level)) (kv :: d)).
    change ("{" ++ "" ++ ?j ++ "" ++ "}") with (String "{" (j ++ "}")).
    cbn [append]. rewrite append_assoc. cbn [append].
    rewrite scan_once_object, skip_ws_members, starts_with_members.
    rewrite (parse_members_encode (S level) (kv :: d) IH Hp) by (try discriminate; lia).
    rewrite (dict_update_unique [] (kv :: d) Hu) by reflexivity.
    reflexivity.
Qed.

(** The fuel [json_loads] gives covers the cost of what was encoded. *)
Lemma join_length (l : list string) :
  l <> [] ->
  (String.length (join ", " l) + 2
   = list_sum (map (fun s => String.length s + 2) l))%nat.
Proof.
  induction l as [|a l IH]; intros Hne; [contradiction|].
  destruct l as [|b l].
  - cbn. lia.
  - rewrite join_cons_cons, !length_append.
    change (list_sum (map (fun s => String.length s + 2) (a :: b :: l)))%nat
      with (String.length a + 2
            + list_sum (map (fun s => String.length s + 2) (b :: l)))%nat.
    rewrite <- IH by discriminate. cbn [String.length]. lia.
Qed.

Lemma decode_cost_length (level : nat) (v : value) :
  (decode_cost v <= S (String.length (json_encode None level v)))%nat.
Proof.
  revert level.
  induction v as [|b|z|literal|s|l IH|d IH] using value_nested_ind; intros level;
    try (cbn [decode_cost]; lia).
  - destruct l as [|x l]; [cbn; lia|].
    cbn [decode_cost json_encode container_open container_close item_separator].
    rewrite !length_append. cbn [String.length].
    pose proof (join_length (map (json_encode None (S level)) (x :: l))) as Hj.
    assert (Hsum : (list_sum (map (fun x => S (decode_cost x)) (x :: l))
                    <= list_sum (map (fun s => String.length s + 2)
                                   (map (json_encode None (S level)) (x :: l))))%nat).
    { clear Hj. induction IH as [|y l' Hy _ IHl]; [cbn; lia|].
      cbn [map].
      change (list_sum (?a :: ?r)) with (a + list_sum r)%nat.
      specialize (Hy (S level)). lia. }
    specialize (Hj ltac:(discriminate)). lia.
  - destruct d as [|kv d]; [cbn; lia|].
    cbn [decode_cost json_encode container_open container_close item_separator].
    change (map (fun kv0 : string * value =>
                   let (k, x) := kv0 in json_string k ++ ": " ++ json_encode None (S level) x)
                (kv :: d))
      with (map (member_text (S level)) (kv :: d)).
    rewrite !length_append. cbn [String.length].
    pose proof (join_length (map (member_text (S level)) (kv :: d))) as Hj.
    assert (Hsum : (list_sum (map (fun kv => match kv with
                                             | (_, x) => S (decode_cost x)
                                             end) (kv :: d))
                    <= list_sum (map (fun s => String.length s + 2)
                                   (map (member_text (S level)) (kv :: d))))%nat).
    { clear Hj. induction IH as [|[k y] l' Hy _ IHl]; [cbn; lia|].
      cbn [map].
      change (list_sum (?a :: ?r)) with (a + list_sum r)%nat.
      cbn [snd] in Hy. specialize (Hy (S level)).
      unfold member_text at 1. rewrite !length_append. lia. }
    specialize (Hj ltac:(discriminate)). lia.
Qed.

(** [json.loads(json.dumps(v))] is [v] for every value without NaN. *)
Lemma json_loads_dumps (v : value) :
  json_exact v = true -> json_loads (json_dumps None v) = Some v.
Proof.
  intros Hp. unfold json_loads, json_dumps.
  assert (Hskip : skip_ws (json_encode None 0 v) = json_encode None 0 v).
  { pose proof (skip_ws_encode 0 v "" Hp) as H.
    rewrite append_nil_r in H. exact H. }
  rewrite Hskip.
  pose proof (scan_once_encode v Hp 0%nat _ "" eq_refl (decode_cost_length 0 v)) as H.
  rewrite append_nil_r in H. rewrite H. reflexivity.
Qed.

(** ** Equality after the round trip *)

Lemma and3_true (a b : option bool) :
  a = Some true -> b = Some true -> and3 a b = Some true.
Proof. intros -> ->. reflexivity. Qed.

(** With one binding per key, [d.get(k)] is the value bound to [k]. *)
Lemma dict_get_In (d : dict) (k : string) (x : value) :
  unique_keys d = true -> In (k, x) d -> dict_get d k = Some x.
Proof.
  induction d as [|[k0 v0] d IH]; intros Hu Hin; [contradiction|].
  cbn [unique_keys] in Hu. apply andb_true_iff in Hu as [Hk Hu].
  apply negb_true_iff in Hk. cbn [dict_get].
  destruct Hin as [[= -> ->]|Hin].
  - rewrite String.eqb_refl. reflexivity.
  - destruct (String.eqb_spec k0 k) as [->|_]; [|apply (IH Hu Hin)].
    unfold dict_has in Hk. rewrite (IH Hu Hin) in Hk. discriminate Hk.
Qed.

(** A value without NaN is equal to itself. *)
Lemma py_eq_refl (v : value) : json_exact v = true -> py_eq v v = Some true.
Proof.
  induction v as [|b|z|literal|s|l IH|d IH] using value_nested_ind;
    intros Hp; cbn [py_eq].
  - reflexivity.
  - destruct b; reflexivity.
  - rewrite Z.eqb_refl. reflexivity.
  - cbn [json_exact] in Hp. rewrite (float_text_not_nan literal Hp), String.eqb_refl.
    reflexivity.
  - rewrite String.eqb_refl. reflexivity.
  - cbn [json_exact] in Hp.
    induction IH as [|x l Hx _ IHl]; [reflexivity|].
    cbn [forallb] in Hp. apply andb_true_iff in Hp as [Hpx Hpl].
    cbn [all3_pairs]. apply and3_true; [apply Hx, Hpx|apply IHl, Hpl].
  - cbn [json_exact] in Hp. apply andb_true_iff in Hp as [Hu Hp].
    rewrite Nat.eqb_refl.
    assert (Hsub : forall d' : dict,
               (forall k x, In (k, x) d' -> In (k, x) d) ->
               Forall (fun kv => json_exact (snd kv) = true -> py_eq (snd kv) (snd kv) = Some true) d' ->
               forallb (fun kv => match kv with (_, x) => json_exact x end) d' = true ->
               all3 (fun kv => match kv with
                               | (k, x) =>
                                   match dict_get d k with
                                   | Some y => py_eq x y
                                   | None => Some false
                                   end
                               end) d' = Some true).
    { intros d' Hin Hall. induction Hall as [|[k x] d' Hx _ IHd]; intros Hpd;
        [reflexivity|].
      cbn [forallb] in Hpd. apply andb_true_iff in Hpd as [Hpx Hpd].
      cbn [all3]. apply and3_true.
      - rewrite (dict_get_In d k x Hu (Hin k x (or_introl eq_refl))).
        apply Hx, Hpx.
      - apply IHd; [|exact Hpd]. intros k' x' H'. apply Hin. right. exact H'. }
    apply Hsub; [auto|exact IH|exact Hp].
Qed.

(** C8.  For every record built from None, booleans, integers, floats
    other than NaN, strings, lists and dictionaries with string keys,
    decoding the compact JSON rendering of the record gives a mapping
    equal to the record: the same bindings, and [==] says so. *)
Theorem json_format_round_trip (r : dict) :
  json_exact (VDict r) = true ->
  exists decoded,
    json_loads (JsonFormatter_format false (VDict r)) = Some decoded
    /\ decoded = VDict r
    /\ py_eq decoded (VDict r) = Some true.
Proof.
  intros Hp. exists (VDict r). unfold JsonFormatter_format.
  split; [apply (json_loads_dumps (VDict r) Hp)|].
  split; [reflexivity|apply (py_eq_refl (VDict r) Hp)].
Qed.

Lemma json_format_round_trip_witness :
  exists decoded,
    json_loads
      (JsonFormatter_format false
         (VDict [("name", VStr "svc"); ("hostname", VStr "h1"); ("pid", VInt 42);
                 ("elapsed", VFloat "0.25"); ("rate", VFloat "1.5e-07");
                 ("limit", VFloat "Infinity");
                 ("tags", VList [VStr ("a" ++ String dquote "b"); VNone; VBool true;
                                 VInt (-7); VFloat "-1e+16"]);
                 ("nested", VDict [("k", VList [])]); ("message", VStr ("x" ++ nl));
                 ("level", VStr "INFO"); ("timestamp", VStr "2017-12-22T17:02:59")]))
    = Some decoded
    /\ py_eq decoded
         (VDict [("name", VStr "svc"); ("hostname", VStr "h1"); ("pid", VInt 42);
                 ("elapsed", VFloat "0.25"); ("rate", VFloat "1.5e-07");
                 ("limit", VFloat "Infinity");
                 ("tags", VList [VStr ("a" ++ String dquote "b"); VNone; VBool true;
                                 VInt (-7); VFloat "-1e+16"]);
                 ("nested", VDict [("k", VList [])]); ("message", VStr ("x" ++ nl));
                 ("level", VStr "INFO"); ("timestamp", VStr "2017-12-22T17:02:59")])
       = Some true.
Proof.
  destruct (json_format_round_trip
              [("name", VStr "svc"); ("hostname", VStr "h1"); ("pid", VInt 42);
               ("elapsed", VFloat "0.25"); ("rate", VFloat "1.5e-07");
               ("limit", VFloat "Infinity");
               ("tags", VList [VStr ("a" ++ String dquote "b"); VNone; VBool true;
                               VInt (-7); VFloat "-1e+16"]);
               ("nested", VDict [("k", VList [])]); ("message", VStr ("x" ++ nl));
               ("level", VStr "INFO"); ("timestamp", VStr "2017-12-22T17:02:59")]
              eq_refl) as [decoded [Hloads [_ Heq]]].
  exists decoded. split; [exact Hloads|exact Heq].
Defined.

(** C8 as it is written, for every record that [json.dumps] renders,
    fails on a record that holds NaN: the rendering decodes to a mapping
    with the same key and NaN again, and NaN is equal to no value. *)
Lemma json_round_trip_nan_is_not_equal :
  json_loads (JsonFormatter_format false (VDict [("elapsed", VFloat "NaN")]))
  = Some (VDict [("elapsed", VFloat "NaN")])
  /\ py_eq (VDict [("elapsed", VFloat "NaN")]) (VDict [("elapsed", VFloat "NaN")])
     = Some false
  /\ ~ (forall r : dict,
          exists decoded,
            json_loads (JsonFormatter_format false (VDict r)) = Some decoded
            /\ py_eq decoded (VDict r) = Some true).
Proof.
  split; [reflexivity|]. split; [reflexivity|].
  intros H. destruct (H [("elapsed", VFloat "NaN")]) as [decoded [Hloads Heq]].
  vm_compute in Hloads. injection Hloads as <-. discriminate Heq.
Qed.

(** ** The fuel of the decoder *)

Lemma skip_ws_length (s : string) : (String.length (skip_ws s) <= String.length s)%nat.
Proof.
  induction s as [|c s IH]; cbn [skip_ws]; [lia|].
  destruct (is_ws c); cbn [String.length]; lia.
Qed.

Lemma starts_with_length (c : ascii) (s r : string) :
  starts_with c s = Some r -> String.length s = S (String.length r).
Proof.
  destruct s as [|a s]; cbn [starts_with]; [discriminate|].
  destruct (Ascii.eqb a c); [|discriminate].
  intros [= ->]. reflexivity.
Qed.

Lemma cons_char_inv (c : ascii) (o : option (string * string)) (t r : string) :
  cons_char c o = Some (t, r) -> exists t', o = Some (t', r).
Proof.
  destruct o as [[t' r']|]; cbn [cons_char]; [|discriminate].
  intros [= _ ->]. eauto.
Qed.

Lemma scanstring_length (n : nat) (s t r : string) :
  (String.length s <= n)%nat ->
  scanstring s = Some (t, r) -> (String.length r < String.length s)%nat.
Proof.
  revert s t r. induction n as [|n IH]; intros s t r Hn.
  - destruct s; [discriminate|cbn [String.length] in Hn; lia].
  - destruct s as [|c s]; cbn [scanstring]; [discriminate|].
    cbn [String.length] in Hn |- *.
    destruct (Ascii.eqb c dquote); [intros [= _ ->]; lia|].
    destruct (Ascii.eqb c backslash).
    + destruct s as [|e s1]; [discriminate|].
      destruct (Ascii.eqb e "u").
      * destruct s1 as [|h1 [|h2 [|h3 [|h4 s2]]]]; try discriminate.
        destruct (hex4 h1 h2 h3 h4) as [k|]; [|discriminate].
        destruct (k <? 256)%nat; [|discriminate].
        intros H. apply cons_char_inv in H as [t' H].
        cbn [String.length] in Hn |- *.
        apply IH in H; lia.
      * destruct (unescape e); [|discriminate].
        intros H. apply cons_char_inv in H as [t' H].
        cbn [String.length] in Hn |- *.
        apply IH in H; lia.
    + destruct (nat_of_ascii c <? 32)%nat; [discriminate|].
      intros H. apply cons_char_inv in H as [t' H].
      apply IH in H; lia.
Qed.

Lemma lex_digits_length (s : string) :
  (String.length (snd (lex_digits s)) <= String.length s)%nat.
Proof.
  induction s as [|c s IH]; cbn [lex_digits]; [cbn; lia|].
  destruct (is_digit c); [|cbn; lia].
  destruct (lex_digits s) as [d r]. cbn [snd String.length] in *. lia.
Qed.

Lemma lex_integer_length (s : string) (d : uint) (r : string) :
  lex_integer s = Some (d, r) -> (String.length r < String.length s)%nat.
Proof.
  destruct s as [|c s]; cbn [lex_integer]; [discriminate|].
  destruct (Ascii.eqb c "0"); [intros [= _ ->]; cbn; lia|].
  destruct (is_digit c) eqn:Hc; [|discriminate].
  cbn [lex_digits]. rewrite Hc.
  pose proof (lex_digits_length s) as Hl.
  destruct (lex_digits s) as [d' r']. cbn [snd] in Hl.
  intros [= _ ->]. cbn [String.length]. lia.
Qed.

Lemma lex_fraction_length (s text r : string) :
  lex_fraction s = Some (text, r) -> (String.length r <= String.length s)%nat.
Proof.
  unfold lex_fraction.
  destruct (starts_with "." s) as [rest|] eqn:Hs; [|discriminate].
  apply starts_with_length in Hs.
  pose proof (lex_digits_length rest) as Hl.
  destruct (lex_digits rest) as [d r']. cbn [snd] in Hl.
  destruct d; try discriminate; intros [= _ ->]; lia.
Qed.

Lemma lex_exponent_length (s text r : string) :
  lex_exponent s = Some (text, r) -> (String.length r <= String.length s)%nat.
Proof.
  destruct s as [|e rest]; cbn [lex_exponent]; [discriminate|].
  destruct (Ascii.eqb e "e" || Ascii.eqb e "E"); [|discriminate].
  assert (Hsign : forall sign rest1,
             match starts_with "+" rest, starts_with "-" rest with
             | Some r0, _ => ("+", r0)
             | None, Some r0 => ("-", r0)
             | None, None => ("", rest)
             end = (sign, rest1) ->
             (String.length rest1 <= String.length rest)%nat).
  { intros sign rest1.
    destruct (starts_with "+" rest) as [r0|] eqn:Hp.
    - apply starts_with_length in Hp. intros [= _ <-]. lia.
    - destruct (starts_with "-" rest) as [r0|] eqn:Hm.
      + apply starts_with_length in Hm. intros [= _ <-]. lia.
      + intros [= _ <-]. lia. }
  destruct (match starts_with "+" rest, starts_with "-" rest with
            | Some r0, _ => ("+", r0)
            | None, Some r0 => ("-", r0)
            | None, None => ("", rest)
            end) as [sign rest1] eqn:Hm.
  specialize (Hsign sign rest1 eq_refl).
  pose proof (lex_digits_length rest1) as Hl.
  destruct (lex_digits rest1) as [d r']. cbn [snd] in Hl.
  cbn [String.length].
  destruct d; try discriminate; intros [= _ ->]; lia.
Qed.

Lemma match_number_length (s : string) (v : value) (r : string) :
  match_number s = Some (v, r) -> (String.length r < String.length s)%nat.
Proof.
  unfold match_number.
  destruct (starts_with "-" s) as [s1|] eqn:Hs.
  - apply starts_with_length in Hs.
    destruct (lex_integer s1) as [[d s2]|] eqn:Hi; [|discriminate].
    apply lex_integer_length in Hi.
    destruct (lex_fraction s2) as [[frac s3]|] eqn:Hf.
    + apply lex_fraction_length in Hf.
      destruct (lex_exponent s3) as [[expo s4]|] eqn:He.
      * apply lex_exponent_length in He. intros [= _ <-]. lia.
      * intros [= _ <-]. lia.
    + destruct (lex_exponent s2) as [[expo s4]|] eqn:He.
      * apply lex_exponent_length in He. intros [= _ <-]. lia.
      * intros [= _ <-]. lia.
  - destruct (lex_integer s) as [[d s2]|] eqn:Hi; [|discriminate].
    apply lex_integer_length in Hi.
    destruct (lex_fraction s2) as [[frac s3]|] eqn:Hf.
    + apply lex_fraction_length in Hf.
      destruct (lex_exponent s3) as [[expo s4]|] eqn:He.
      * apply lex_exponent_length in He. intros [= _ <-]. lia.
      * intros [= _ <-]. lia.
    + destruct (lex_exponent s2) as [[expo s4]|] eqn:He.
      * apply lex_exponent_length in He. intros [= _ <-]. lia.
      * intros [= _ <-]. lia.
Qed.

Lemma strip_prefix_length (p s r : string) :
  strip_prefix p s = Some r ->
  String.length s = (String.length p + String.length r)%nat.
Proof.
  revert s. induction p as [|a p IH]; intros s; cbn [strip_prefix].
  - intros [= ->]. reflexivity.
  - destruct s as [|b s]; [discriminate|].
    destruct (Ascii.eqb a b); [|discriminate].
    intros H. apply IH in H. cbn [String.length]. lia.
Qed.

Lemma match_constant_length (s : string) (v : value) (r : string) :
  match_constant s = Some (v, r) -> (String.length r < String.length s)%nat.
Proof.
  destruct s as [|c s]; cbn [match_constant]; [discriminate|].
  repeat match goal with
         | |- context [if ?b then _ else _] => destruct b
         end;
    try discriminate;
    match goal with
    | |- context [strip_prefix ?p ?t] =>
        destruct (strip_prefix p t) as [r0|] eqn:Hp; [|discriminate];
        apply strip_prefix_length in Hp; intros [= _ <-];
        cbn [String.length] in *; lia
    end.
Qed.

Lemma decoder_settled (fuel : nat) :
  settled (fun f s (_ : unit) => scan_once f s) fuel
  /\ settled parse_elements fuel
  /\ settled parse_members fuel.
Proof.
  induction fuel as [|fuel [IHs [IHe IHm]]].
  - repeat split; discriminate.
  - split; [|split].
    + intros s [] v r. destruct s as [|c rest]; [discriminate|].
      cbn [scan_once].
      destruct (Ascii.eqb c dquote) eqn:Hq.
      { destruct (scanstring rest) as [[text r0]|] eqn:Hsc; [|discriminate].
        intros [= <- <-].
        pose proof (scanstring_length _ _ _ _ (le_n _) Hsc) as Hlen.
        split; [cbn [String.length]; lia|].
        intros [|fuel'] Hf; [cbn [String.length] in Hf; lia|].
        cbn [scan_once]. rewrite Hq, Hsc. reflexivity. }
      pose proof (skip_ws_length rest) as Hws.
      destruct (Ascii.eqb c "{") eqn:Ho.
      { destruct (starts_with "}" (skip_ws rest)) as [r0|] eqn:Hst.
        - intros [= <- <-].
          pose proof (starts_with_length _ _ _ Hst) as Hlen.
          split; [cbn [String.length]; lia|].
          intros [|fuel'] Hf; [cbn [String.length] in Hf; lia|].
          cbn [scan_once]. rewrite Hq, Ho, Hst. reflexivity.
        - intros Hrun. destruct (IHm _ _ _ _ Hrun) as [Hlen Hre].
          split; [cbn [String.length]; lia|].
          intros [|fuel'] Hf; [cbn [String.length] in Hf; lia|].
          cbn [scan_once]. rewrite Hq, Ho, Hst.
          apply Hre. cbn [String.length] in Hf. lia. }
      destruct (Ascii.eqb c "[") eqn:Ha.
      { destruct (starts_with "]" (skip_ws rest)) as [r0|] eqn:Hst.
        - intros [= <- <-].
          pose proof (starts_with_length _ _ _ Hst) as Hlen.
          split; [cbn [String.length]; lia|].
          intros [|fuel'] Hf; [cbn [String.length] in Hf; lia|].
          cbn [scan_once]. rewrite Hq, Ho, Ha, Hst. reflexivity.
        - intros Hrun. destruct (IHe _ _ _ _ Hrun) as [Hlen Hre].
          split; [cbn [String.length]; lia|].
          intros [|fuel'] Hf; [cbn [String.length] in Hf; lia|].
          cbn [scan_once]. rewrite Hq, Ho, Ha, Hst.
          apply Hre. cbn [String.length] in Hf. lia. }
      intros Hrun.
      assert (Hlen : (String.length r < String.length (String c rest))%nat).
      { destruct (match_constant (String c rest)) as [[v0 r0]|] eqn:Hc.
        - injection Hrun as <- <-. apply (match_constant_length _ _ _ Hc).
        - apply (match_number_length _ _ _ Hrun). }
      split; [exact Hlen|].
      intros [|fuel'] Hf; [lia|].
      cbn [scan_once]. rewrite Hq, Ho, Ha. exact Hrun.
    + intros s acc v r. rewrite parse_elements_step.
      destruct (scan_once fuel s) as [[x s1]|] eqn:Hx; [|discriminate].
      destruct (IHs s tt x s1 Hx) as [Hlen1 Hre1].
      pose proof (skip_ws_length s1) as Hws.
      destruct (starts_with "]" (skip_ws s1)) as [r0|] eqn:Hc.
      * intros [= <- <-].
        pose proof (starts_with_length _ _ _ Hc) as Hlen.
        split; [lia|].
        intros [|fuel'] Hf; [lia|].
        rewrite parse_elements_step, (Hre1 fuel') by lia.
        rewrite Hc. reflexivity.
      * destruct (starts_with "," (skip_ws s1)) as [r0|] eqn:Hm; [|discriminate].
        intros Hrun. destruct (IHe _ _ _ _ Hrun) as [Hlen2 Hre2].
        pose proof (starts_with_length _ _ _ Hm) as Hlen.
        pose proof (skip_ws_length r0) as Hws0.
        split; [lia|].
        intros [|fuel'] Hf; [lia|].
        rewrite parse_elements_step, (Hre1 fuel') by lia.
        rewrite Hc, Hm. apply Hre2. lia.
    + intros s acc v r. rewrite parse_members_step.
      destruct (starts_with dquote s) as [rest|] eqn:Hq; [|discriminate].
      pose proof (starts_with_length _ _ _ Hq) as Hlq.
      destruct (scanstring rest) as [[key s1]|] eqn:Hk; [|discriminate].
      pose proof (scanstring_length _ _ _ _ (le_n _) Hk) as Hlk.
      pose proof (skip_ws_length s1) as Hws1.
      destruct (starts_with ":" (skip_ws s1)) as [s2|] eqn:Hcol; [|discriminate].
      pose proof (starts_with_length _ _ _ Hcol) as Hlc.
      pose proof (skip_ws_length s2) as Hws2.
      destruct (scan_once fuel (skip_ws s2)) as [[x s3]|] eqn:Hx; [|discriminate].
      destruct (IHs _ tt x s3 Hx) as [Hlen1 Hre1].
      pose proof (skip_ws_length s3) as Hws3.
      destruct (starts_with "}" (skip_ws s3)) as [r0|] eqn:Hc.
      * intros [= <- <-].
        pose proof (starts_with_length _ _ _ Hc) as Hlen.
        split; [lia|].
        intros [|fuel'] Hf; [lia|].
        rewrite parse_members_step, Hq, Hk, Hcol, (Hre1 fuel') by lia.
        rewrite Hc. reflexivity.
      * destruct (starts_with "," (skip_ws s3)) as [r0|] eqn:Hm; [|discriminate].
        intros Hrun. destruct (IHm _ _ _ _ Hrun) as [Hlen2 Hre2].
        pose proof (starts_with_length _ _ _ Hm) as Hlen.
        pose proof (skip_ws_length r0) as Hws0.
        split; [lia|].
        intros [|fuel'] Hf; [lia|].
        rewrite parse_members_step, Hq, Hk, Hcol, (Hre1 fuel') by lia.
        rewrite Hc, Hm. apply Hre2. lia.
Qed.

(** The fuel of [json_loads] is never what makes the decoder fail: when
    some fuel lets [scan_once] read a value, so does the fuel that
    [json_loads] gives, with the same result. *)
Lemma scan_once_adequate (fuel : nat) (s : string) (v : value) (r : string) :
  scan_once fuel s = Some (v, r) ->
  scan_once (S (String.length s)) s = Some (v, r).
Proof.
  intros Hrun.
  destruct (proj1 (decoder_settled fuel) s tt v r Hrun) as [_ Hre].
  apply Hre. lia.
Qed.

(** When [json_loads] answers [None], no amount of fuel makes the text a
    JSON value with only white space after it. *)
Lemma json_loads_none (s : string) :
  json_loads s = None ->
  forall (fuel : nat) (v : value) (r : string),
    scan_once fuel (skip_ws s) = Some (v, r) -> skip_ws r <> "".
Proof.
  unfold json_loads. intros Hnone fuel v r Hrun Hr.
  rewrite (scan_once_adequate fuel _ v r Hrun), Hr in Hnone. discriminate.
Qed.


(** * Further properties of the code *)

(** ** Normalisation *)

(** X1.  [_normalize_objects] never raises and answers one value per item,
    in the order of the items: a mapping gives itself, a string that
    [json.loads] decodes gives the decoded value, and any other string
    gives a mapping. *)
Theorem normalize_objects_total (loads : string -> option value)
    (objects : list context_object) :
  exists parts,
    _normalize_objects loads objects = Return parts
    /\ List.length parts = List.length objects
    /\ Forall2 (fun obj v =>
                  match obj with
                  | Mapping d => v = VDict d
                  | Text s => loads s = Some v \/ (loads s = None /\ is_dict v = true)
                  end) objects parts.
Proof.
  destruct (_normalize_objects_returns loads objects) as [parts [Hn [Hlen Hall]]].
  exists parts. split; [exact Hn|]. split; [exact Hlen|].
  clear Hn Hlen. induction Hall as [|obj v objects parts Hv _ IH]; constructor;
    [|exact IH].
  destruct obj as [d|s]; cbn [normalize_object] in Hv.
  - injection Hv as <-. reflexivity.
  - destruct (loads s) as [w|] eqn:Hl.
    + injection Hv as <-. left. reflexivity.
    + right. split; [reflexivity|].
      destruct (contains_char "=" s) eqn:Hc.
      * rewrite (_split_kv_returns s Hc) in Hv. injection Hv as <-. reflexivity.
      * injection Hv as <-. reflexivity.
Qed.

(** X2.  [_split_kv] returns exactly when the pair contains [=], and
    raises IndexError otherwise; when it returns, key, [=] and value put
    together are the pair again, and the key contains no [=]. *)
Theorem split_kv_returns_iff (pair : string) :
  (contains_char "=" pair = false -> _split_kv pair = Raise IndexError)
  /\ (contains_char "=" pair = true ->
      exists key v,
        _split_kv pair = Return (VDict [(key, VStr v)])
        /\ pair = key ++ "=" ++ v
        /\ contains_char "=" key = false).
Proof.
  split; intros Hc.
  - unfold _split_kv, split_once. rewrite Hc. reflexivity.
  - exists (before_first "=" pair), (after_first "=" pair).
    split; [apply (_split_kv_returns pair Hc)|].
    split; [apply (split_first_append "=" pair Hc)|apply before_first_free].
Qed.

Lemma split_kv_returns_iff_witness :
  _split_kv "no separator" = Raise IndexError
  /\ exists key v,
       _split_kv "path=/a=b" = Return (VDict [(key, VStr v)])
       /\ "path=/a=b" = key ++ "=" ++ v
       /\ contains_char "=" key = false.
Proof.
  split.
  - apply (proj1 (split_kv_returns_iff "no separator")). reflexivity.
  - apply (proj2 (split_kv_returns_iff "path=/a=b")). reflexivity.
Defined.

(** ** Enrichment *)

Lemma dict_has_update_keeps (log other : dict) (k : string) :
  dict_has log k = true -> dict_has (dict_update log other) k = true.
Proof.
  revert log. induction other as [|[k0 v0] other IH]; intros log Hk.
  - exact Hk.
  - rewrite dict_update_cons. apply IH.
    rewrite dict_has_set, Hk. apply orb_true_r.
Qed.

Lemma unique_keys_update (log other : dict) :
  unique_keys log = true -> unique_keys (dict_update log other) = true.
Proof.
  revert log. induction other as [|[k0 v0] other IH]; intros log Hu.
  - exact Hu.
  - rewrite dict_update_cons. apply IH, unique_keys_set, Hu.
Qed.

Lemma update_from_items_keeps (items : list value) (log log' : dict) :
  update_from_items log items = Return log' ->
  (forall k, dict_has log k = true -> dict_has log' k = true)
  /\ (unique_keys log = true -> unique_keys log' = true).
Proof.
  revert log. induction items as [|item items IH]; intros log; cbn [update_from_items].
  - intros [= <-]. split; trivial.
  - destruct (update_item item) as [[key v]|e]; cbn [bind fst snd]; [|discriminate].
    destruct key; try discriminate.
    intros Hrun. destruct (IH _ Hrun) as [Hk Hu]. split.
    + intros k Hin. apply Hk. rewrite dict_has_set, Hin. apply orb_true_r.
    + intros Hlog. apply Hu, unique_keys_set, Hlog.
Qed.

Lemma update_with_keeps (part : value) (log log' : dict) :
  update_with log part = Return log' ->
  (forall k, dict_has log k = true -> dict_has log' k = true)
  /\ (unique_keys log = true -> unique_keys log' = true).
Proof.
  destruct part as [| | | |s|items|d]; cbn [update_with]; try discriminate.
  - destruct s; [|discriminate]. intros [= <-]. split; trivial.
  - apply update_from_items_keeps.
  - intros [= <-]. split.
    + intros k. apply dict_has_update_keeps.
    + apply unique_keys_update.
Qed.

Lemma update_all_keeps (parts : list value) (log log' : dict) :
  update_all log parts = Return log' ->
  (forall k, dict_has log k = true -> dict_has log' k = true)
  /\ (unique_keys log = true -> unique_keys log' = true).
Proof.
  revert log. induction parts as [|part parts IH]; intros log; cbn [update_all].
  - intros [= <-]. split; trivial.
  - destruct (update_with log part) as [log1|e] eqn:H1; cbn [bind]; [|discriminate].
    intros Hrun. destruct (update_with_keeps _ _ _ H1) as [Hk1 Hu1].
    destruct (IH _ Hrun) as [Hk Hu]. split; auto.
Qed.

(** A record that [_enrich] returns is some record updated with message,
    level and timestamp. *)
Lemma enrich_returns_update (loads : string -> option value) (log_base : dict)
    (now : string) (message : value) (level : string)
    (objects : list context_object) (record : dict) :
  _enrich loads log_base now message level objects = Return record ->
  exists parts log,
    _normalize_objects loads objects = Return parts
    /\ update_all log_base parts = Return log
    /\ record = dict_update log [("message", message); ("level", VStr (upper level));
                                 ("timestamp", VStr now)].
Proof.
  unfold _enrich.
  destruct (_normalize_objects loads objects) as [parts|e]; cbn [bind]; [|discriminate].
  destruct (update_all log_base parts) as [log|e] eqn:Hall; cbn [bind]; [|discriminate].
  intros Hret. exists parts, log. split; [reflexivity|]. split; [exact Hall|].
  injection Hret as <-. reflexivity.
Qed.

(** The fields a returned record is sure to have: those of the base, and
    message, level and timestamp. *)
Lemma enrich_has_fields (loads : string -> option value) (log_base : dict)
    (now : string) (message : value) (level : string)
    (objects : list context_object) (record : dict) :
  _enrich loads log_base now message level objects = Return record ->
  (forall k, dict_has log_base k = true -> dict_has record k = true)
  /\ dict_has record "message" = true
  /\ dict_has record "level" = true
  /\ dict_has record "timestamp" = true.
Proof.
  intros Hrun.
  destruct (enrich_returns_update _ _ _ _ _ _ _ Hrun) as [parts [log [_ [Hall ->]]]].
  destruct (update_all_keeps _ _ _ Hall) as [Hk _].
  split; [intros k Hin; apply dict_has_update_keeps, Hk, Hin|].
  unfold dict_has. rewrite !dict_get_final_update. repeat split.
Qed.

(** A returned record has one binding per field when the base has. *)
Lemma enrich_unique_keys (loads : string -> option value) (log_base : dict)
    (now : string) (message : value) (level : string)
    (objects : list context_object) (record : dict) :
  _enrich loads log_base now message level objects = Return record ->
  unique_keys log_base = true -> unique_keys record = true.
Proof.
  intros Hrun Hb.
  destruct (enrich_returns_update _ _ _ _ _ _ _ Hrun) as [parts [log [_ [Hall ->]]]].
  destruct (update_all_keeps _ _ _ Hall) as [_ Hu].
  apply unique_keys_update, Hu, Hb.
Qed.

(** X3.  Whatever the context objects are, a record that [_enrich] returns
    has every field of the identity base, and the fields message, level
    and timestamp; it has one binding per field when the base has. *)
Theorem enrich_keeps_fields (loads : string -> option value) (log_base : dict)
    (now : string) (message : value) (level : string)
    (objects : list context_object) (record : dict) :
  _enrich loads log_base now message level objects = Return record ->
  (forall k, dict_has log_base k = true -> dict_has record k = true)
  /\ dict_has record "message" = true
  /\ dict_has record "level" = true
  /\ dict_has record "timestamp" = true
  /\ (unique_keys log_base = true -> unique_keys record = true).
Proof.
  intros Hrun.
  destruct (enrich_has_fields _ _ _ _ _ _ _ Hrun) as [Hk [Hm [Hl Ht]]].
  repeat (split; [assumption|]).
  apply (enrich_unique_keys _ _ _ _ _ _ _ Hrun).
Qed.

Lemma enrich_keeps_fields_witness :
  exists record,
    _enrich json_loads (_get_base None None "localhost" 7) "2017-12-22T17:02:59"
            (VStr "m") "error" [Text (json_dumps None (VList [VList [VStr "pid"; VInt 5]]));
             Text (json_dumps None (VDict [("a", VInt 1)])); Text "x"]
    = Return record
    /\ dict_has record "hostname" = true
    /\ unique_keys record = true.
Proof.
  eexists. split; [vm_compute; reflexivity|].
  match goal with
  | |- dict_has ?r _ = _ /\ _ =>
      destruct (enrich_keeps_fields json_loads (_get_base None None "localhost" 7)
                  "2017-12-22T17:02:59" (VStr "m") "error"
                  [Text (json_dumps None (VList [VList [VStr "pid"; VInt 5]]));
             Text (json_dumps None (VDict [("a", VInt 1)])); Text "x"] r)
        as [Hk [_ [_ [_ Hu]]]]
  end.
  - vm_compute. reflexivity.
  - split; [apply Hk; reflexivity|apply Hu; reflexivity].
Defined.

Lemma get_base_fields (name hostname : option string) (gethostname : string) (pid : Z) :
  dict_has (_get_base name hostname gethostname pid) "name" = true
  /\ dict_has (_get_base name hostname gethostname pid) "hostname" = true
  /\ dict_has (_get_base name hostname gethostname pid) "pid" = true
  /\ unique_keys (_get_base name hostname gethostname pid) = true.
Proof. repeat split. Qed.

(** A record enriched from the base of a facade has the six fields that
    the console formatter takes out. *)
Lemma enriched_has_expected_fields (loads : string -> option value)
    (name hostname : option string) (gethostname : string) (pid : Z)
    (now : string) (message : value) (level : string)
    (objects : list context_object) (record : dict) :
  _enrich loads (_get_base name hostname gethostname pid) now message level objects
  = Return record ->
  first_missing record = None.
Proof.
  intros Hrun.
  destruct (enrich_has_fields _ _ _ _ _ _ _ Hrun) as [Hk [Hm [Hl Ht]]].
  destruct (get_base_fields name hostname gethostname pid) as [Hn [Hh [Hp _]]].
  apply first_missing_none. intros k Hin.
  cbn in Hin.
  destruct Hin as [<-|[<-|[<-|[<-|[<-|[<-|[]]]]]]]; auto.
Qed.

(** X4.  A record that [_enrich] builds on the identity base of a facade
    is never short of a field for the console formatter: without colour,
    rendering returns, and with [pretty] the text is the head line of the
    given timestamp, the name of the record, the upper-cased level and
    the message, followed by the lines of the extra fields.  The level is
    any string whose upper case stays within the characters of the
    model. *)
Theorem enriched_record_renders (COLORAMA pretty : bool)
    (loads : string -> option value)
    (name hostname : option string) (gethostname : string) (pid : Z)
    (now : string) (message : value) (level : string)
    (objects : list context_object) (record : dict) :
  upper_in_range level = true ->
  _enrich loads (_get_base name hostname gethostname pid) now message level objects
  = Return record ->
  (exists text, ConsoleFormatter_format COLORAMA pretty false record = Return text)
  /\ ConsoleFormatter_format COLORAMA true false record
     = Return (head_line (VStr now) (field record "name") (VStr (upper level)) message
                 ++ detail_lines (extra_fields record)).
Proof.
  intros _ Hrun.
  pose proof (enriched_has_expected_fields _ _ _ _ _ _ _ _ _ _ Hrun) as Hm.
  destruct (enrich_returns_update _ _ _ _ _ _ _ Hrun) as [parts [log [_ [_ Hrec]]]].
  rewrite !ConsoleFormatter_format_output.
  rewrite !(format_output_plain COLORAMA _ false record Hm (andb_false_r _)).
  split; [eauto|].
  cbv zeta. cbv iota.
  assert (Hf : field record "timestamp" = VStr now
               /\ field record "level" = VStr (upper level)
               /\ field record "message" = message).
  { subst record. unfold field. rewrite !dict_get_final_update. repeat split. }
  destruct Hf as [-> [-> ->]]. reflexivity.
Qed.

Lemma enriched_record_renders_witness :
  exists record,
    _enrich json_loads (_get_base None None "localhost" 7) "2017-12-22T17:02:59"
            (VStr "disk full") "error" [Text "dev=sda1"] = Return record
    /\ ConsoleFormatter_format true true false record
       = Return ("2017-12-22T17:02:59 - None - ERROR - disk full" ++ nl ++ "  dev=sda1").
Proof.
  eexists. split; [vm_compute; reflexivity|].
  match goal with
  | |- ConsoleFormatter_format _ _ _ ?r = _ =>
      rewrite (proj2 (enriched_record_renders true true json_loads None None "localhost" 7
                        "2017-12-22T17:02:59" (VStr "disk full") "error"
                        [Text "dev=sda1"] r eq_refl ltac:(vm_compute; reflexivity)))
  end.
  vm_compute. reflexivity.
Defined.

(** ** The colours of the console formatter *)

(** A known level has a colour. *)
Lemma known_level_has_colour (level : string) :
  dict_has LEVEL_CONVERSION (lower level) = true ->
  exists colour, ConsoleFormatter_get_level_color (VStr level) = Return (Some colour).
Proof.
  unfold ConsoleFormatter_get_level_color, dict_has, LEVEL_CONVERSION.
  cbn [dict_get].
  repeat match goal with
         | |- context [String.eqb ?a (lower level)] =>
             destruct (String.eqb a (lower level)); [intros _; eexists; reflexivity|]
         end.
  discriminate.
Qed.


Lemma colorize_strings (level timestamp name colour : string) :
  ConsoleFormatter_get_level_color (VStr level) = Return (Some colour) ->
  colorize (VStr level) (VStr timestamp) (VStr name)
  = Return (VStr (colour ++ level ++ Style_RESET_ALL),
            VStr (Fore_GREEN ++ timestamp ++ Style_RESET_ALL),
            VStr (Fore_MAGENTA ++ name ++ Style_RESET_ALL)).
Proof.
  intros Hc. unfold colorize. rewrite Hc. reflexivity.
Qed.

Lemma colorize_name_not_str (level timestamp colour : string) (name : value) :
  ConsoleFormatter_get_level_color (VStr level) = Return (Some colour) ->
  (forall n, name <> VStr n) ->
  colorize (VStr level) (VStr timestamp) name = Raise TypeError.
Proof.
  intros Hc Hn. unfold colorize. rewrite Hc. cbn [bind colored].
  destruct name; try reflexivity. exfalso. apply (Hn s). reflexivity.
Qed.

(** X6.  With colour (colorama imported and the [color] flag set), for a
    record with the six fields whose level is a known severity name in
    any case and whose timestamp is a str: when the name is a str,
    rendering returns the text with the timestamp in green, the name in
    magenta and the level in its colour, each followed by the reset code;
    when the name is no str, rendering raises TypeError. *)
Theorem console_format_colour (pretty : bool) (msg : dict) (level timestamp : string) :
  first_missing msg = None ->
  field msg "level" = VStr level ->
  dict_has LEVEL_CONVERSION (lower level) = true ->
  field msg "timestamp" = VStr timestamp ->
  (forall name, field msg "name" = VStr name ->
     exists colour,
       ConsoleFormatter_get_level_color (VStr level) = Return (Some colour)
       /\ ConsoleFormatter_format true pretty true msg
          = Return (let head :=
                      head_line (VStr (Fore_GREEN ++ timestamp ++ Style_RESET_ALL))
                                (VStr (Fore_MAGENTA ++ name ++ Style_RESET_ALL))
                                (VStr (colour ++ level ++ Style_RESET_ALL))
                                (field msg "message") in
                    if pretty then head ++ detail_lines (extra_fields msg)
                    else match extra_fields msg with
                         | [] => head
                         | _ => head ++ nl
                                  ++ json_dumps (Some 4%nat) (VDict (extra_fields msg))
                         end))
  /\ ((forall name, field msg "name" <> VStr name) ->
      ConsoleFormatter_format true pretty true msg = Raise TypeError).
Proof.
  intros Hm Hl Hknown Ht.
  apply known_level_has_colour in Hknown as [colour Hc].
  rewrite ConsoleFormatter_format_output. unfold format_output.
  rewrite pop_expected_fields, Hm, Hl, Ht. cbn [bind andb].
  split.
  - intros name Hn. exists colour. split; [exact Hc|].
    rewrite Hn, (colorize_strings _ _ _ _ Hc). cbn [bind].
    destruct pretty; [|reflexivity].
    rewrite extra_lines_detail. reflexivity.
  - intros Hn. rewrite (colorize_name_not_str _ _ _ _ Hc Hn). reflexivity.
Qed.

Lemma console_format_colour_witness :
  ConsoleFormatter_format true true true
    [("name", VStr "svc"); ("hostname", VStr "h1"); ("pid", VInt 42);
     ("env", VStr "prod"); ("message", VStr "started");
     ("level", VStr "CRITICAL"); ("timestamp", VStr "12:00")]
  = Return (Fore_GREEN ++ "12:00" ++ Style_RESET_ALL ++ " - "
              ++ Fore_MAGENTA ++ "svc" ++ Style_RESET_ALL ++ " - "
              ++ Style_BRIGHT ++ Fore_RED ++ "CRITICAL" ++ Style_RESET_ALL
              ++ " - started" ++ nl ++ "  env=prod")
  /\ ConsoleFormatter_format true true true
       [("name", VNone); ("hostname", VStr "h1"); ("pid", VInt 42);
        ("message", VStr "started"); ("level", VStr "INFO"); ("timestamp", VStr "12:00")]
     = Raise TypeError.
Proof.
  split.
  - destruct (proj1 (console_format_colour true
                       [("name", VStr "svc"); ("hostname", VStr "h1"); ("pid", VInt 42);
                        ("env", VStr "prod"); ("message", VStr "started");
                        ("level", VStr "CRITICAL"); ("timestamp", VStr "12:00")]
                       "CRITICAL" "12:00" eq_refl eq_refl eq_refl eq_refl)
                "svc" eq_refl) as [colour [Hc Hf]].
    rewrite Hf. injection Hc as <-. vm_compute. reflexivity.
  - apply (proj2 (console_format_colour true
                    [("name", VNone); ("hostname", VStr "h1"); ("pid", VInt 42);
                     ("message", VStr "started"); ("level", VStr "INFO");
                     ("timestamp", VStr "12:00")]
                    "INFO" "12:00" eq_refl eq_refl eq_refl eq_refl)).
    intros name. discriminate.
Defined.

(** ** Adding handlers *)

(** What [add_handler] answers, case by case. *)
Lemma add_handler_cases (COLORAMA : bool) (uuid4 : string) (self : Wryte)
    (handler : addr) (name : option string) (formatter level : string) :
  add_handler COLORAMA uuid4 self handler name formatter level
  = if negb (dict_has LEVEL_CONVERSION (lower level)) then Raise WryteError
    else if negb (String.eqb formatter "console" || String.eqb formatter "json")
         then Raise AssertionError
         else if negb (String.eqb formatter "json") && negb COLORAMA then Raise NameError
              else
                match dict_get LEVEL_CONVERSION (lower level) with
                | Some numeric =>
                    Return (name_or_uuid name uuid4,
                            mk_Wryte (wryte_name self) (wryte_pretty self)
                              (wryte_color self) (wryte_log_base self)
                              (Logger_addHandler
                                 (Logger_setLevel (wryte_logger self) numeric) handler)
                              (store_set (wryte_handlers self) handler
                                 (mk_handler (Some (name_or_uuid name uuid4))
                                    (Some (if String.eqb formatter "json"
                                           then JsonFormatter
                                                  (flag_or (wryte_pretty self) false)
                                           else ConsoleFormatter
                                                  (flag_or (wryte_pretty self) true)
                                                  (wryte_color self))))))
                | None => Raise (KeyError (lower level))
                end.
Proof.
  unfold add_handler.
  destruct (dict_has LEVEL_CONVERSION (lower level)); cbn [negb]; [|reflexivity].
  destruct (String.eqb formatter "console" || String.eqb formatter "json");
    cbn [negb]; [|reflexivity].
  destruct (String.eqb formatter "json"); cbn [negb andb bind].
  - destruct (dict_get LEVEL_CONVERSION (lower level)); reflexivity.
  - destruct COLORAMA; cbn [negb bind]; [|reflexivity].
    destruct (dict_get LEVEL_CONVERSION (lower level)); reflexivity.
Qed.

(** X7.  [add_handler] returns exactly when the level is a known
    severity name in any case, the formatter is ["json"] or ["console"],
    and colorama is imported if the formatter is ["console"].  It raises
    WryteError for an unknown level whatever the formatter, AssertionError
    for another formatter at a known level, and NameError for the console
    formatter when the import of colorama failed. *)
Theorem add_handler_returns_iff (COLORAMA : bool) (uuid4 : string) (self : Wryte)
    (handler : addr) (name : option string) (formatter level : string) :
  ((exists r, add_handler COLORAMA uuid4 self handler name formatter level = Return r)
   <-> dict_has LEVEL_CONVERSION (lower level) = true
       /\ (formatter = "json" \/ (formatter = "console" /\ COLORAMA = true)))
  /\ (dict_has LEVEL_CONVERSION (lower level) = false ->
      add_handler COLORAMA uuid4 self handler name formatter level = Raise WryteError)
  /\ (dict_has LEVEL_CONVERSION (lower level) = true ->
      formatter <> "json" -> formatter <> "console" ->
      add_handler COLORAMA uuid4 self handler name formatter level
      = Raise AssertionError)
  /\ (dict_has LEVEL_CONVERSION (lower level) = true ->
      formatter = "console" -> COLORAMA = false ->
      add_handler COLORAMA uuid4 self handler name formatter level = Raise NameError).
Proof.
  rewrite add_handler_cases.
  split; [|split; [|split]].
  - split.
    + intros [r Hr].
      destruct (dict_has LEVEL_CONVERSION (lower level)); cbn [negb] in Hr;
        [|discriminate Hr].
      split; [reflexivity|].
      destruct (String.eqb_spec formatter "json") as [->|Hj]; [left; reflexivity|].
      destruct (String.eqb_spec formatter "console") as [->|Hc];
        cbn [orb negb andb] in Hr; [|discriminate Hr].
      destruct COLORAMA; [right; split; reflexivity|discriminate Hr].
    + intros [Hl Hf]. rewrite Hl. cbn [negb].
      unfold dict_has in Hl.
      destruct (dict_get LEVEL_CONVERSION (lower level)); [|discriminate Hl].
      destruct Hf as [->|[-> ->]]; cbn; eauto.
  - intros ->. reflexivity.
  - intros -> Hj Hc.
    destruct (String.eqb_spec formatter "console"); [contradiction|].
    destruct (String.eqb_spec formatter "json"); [contradiction|]. reflexivity.
  - intros -> -> ->. reflexivity.
Qed.

Lemma add_handler_returns_iff_witness :
  (exists r, add_handler true "u" bare_facade 3 None "console" "Warn" = Return r)
  /\ add_handler true "u" bare_facade 3 None "console" "verbose" = Raise WryteError
  /\ add_handler true "u" bare_facade 3 None "xml" "info" = Raise AssertionError
  /\ add_handler false "u" bare_facade 3 None "console" "info" = Raise NameError.
Proof.
  split; [|split; [|split]].
  - apply (proj1 (add_handler_returns_iff true "u" bare_facade 3 None "console" "Warn")).
    split; [reflexivity|right; split; reflexivity].
  - apply (proj1 (proj2 (add_handler_returns_iff true "u" bare_facade 3 None
                           "console" "verbose"))).
    reflexivity.
  - apply (proj1 (proj2 (proj2 (add_handler_returns_iff true "u" bare_facade 3 None
                                  "xml" "info")))); [reflexivity|discriminate..].
  - apply (proj2 (proj2 (proj2 (add_handler_returns_iff false "u" bare_facade 3 None
                                  "console" "info")))); reflexivity.
Defined.

(** The handlers named in the store, but for one address, are read alike
    before and after a write at that address. *)
Lemma store_get_set_other (st : handler_store) (a b : addr) (h : handler) :
  a <> b -> store_get (store_set st a h) b = store_get st b.
Proof.
  intros Hne. unfold store_set. cbn [store_get].
  destruct (Nat.eqb_spec a b); [contradiction|reflexivity].
Qed.

Lemma store_get_set_same (st : handler_store) (a : addr) (h : handler) :
  store_get (store_set st a h) a = h.
Proof. unfold store_set. cbn [store_get]. rewrite Nat.eqb_refl. reflexivity. Qed.

Lemma map_names_other (st : handler_store) (a : addr) (h : handler) (l : list addr) :
  ~ In a l ->
  map (fun b => handler_name (store_get (store_set st a h) b)) l
  = map (fun b => handler_name (store_get st b)) l.
Proof.
  intros Hnin. apply map_ext_in. intros b Hb.
  rewrite store_get_set_other; [reflexivity|].
  intros ->. contradiction.
Qed.

(** X8.  When the handler object is not yet in the logger, a call of
    [add_handler] that returns appends its name to the names listed and
    leaves the names before it as they were. *)
Theorem add_handler_appends_name (COLORAMA : bool) (uuid4 : string)
    (self self' : Wryte) (handler : addr) (name : option string)
    (formatter level n : string) :
  ~ In handler (logger_handlers (wryte_logger self)) ->
  add_handler COLORAMA uuid4 self handler name formatter level = Return (n, self') ->
  list_handlers self' = (list_handlers self ++ [Some n])%list.
Proof.
  intros Hnin. rewrite add_handler_cases.
  destruct (negb (dict_has LEVEL_CONVERSION (lower level))); [discriminate|].
  destruct (negb (String.eqb formatter "console" || String.eqb formatter "json"));
    [discriminate|].
  destruct (negb (String.eqb formatter "json") && negb COLORAMA); [discriminate|].
  destruct (dict_get LEVEL_CONVERSION (lower level)) as [numeric|]; [|discriminate].
  intros [= <- <-].
  unfold list_handlers. cbn [wryte_logger wryte_handlers].
  unfold Logger_addHandler, Logger_setLevel. cbn [logger_handlers logger_level].
  destruct (mem_addr handler (logger_handlers (wryte_logger self))) eqn:Hm.
  - apply mem_addr_In in Hm. contradiction.
  - cbn [logger_handlers]. rewrite map_app. cbn [map].
    rewrite store_get_set_same, (map_names_other _ _ _ _ Hnin). reflexivity.
Qed.

Lemma add_handler_appends_name_witness :
  exists self',
    add_handler true "u2"
      (mk_Wryte "svc" None true [] (mk_logger 20 [1%nat])
         [(1%nat, mk_handler (Some "file") (Some (JsonFormatter false)))])
      2 None "console" "debug"
    = Return ("u2", self')
    /\ list_handlers self' = [Some "file"; Some "u2"].
Proof.
  eexists. split; [vm_compute; reflexivity|].
  rewrite (add_handler_appends_name true "u2"
             (mk_Wryte "svc" None true [] (mk_logger 20 [1%nat])
                [(1%nat, mk_handler (Some "file") (Some (JsonFormatter false)))])
             _ 2 None "console" "debug" "u2").
  - reflexivity.
  - cbn. intros [H|[]]. discriminate H.
  - vm_compute. reflexivity.
Defined.

(** X9.  When the handler object is already in the logger, a call of
    [add_handler] that returns adds no entry: the list of handlers is the
    same, and the object, which has one name, is listed under the new
    name wherever it was listed. *)
Theorem add_handler_again_renames (COLORAMA : bool) (uuid4 : string)
    (self self' : Wryte) (handler : addr) (name : option string)
    (formatter level n : string) :
  In handler (logger_handlers (wryte_logger self)) ->
  add_handler COLORAMA uuid4 self handler name formatter level = Return (n, self') ->
  logger_handlers (wryte_logger self') = logger_handlers (wryte_logger self)
  /\ list_handlers self'
     = map (fun a => if Nat.eqb a handler then Some n
                     else handler_name (store_get (wryte_handlers self) a))
           (logger_handlers (wryte_logger self)).
Proof.
  intros Hin. rewrite add_handler_cases.
  destruct (negb (dict_has LEVEL_CONVERSION (lower level))); [discriminate|].
  destruct (negb (String.eqb formatter "console" || String.eqb formatter "json"));
    [discriminate|].
  destruct (negb (String.eqb formatter "json") && negb COLORAMA); [discriminate|].
  destruct (dict_get LEVEL_CONVERSION (lower level)) as [numeric|]; [|discriminate].
  intros [= <- <-].
  unfold list_handlers. cbn [wryte_logger wryte_handlers].
  unfold Logger_addHandler, Logger_setLevel. cbn [logger_handlers logger_level].
  apply mem_addr_In in Hin. rewrite Hin. cbn [logger_handlers].
  split; [reflexivity|].
  apply map_ext. intros a. unfold store_set. cbn [store_get].
  rewrite Nat.eqb_sym. destruct (Nat.eqb a handler); reflexivity.
Qed.

Lemma add_handler_again_renames_witness :
  exists self',
    add_handler true "u2"
      (mk_Wryte "svc" None true [] (mk_logger 20 [1%nat; 2%nat])
         [(2%nat, mk_handler (Some "b") (Some (JsonFormatter false)));
          (1%nat, mk_handler (Some "a") (Some (JsonFormatter false)))])
      1 (Some "renamed") "json" "info"
    = Return ("renamed", self')
    /\ list_handlers self' = [Some "renamed"; Some "b"].
Proof.
  eexists. split; [vm_compute; reflexivity|].
  rewrite (proj2 (add_handler_again_renames true "u2"
                    (mk_Wryte "svc" None true [] (mk_logger 20 [1%nat; 2%nat])
                       [(2%nat, mk_handler (Some "b") (Some (JsonFormatter false)));
                        (1%nat, mk_handler (Some "a") (Some (JsonFormatter false)))])
                    _ 1 (Some "renamed") "json" "info" "renamed"
                    ltac:(cbn; tauto) ltac:(vm_compute; reflexivity))).
  reflexivity.
Defined.

(** X10.  The console formatter that [add_handler] builds is always
    pretty, whatever the [pretty] flag of the facade, false included; the
    JSON formatter is pretty only when the flag is true. *)
Theorem add_handler_formatter (COLORAMA : bool) (uuid4 : string)
    (self self' : Wryte) (handler : addr) (name : option string)
    (formatter level n : string) :
  add_handler COLORAMA uuid4 self handler name formatter level = Return (n, self') ->
  (formatter = "console" ->
   handler_formatter (store_get (wryte_handlers self') handler)
   = Some (ConsoleFormatter true (wryte_color self)))
  /\ (formatter = "json" ->
      handler_formatter (store_get (wryte_handlers self') handler)
      = Some (JsonFormatter (match wryte_pretty self with
                             | Some true => true
                             | _ => false
                             end))).
Proof.
  rewrite add_handler_cases.
  destruct (negb (dict_has LEVEL_CONVERSION (lower level))); [discriminate|].
  destruct (negb (String.eqb formatter "console" || String.eqb formatter "json"));
    [discriminate|].
  destruct (negb (String.eqb formatter "json") && negb COLORAMA); [discriminate|].
  destruct (dict_get LEVEL_CONVERSION (lower level)) as [numeric|]; [|discriminate].
  intros [= <- <-]. cbn [wryte_handlers]. rewrite store_get_set_same.
  cbn [handler_formatter]. split; intros ->; cbn.
  - destruct (wryte_pretty self) as [[|]|]; reflexivity.
  - destruct (wryte_pretty self) as [[|]|]; reflexivity.
Qed.

Lemma add_handler_formatter_witness :
  exists self',
    add_handler true "u"
      (mk_Wryte "svc" (Some false) true [] (mk_logger 0 []) []) 1 None "console" "info"
    = Return ("u", self')
    /\ handler_formatter (store_get (wryte_handlers self') 1)
       = Some (ConsoleFormatter true true).
Proof.
  eexists. split; [vm_compute; reflexivity|].
  apply (proj1 (add_handler_formatter true "u"
                  (mk_Wryte "svc" (Some false) true [] (mk_logger 0 []) [])
                  _ 1 None "console" "info" "u" ltac:(vm_compute; reflexivity))).
  reflexivity.
Defined.

(** ** Removing handlers *)

Lemma remove_first_app_fresh (h : addr) (pre l : list addr) :
  ~ In h pre -> remove_first h (pre ++ h :: l)%list = (pre ++ l)%list.
Proof.
  induction pre as [|x pre IH]; intros Hnin; cbn [remove_first List.app].
  - rewrite Nat.eqb_refl. reflexivity.
  - destruct (Nat.eqb_spec x h) as [->|_].
    + exfalso. apply Hnin. left. reflexivity.
    + rewrite IH; [reflexivity|]. intros Hin. apply Hnin. right. exact Hin.
Qed.

Lemma nth_error_app_length (pre l : list addr) :
  nth_error (pre ++ l)%list (List.length pre) = nth_error l 0.
Proof.
  induction pre as [|x pre IH]; [reflexivity|exact IH].
Qed.

(** The body of the loop, for what the list holds at the index. *)
Lemma remove_loop_body (st : handler_store) (name : string) (lg : logger) (i : nat)
    (o : option addr) (e : nth_error (logger_handlers lg) i = o) :
  remove_loop_unfold_clause_1 st name lg i (exist _ o e)
  = match o with
    | None => lg
    | Some h => if name_is st h name
                then remove_loop st name (Logger_removeHandler lg h) (S i)
                else remove_loop st name lg (S i)
    end.
Proof.
  destruct o as [h|]; cbn [remove_loop_unfold_clause_1]; [|reflexivity].
  destruct (name_is st h name); reflexivity.
Qed.

(** One step of the loop at an index inside the list. *)
Lemma remove_loop_step (st : handler_store) (name : string) (lg : logger)
    (i : nat) (h : addr) :
  nth_error (logger_handlers lg) i = Some h ->
  remove_loop st name lg i
  = if name_is st h name
    then remove_loop st name (Logger_removeHandler lg h) (S i)
    else remove_loop st name lg (S i).
Proof.
  intros Hn. rewrite remove_loop_equation_1. unfold inspect.
  rewrite remove_loop_body, Hn. reflexivity.
Qed.

(** The loop at an index past the end. *)
Lemma remove_loop_end (st : handler_store) (name : string) (lg : logger) (i : nat) :
  nth_error (logger_handlers lg) i = None -> remove_loop st name lg i = lg.
Proof.
  intros Hn. rewrite remove_loop_equation_1. unfold inspect.
  rewrite remove_loop_body, Hn. reflexivity.
Qed.

(** The loop from the index [length pre] on, over handlers that are all
    different objects. *)
Lemma remove_loop_from (st : handler_store) (name : string) (level : Z)
    (n : nat) (pre l : list addr) :
  (List.length l <= n)%nat ->
  NoDup (pre ++ l)%list ->
  remove_loop st name (mk_logger level (pre ++ l)%list) (List.length pre)
  = mk_logger level (pre ++ skip_remove (fun h => name_is st h name) l)%list.
Proof.
  revert pre l. induction n as [|n IH]; intros pre l Hlen Hnd.
  - destruct l; [|cbn in Hlen; lia].
    apply remove_loop_end. cbn [logger_handlers].
    rewrite List.app_nil_r. apply nth_error_None. lia.
  - destruct l as [|h rest].
    + apply remove_loop_end. cbn [logger_handlers].
      rewrite List.app_nil_r. apply nth_error_None. lia.
    + rewrite (remove_loop_step st name _ _ h)
        by (cbn [logger_handlers]; rewrite nth_error_app_length; reflexivity).
      cbn [skip_remove]. cbn [List.length] in Hlen.
      assert (Hpre : ~ In h pre).
      { intros Hin. apply NoDup_remove_2 in Hnd. apply Hnd.
        apply in_or_app. left. exact Hin. }
      destruct (name_is st h name).
      * assert (Hrm : Logger_removeHandler (mk_logger level (pre ++ h :: rest)%list) h
                      = mk_logger level (pre ++ rest)%list).
        { unfold Logger_removeHandler. cbn [logger_handlers logger_level].
          assert (Hm : mem_addr h (pre ++ h :: rest)%list = true)
            by (apply mem_addr_In, in_or_app; right; left; reflexivity).
          rewrite Hm, (remove_first_app_fresh h pre rest Hpre). reflexivity. }
        rewrite Hrm.
        apply NoDup_remove_1 in Hnd.
        destruct rest as [|kept rest'].
        -- apply remove_loop_end. cbn [logger_handlers].
           rewrite List.app_nil_r. apply nth_error_None. lia.
        -- replace (pre ++ kept :: rest')%list with ((pre ++ [kept]) ++ rest')%list
             in * by (rewrite <- List.app_assoc; reflexivity).
           replace (S (List.length pre)) with (List.length (pre ++ [kept])%list)
             by (rewrite List.length_app; cbn; lia).
           rewrite IH by (cbn [List.length] in Hlen; first [lia | exact Hnd]).
           rewrite <- List.app_assoc. reflexivity.
      * replace (pre ++ h :: rest)%list with ((pre ++ [h]) ++ rest)%list
          in * by (rewrite <- List.app_assoc; reflexivity).
        replace (S (List.length pre)) with (List.length (pre ++ [h])%list)
          by (rewrite List.length_app; cbn; lia).
        rewrite IH by (first [lia | exact Hnd]).
        rewrite <- List.app_assoc. reflexivity.
Qed.

(** What [remove_handler] leaves in the list of the logger. *)
Lemma remove_handler_handlers (self : Wryte) (name : string) :
  NoDup (logger_handlers (wryte_logger self)) ->
  logger_handlers (wryte_logger (remove_handler self name))
  = skip_remove (fun h => name_is (wryte_handlers self) h name)
                (logger_handlers (wryte_logger self)).
Proof.
  intros Hnd. unfold remove_handler. cbn [wryte_logger].
  destruct (wryte_logger self) as [level l]. cbn [logger_handlers] in *.
  pose proof (remove_loop_from (wryte_handlers self) name level (List.length l) [] l
                (le_n _) Hnd) as Hloop.
  cbn [List.app List.length] in Hloop. rewrite Hloop. reflexivity.
Qed.

(** X11.  The handlers of the logger being different objects,
    [remove_handler] leaves what its loop leaves: going down the list, a
    handler of the name is removed and the handler that follows it is
    kept without a look at its name.  The level of the logger and the
    handler objects are as before. *)
Theorem remove_handler_skips_after_removal (self : Wryte) (name : string) :
  NoDup (logger_handlers (wryte_logger self)) ->
  logger_handlers (wryte_logger (remove_handler self name))
  = skip_remove (fun h => name_is (wryte_handlers self) h name)
                (logger_handlers (wryte_logger self))
  /\ logger_level (wryte_logger (remove_handler self name))
     = logger_level (wryte_logger self)
  /\ wryte_handlers (remove_handler self name) = wryte_handlers self.
Proof.
  intros Hnd. split; [apply (remove_handler_handlers self name Hnd)|].
  split; [|reflexivity].
  unfold remove_handler. cbn [wryte_logger].
  destruct (wryte_logger self) as [level l]. cbn [logger_handlers] in *.
  pose proof (remove_loop_from (wryte_handlers self) name level (List.length l) [] l
                (le_n _) Hnd) as Hloop.
  cbn [List.app List.length] in Hloop. rewrite Hloop. reflexivity.
Qed.

Lemma remove_handler_skips_after_removal_witness :
  list_handlers
    (remove_handler
       (mk_Wryte "svc" None true [] (mk_logger 10 [1%nat; 2%nat; 3%nat; 4%nat])
          [(1%nat, mk_handler (Some "a") None); (2%nat, mk_handler (Some "a") None);
           (3%nat, mk_handler (Some "b") None); (4%nat, mk_handler (Some "a") None)])
       "a")
  = [Some "a"; Some "b"].
Proof.
  unfold list_handlers.
  rewrite (proj1 (remove_handler_skips_after_removal
                    (mk_Wryte "svc" None true [] (mk_logger 10 [1%nat; 2%nat; 3%nat; 4%nat])
                       [(1%nat, mk_handler (Some "a") None);
                        (2%nat, mk_handler (Some "a") None);
                        (3%nat, mk_handler (Some "b") None);
                        (4%nat, mk_handler (Some "a") None)])
                    "a"
                    ltac:(cbn; repeat (constructor; [cbn; intuition discriminate|]);
                          constructor))).
  reflexivity.
Defined.

Lemma skip_remove_none (matches : addr -> bool) (l : list addr) :
  forallb (fun h => negb (matches h)) l = true -> skip_remove matches l = l.
Proof.
  induction l as [|h l IH]; cbn [forallb skip_remove]; [reflexivity|].
  intros H. apply andb_true_iff in H as [Hh Hl].
  apply negb_true_iff in Hh. rewrite Hh, (IH Hl). reflexivity.
Qed.

Lemma skip_remove_filter (matches : addr -> bool) (n : nat) (l : list addr) :
  (List.length l <= n)%nat ->
  no_matching_neighbours matches l = true ->
  skip_remove matches l = filter (fun h => negb (matches h)) l.
Proof.
  revert l. induction n as [|n IH]; intros l Hlen Hnm.
  - destruct l; [reflexivity|cbn in Hlen; lia].
  - destruct l as [|h rest]; [reflexivity|].
    cbn [List.length] in Hlen.
    cbn [no_matching_neighbours] in Hnm. apply andb_true_iff in Hnm as [Hh Hrest].
    cbn [skip_remove filter].
    destruct (matches h) eqn:Hm; cbn [negb].
    + destruct rest as [|kept rest']; [reflexivity|].
      cbn [andb] in Hh. apply negb_true_iff in Hh.
      cbn [filter]. rewrite Hh. cbn [negb].
      cbn [no_matching_neighbours] in Hrest.
      apply andb_true_iff in Hrest as [_ Hrest'].
      cbn [List.length] in Hlen.
      rewrite (IH rest') by (first [lia | exact Hrest']). reflexivity.
    + rewrite (IH rest) by (first [lia | exact Hrest]). reflexivity.
Qed.

(** X12.  The handlers being different objects: when no two handlers next
    to each other both have the name, [remove_handler] removes every
    handler of that name and keeps the others in their order; when no
    handler has the name, the list is unchanged. *)
Theorem remove_handler_removes_all (self : Wryte) (name : string) :
  NoDup (logger_handlers (wryte_logger self)) ->
  no_matching_neighbours (fun h => name_is (wryte_handlers self) h name)
                         (logger_handlers (wryte_logger self)) = true ->
  logger_handlers (wryte_logger (remove_handler self name))
  = filter (fun h => negb (name_is (wryte_handlers self) h name))
           (logger_handlers (wryte_logger self))
  /\ ~ In (Some name) (list_handlers (remove_handler self name))
  /\ (forallb (fun h => negb (name_is (wryte_handlers self) h name))
              (logger_handlers (wryte_logger self)) = true ->
      logger_handlers (wryte_logger (remove_handler self name))
      = logger_handlers (wryte_logger self)).
Proof.
  intros Hnd Hnm.
  pose proof (remove_handler_handlers self name Hnd) as Hrm.
  assert (Hf : logger_handlers (wryte_logger (remove_handler self name))
               = filter (fun h => negb (name_is (wryte_handlers self) h name))
                        (logger_handlers (wryte_logger self))).
  { rewrite Hrm. apply (skip_remove_filter _ _ _ (le_n _) Hnm). }
  split; [exact Hf|]. split.
  - unfold list_handlers. rewrite Hf. cbn [remove_handler wryte_handlers].
    intros Hin. apply in_map_iff in Hin as [h [Hname Hin]].
    apply filter_In in Hin as [_ Hneg].
    unfold name_is in Hneg. rewrite Hname, String.eqb_refl in Hneg. discriminate Hneg.
  - intros Hnone. rewrite Hrm. apply skip_remove_none, Hnone.
Qed.

Lemma remove_handler_removes_all_witness :
  list_handlers
    (remove_handler
       (mk_Wryte "svc" None true [] (mk_logger 10 [1%nat; 2%nat; 3%nat])
          [(1%nat, mk_handler (Some "a") None); (2%nat, mk_handler (Some "b") None);
           (3%nat, mk_handler (Some "a") None)])
       "a")
  = [Some "b"].
Proof.
  unfold list_handlers.
  rewrite (proj1 (remove_handler_removes_all
                    (mk_Wryte "svc" None true [] (mk_logger 10 [1%nat; 2%nat; 3%nat])
                       [(1%nat, mk_handler (Some "a") None);
                        (2%nat, mk_handler (Some "b") None);
                        (3%nat, mk_handler (Some "a") None)])
                    "a"
                    ltac:(cbn; repeat (constructor; [cbn; intuition discriminate|]);
                          constructor)
                    eq_refl)).
  reflexivity.
Defined.

Lemma skip_remove_keeps_others (matches : addr -> bool) (n : nat) (l : list addr) :
  (List.length l <= n)%nat ->
  (forall h, In h l -> matches h = false -> In h (skip_remove matches l))
  /\ (forall h, In h (skip_remove matches l) -> In h l)
  /\ (NoDup l -> NoDup (skip_remove matches l)).
Proof.
  revert l. induction n as [|n IH]; intros l Hlen.
  - destruct l; [|cbn in Hlen; lia]. cbn. repeat split; auto.
  - destruct l as [|x rest]; [cbn; repeat split; auto|].
    cbn [List.length] in Hlen. cbn [skip_remove].
    destruct (matches x) eqn:Hx.
    + destruct rest as [|kept rest'].
      * split; [|split].
        -- intros h [<-|[]] Hm. congruence.
        -- intros h [].
        -- intros _. constructor.
      * cbn [List.length] in Hlen.
        destruct (IH rest' ltac:(lia)) as [Hk [Hsub Hnd]].
        split; [|split].
        -- intros h [<-|[<-|Hin]] Hm; [congruence|left; reflexivity|].
           right. apply Hk; assumption.
        -- intros h [<-|Hin]; [right; left; reflexivity|].
           right. right. apply Hsub, Hin.
        -- intros Hl. inversion Hl as [|? ? _ Hl']. subst.
           inversion Hl' as [|? ? Hnin Hl'']. subst.
           constructor; [|apply Hnd, Hl''].
           intros Hin. apply Hnin, Hsub, Hin.
    + destruct (IH rest ltac:(lia)) as [Hk [Hsub Hnd]].
      split; [|split].
      * intros h [<-|Hin] Hm; [left; reflexivity|right; apply Hk; assumption].
      * intros h [<-|Hin]; [left; reflexivity|right; apply Hsub, Hin].
      * intros Hl. inversion Hl as [|? ? Hnin Hl']. subst.
        constructor; [|apply Hnd, Hl'].
        intros Hin. apply Hnin, Hsub, Hin.
Qed.

(** X13.  [remove_handler] never removes a handler of another name and
    adds none: the handlers being different objects, every handler whose
    name is not the one given is still in the list, every handler in the
    list was there before, and the handlers are still different
    objects. *)
Theorem remove_handler_keeps_other_names (self : Wryte) (name : string) :
  NoDup (logger_handlers (wryte_logger self)) ->
  (forall h, In h (logger_handlers (wryte_logger self)) ->
             name_is (wryte_handlers self) h name = false ->
             In h (logger_handlers (wryte_logger (remove_handler self name))))
  /\ (forall h, In h (logger_handlers (wryte_logger (remove_handler self name))) ->
                In h (logger_handlers (wryte_logger self)))
  /\ NoDup (logger_handlers (wryte_logger (remove_handler self name))).
Proof.
  intros Hnd. rewrite (remove_handler_handlers self name Hnd).
  destruct (skip_remove_keeps_others (fun h => name_is (wryte_handlers self) h name)
              _ (logger_handlers (wryte_logger self)) (le_n _)) as [Hk [Hsub Hnd']].
  split; [exact Hk|]. split; [exact Hsub|apply Hnd', Hnd].
Qed.

Lemma remove_handler_keeps_other_names_witness :
  In 3%nat
     (logger_handlers
        (wryte_logger
           (remove_handler
              (mk_Wryte "svc" None true [] (mk_logger 10 [1%nat; 2%nat; 3%nat])
                 [(1%nat, mk_handler (Some "a") None); (2%nat, mk_handler (Some "a") None);
                  (3%nat, mk_handler (Some "b") None)])
              "a"))).
Proof.
  apply (proj1 (remove_handler_keeps_other_names
                  (mk_Wryte "svc" None true [] (mk_logger 10 [1%nat; 2%nat; 3%nat])
                     [(1%nat, mk_handler (Some "a") None);
                      (2%nat, mk_handler (Some "a") None);
                      (3%nat, mk_handler (Some "b") None)])
                  "a"
                  ltac:(cbn; repeat (constructor; [cbn; intuition discriminate|]);
                        constructor))).
  - cbn. tauto.
  - reflexivity.
Defined.

(** X14.  The list of the logger never holds a handler object twice:
    [add_handler] keeps that true. *)
Theorem add_handler_keeps_handlers_distinct (COLORAMA : bool) (uuid4 : string)
    (self self' : Wryte) (handler : addr) (name : option string)
    (formatter level n : string) :
  NoDup (logger_handlers (wryte_logger self)) ->
  add_handler COLORAMA uuid4 self handler name formatter level = Return (n, self') ->
  NoDup (logger_handlers (wryte_logger self'))
  /\ In handler (logger_handlers (wryte_logger self')).
Proof.
  intros Hnd. rewrite add_handler_cases.
  destruct (negb (dict_has LEVEL_CONVERSION (lower level))); [discriminate|].
  destruct (negb (String.eqb formatter "console" || String.eqb formatter "json"));
    [discriminate|].
  destruct (negb (String.eqb formatter "json") && negb COLORAMA); [discriminate|].
  destruct (dict_get LEVEL_CONVERSION (lower level)) as [numeric|]; [|discriminate].
  intros [= <- <-]. cbn [wryte_logger].
  split; [|apply Logger_addHandler_In].
  unfold Logger_addHandler, Logger_setLevel. cbn [logger_handlers logger_level].
  destruct (mem_addr handler (logger_handlers (wryte_logger self))) eqn:Hm;
    cbn [logger_handlers]; [exact Hnd|].
  apply NoDup_app; [exact Hnd|constructor; [intros []|constructor]|].
  intros a Hin [<-|[]].
  apply mem_addr_In in Hin. congruence.
Qed.

Lemma add_handler_keeps_handlers_distinct_witness :
  exists self',
    add_handler true "u" bare_facade 5 (Some "h") "json" "info" = Return ("h", self')
    /\ NoDup (logger_handlers (wryte_logger self')).
Proof.
  eexists. split; [vm_compute; reflexivity|].
  apply (proj1 (add_handler_keeps_handlers_distinct true "u" bare_facade _ 5 (Some "h")
                  "json" "info" "h" ltac:(constructor) ltac:(vm_compute; reflexivity))).
Defined.

Lemma skip_remove_app_none (matches : addr -> bool) (l r : list addr) :
  forallb (fun h => negb (matches h)) l = true ->
  skip_remove matches (l ++ r)%list = (l ++ skip_remove matches r)%list.
Proof.
  induction l as [|h l IH]; cbn [forallb List.app]; [reflexivity|].
  intros H. apply andb_true_iff in H as [Hh Hl].
  apply negb_true_iff in Hh. cbn [skip_remove]. rewrite Hh, (IH Hl). reflexivity.
Qed.

(** X15.  Adding a new handler object under a name that no handler of the
    logger has, and removing that name, gives back the list of handlers
    as it was; the level of the logger is not given back: it stays what
    the added handler asked for. *)
Theorem remove_handler_undoes_add (COLORAMA : bool) (uuid4 : string)
    (self self' : Wryte) (handler : addr) (name : option string)
    (formatter level n : string) :
  NoDup (logger_handlers (wryte_logger self)) ->
  ~ In handler (logger_handlers (wryte_logger self)) ->
  forallb (fun h => negb (name_is (wryte_handlers self) h n))
          (logger_handlers (wryte_logger self)) = true ->
  add_handler COLORAMA uuid4 self handler name formatter level = Return (n, self') ->
  logger_handlers (wryte_logger (remove_handler self' n))
  = logger_handlers (wryte_logger self)
  /\ dict_get LEVEL_CONVERSION (lower level)
     = Some (logger_level (wryte_logger (remove_handler self' n))).
Proof.
  intros Hnd Hnin Hnone. rewrite add_handler_cases.
  destruct (negb (dict_has LEVEL_CONVERSION (lower level))); [discriminate|].
  destruct (negb (String.eqb formatter "console" || String.eqb formatter "json"));
    [discriminate|].
  destruct (negb (String.eqb formatter "json") && negb COLORAMA); [discriminate|].
  destruct (dict_get LEVEL_CONVERSION (lower level)) as [numeric|]; [|discriminate].
  intros Hret.
  assert (Hn : n = name_or_uuid name uuid4) by (injection Hret as <- _; reflexivity).
  assert (Hl : wryte_logger self'
               = mk_logger numeric (logger_handlers (wryte_logger self) ++ [handler])%list).
  { injection Hret as _ <-. cbn [wryte_logger].
    unfold Logger_addHandler, Logger_setLevel. cbn [logger_handlers logger_level].
    destruct (mem_addr handler (logger_handlers (wryte_logger self))) eqn:Hm;
      [apply mem_addr_In in Hm; contradiction|reflexivity]. }
  assert (Hs : wryte_handlers self'
               = store_set (wryte_handlers self) handler
                   (mk_handler (Some n)
                      (Some (if String.eqb formatter "json"
                             then JsonFormatter (flag_or (wryte_pretty self) false)
                             else ConsoleFormatter (flag_or (wryte_pretty self) true)
                                    (wryte_color self)))))
    by (injection Hret as _ <-; rewrite Hn; reflexivity).
  clear Hret.
  assert (Hnd' : NoDup (logger_handlers (wryte_logger self'))).
  { rewrite Hl. cbn [logger_handlers].
    apply NoDup_app; [exact Hnd|constructor; [intros []|constructor]|].
    intros a Hin [<-|[]]. contradiction. }
  split.
  - rewrite (remove_handler_handlers self' n Hnd'), Hl, Hs. cbn [logger_handlers].
    rewrite skip_remove_app_none.
    + cbn [skip_remove]. unfold name_is at 1. rewrite store_get_set_same.
      cbn [handler_name]. rewrite String.eqb_refl. apply List.app_nil_r.
    + rewrite forallb_forall in Hnone |- *. intros a Hin.
      unfold name_is. rewrite store_get_set_other by (intros ->; contradiction).
      apply (Hnone a Hin).
  - unfold remove_handler. cbn [wryte_logger]. rewrite Hl, Hs.
    pose proof (remove_loop_from
                  (store_set (wryte_handlers self) handler
                     (mk_handler (Some n)
                        (Some (if String.eqb formatter "json"
                               then JsonFormatter (flag_or (wryte_pretty self) false)
                               else ConsoleFormatter (flag_or (wryte_pretty self) true)
                                      (wryte_color self)))))
                  n numeric _ []
                  (logger_handlers (wryte_logger self) ++ [handler])%list (le_n _))
      as Hloop.
    cbn [List.app List.length] in Hloop. rewrite Hloop.
    + reflexivity.
    + rewrite Hl in Hnd'. exact Hnd'.
Qed.

Lemma remove_handler_undoes_add_witness :
  exists self',
    add_handler true "u"
      (mk_Wryte "svc" None true [] (mk_logger 10 [1%nat])
         [(1%nat, mk_handler (Some "a") None)])
      2 (Some "b") "json" "error"
    = Return ("b", self')
    /\ logger_handlers (wryte_logger (remove_handler self' "b")) = [1%nat]
    /\ logger_level (wryte_logger (remove_handler self' "b")) = 40%Z.
Proof.
  eexists. split; [vm_compute; reflexivity|].
  destruct (remove_handler_undoes_add true "u"
              (mk_Wryte "svc" None true [] (mk_logger 10 [1%nat])
                 [(1%nat, mk_handler (Some "a") None)])
              _ 2 (Some "b") "json" "error" "b"
              ltac:(cbn; repeat (constructor; [cbn; intuition discriminate|]);
                    constructor)
              ltac:(cbn; intros [H|[]]; discriminate H)
              eq_refl
              ltac:(vm_compute; reflexivity)) as [Hh Hl].
  split; [exact Hh|].
  vm_compute. reflexivity.
Defined.

(** ** Building the facade *)

(** X16.  The constructor on the logger of its name, with a new stream
    handler object: with [bare] it adds nothing; without, for a known
    level and either [jsonify] or colorama imported, it adds one handler,
    [_json] or [_console], after those the logger had and sets the level
    of the logger; for an unknown level it raises WryteError; for a known
    level without [jsonify] and without colorama it raises NameError. *)
Theorem Wryte_init_outcomes (COLORAMA : bool) (lg : logger) (objects : handler_store)
    (module_name gethostname : string) (pid : Z) (stream_handler : addr)
    (name hostname : option string) (level : string) (pretty : option bool)
    (jsonify color : bool) :
  ~ In stream_handler (logger_handlers lg) ->
  (exists self,
      Wryte_init COLORAMA lg objects module_name gethostname pid stream_handler
                 name hostname level pretty true jsonify color = Return self
      /\ wryte_logger self = lg)
  /\ (dict_has LEVEL_CONVERSION (lower level) = false ->
      Wryte_init COLORAMA lg objects module_name gethostname pid stream_handler
                 name hostname level pretty false jsonify color = Raise WryteError)
  /\ (dict_has LEVEL_CONVERSION (lower level) = true ->
      jsonify = false -> COLORAMA = false ->
      Wryte_init COLORAMA lg objects module_name gethostname pid stream_handler
                 name hostname level pretty false jsonify color = Raise NameError)
  /\ (dict_has LEVEL_CONVERSION (lower level) = true ->
      jsonify = true \/ COLORAMA = true ->
      exists self,
        Wryte_init COLORAMA lg objects module_name gethostname pid stream_handler
                   name hostname level pretty false jsonify color = Return self
        /\ list_handlers self
           = (map (fun a => handler_name (store_get objects a)) (logger_handlers lg)
                ++ [Some (if jsonify then "_json" else "_console")])%list
        /\ dict_get LEVEL_CONVERSION (lower level)
           = Some (logger_level (wryte_logger self))
        /\ wryte_log_base self = _get_base name hostname gethostname pid).
Proof.
  intros Hnin. split; [eexists; split; reflexivity|].
  unfold Wryte_init. cbv zeta.
  split; [|split].
  - intros Hl. destruct jsonify; rewrite add_handler_cases; cbn [wryte_logger];
      rewrite Hl; reflexivity.
  - intros Hl -> ->. rewrite add_handler_cases, Hl. reflexivity.
  - intros Hl Hok.
    assert (Hcases : exists numeric fmt n,
               dict_get LEVEL_CONVERSION (lower level) = Some numeric
               /\ n = (if jsonify then "_json" else "_console")
               /\ (if jsonify
                   then add_handler COLORAMA ""
                          (mk_Wryte (match name with
                                     | Some (String _ _ as n0) => n0
                                     | _ => module_name
                                     end) pretty color
                             (_get_base name hostname gethostname pid) lg objects)
                          stream_handler (Some "_json") "json" level
                   else add_handler COLORAMA ""
                          (mk_Wryte (match name with
                                     | Some (String _ _ as n0) => n0
                                     | _ => module_name
                                     end) pretty color
                             (_get_base name hostname gethostname pid) lg objects)
                          stream_handler (Some "_console") "console" level)
                  = Return (n, mk_Wryte (match name with
                                         | Some (String _ _ as n0) => n0
                                         | _ => module_name
                                         end) pretty color
                                (_get_base name hostname gethostname pid)
                                (Logger_addHandler (Logger_setLevel lg numeric)
                                                   stream_handler)
                                (store_set objects stream_handler
                                   (mk_handler (Some n) (Some fmt))))).
    { unfold dict_has in Hl.
      destruct (dict_get LEVEL_CONVERSION (lower level)) as [numeric|] eqn:Hn;
        [|discriminate Hl].
      exists numeric.
      destruct jsonify.
      - eexists. eexists. split; [reflexivity|]. split; [reflexivity|].
        rewrite add_handler_cases. unfold dict_has. rewrite Hn. reflexivity.
      - destruct Hok as [Hj| ->]; [discriminate Hj|].
        eexists. eexists. split; [reflexivity|]. split; [reflexivity|].
        rewrite add_handler_cases. unfold dict_has. rewrite Hn. reflexivity. }
    destruct Hcases as [numeric [fmt [n [Hn [Hname Hadd]]]]].
    match type of Hadd with
    | ?lhs = _ =>
        match goal with
        | |- context [bind ?m _] => replace m with lhs by (destruct jsonify; reflexivity)
        end
    end.
    rewrite Hadd. cbn [bind snd].
    eexists. split; [reflexivity|].
    cbn [wryte_logger wryte_log_base]. split; [|split; [|reflexivity]].
    + unfold list_handlers. cbn [wryte_logger wryte_handlers].
      unfold Logger_addHandler, Logger_setLevel. cbn [logger_handlers logger_level].
      destruct (mem_addr stream_handler (logger_handlers lg)) eqn:Hm;
        [apply mem_addr_In in Hm; contradiction|].
      cbn [logger_handlers]. rewrite map_app. cbn [map].
      rewrite store_get_set_same, (map_names_other _ _ _ _ Hnin), Hname. reflexivity.
    + rewrite Logger_addHandler_level. rewrite Hn. reflexivity.
Qed.

Lemma Wryte_init_outcomes_witness :
  exists self,
    Wryte_init true (mk_logger 30 [1%nat]) [(1%nat, mk_handler (Some "_console") None)]
               "wryte" "localhost" 7 2 (Some "svc") None "DEBUG" None false false true
    = Return self
    /\ list_handlers self = [Some "_console"; Some "_console"]
    /\ logger_level (wryte_logger self) = 10%Z.
Proof.
  destruct (proj2 (proj2 (proj2
              (Wryte_init_outcomes true (mk_logger 30 [1%nat])
                 [(1%nat, mk_handler (Some "_console") None)]
                 "wryte" "localhost" 7 2 (Some "svc") None "DEBUG" None false true
                 ltac:(cbn; intros [H|[]]; discriminate H))))
              eq_refl (or_intror eq_refl))
    as [self [Hinit [Hlist [Hlevel _]]]].
  exists self. split; [exact Hinit|]. split; [exact Hlist|].
  assert (Hten : dict_get LEVEL_CONVERSION (lower "DEBUG") = Some 10%Z) by reflexivity.
  rewrite Hten in Hlevel. injection Hlevel as Hlevel. symmetry. exact Hlevel.
Defined.

(** ** The logging methods *)

(** The level a record carries is the upper-cased name given to
    [_enrich]. *)
Lemma enrich_level (loads : string -> option value) (log_base : dict)
    (now : string) (message : value) (level : string)
    (objects : list context_object) (record : dict) :
  _enrich loads log_base now message level objects = Return record ->
  dict_get record "level" = Some (VStr (upper level))
  /\ dict_get record "message" = Some message
  /\ dict_get record "timestamp" = Some (VStr now).
Proof.
  intros Hrun.
  destruct (enrich_returns_update _ _ _ _ _ _ _ Hrun) as [parts [log [_ [_ ->]]]].
  rewrite !dict_get_final_update. repeat split.
Qed.

(** X17.  [log] looks the level up as it is written: it hands the record
    to the sink exactly when [_enrich] returns and the level is one of
    the six lower-case names; [_enrich] runs first, so its exception has
    precedence; for any other spelling, ["INFO"] included, [log] raises
    KeyError, though [add_handler] takes such a level. *)
Theorem log_level_is_case_sensitive (loads : string -> option value) (self : Wryte)
    (now : string) (level : string) (message : value)
    (objects : list context_object) :
  (forall e, _enrich loads (wryte_log_base self) now message level objects = Raise e ->
             Wryte_log loads self now level message objects = Raise e)
  /\ (forall record,
         _enrich loads (wryte_log_base self) now message level objects = Return record ->
         (In level severity_names ->
          exists numeric,
            dict_get LEVEL_CONVERSION level = Some numeric
            /\ Wryte_log loads self now level message objects = Return (numeric, record)
            /\ dict_get record "level" = Some (VStr (upper level)))
         /\ (~ In level severity_names ->
             Wryte_log loads self now level message objects = Raise (KeyError level))).
Proof.
  unfold Wryte_log. split.
  - intros e ->. reflexivity.
  - intros record Hrun. rewrite Hrun. cbn [bind]. split.
    + intros Hin. apply level_known_iff in Hin. unfold dict_has in Hin.
      destruct (dict_get LEVEL_CONVERSION level) as [numeric|]; [|discriminate Hin].
      exists numeric. split; [reflexivity|]. split; [reflexivity|].
      apply (enrich_level _ _ _ _ _ _ _ Hrun).
    + intros Hnin.
      destruct (dict_get LEVEL_CONVERSION level) as [numeric|] eqn:Hn; [|reflexivity].
      exfalso. apply Hnin, level_known_iff. unfold dict_has. rewrite Hn. reflexivity.
Qed.

Lemma log_level_is_case_sensitive_witness :
  Wryte_log json_loads bare_facade "12:00" "INFO" (VStr "m") [] = Raise (KeyError "INFO")
  /\ dict_has LEVEL_CONVERSION (lower "INFO") = true.
Proof.
  split; [|reflexivity].
  apply (proj2 (proj2 (log_level_is_case_sensitive json_loads bare_facade "12:00" "INFO"
                         (VStr "m") [])
                  _ ltac:(vm_compute; reflexivity))).
  cbn. intuition discriminate.
Defined.

(** X18.  The methods named after a level agree with [log] at that name
    for debug, info, warning, error and critical.  [warn] does not: it
    hands over the numeric level that [log] gives for ["warn"], 30, but
    its record carries the level ["WARNING"], where the record of
    [log("warn", ...)] carries ["WARN"]. *)
Theorem level_methods_and_log (loads : string -> option value) (self : Wryte)
    (now : string) (message : value) (objects : list context_object) :
  Wryte_debug loads self now message objects
  = Wryte_log loads self now "debug" message objects
  /\ Wryte_info loads self now message objects
     = Wryte_log loads self now "info" message objects
  /\ Wryte_warning loads self now message objects
     = Wryte_log loads self now "warning" message objects
  /\ Wryte_error loads self now message objects
     = Wryte_log loads self now "error" message objects
  /\ Wryte_critical loads self now message objects
     = Wryte_log loads self now "critical" message objects
  /\ Wryte_warn loads self now message objects
     = Wryte_warning loads self now message objects
  /\ (forall numeric record numeric' record',
         Wryte_warn loads self now message objects = Return (numeric, record) ->
         Wryte_log loads self now "warn" message objects = Return (numeric', record') ->
         numeric = 30%Z /\ numeric' = 30%Z
         /\ dict_get record "level" = Some (VStr "WARNING")
         /\ dict_get record' "level" = Some (VStr "WARN")).
Proof.
  unfold Wryte_debug, Wryte_info, Wryte_warning, Wryte_error, Wryte_critical,
    Wryte_warn, Wryte_log, log_at.
  repeat (split; [reflexivity|]).
  intros numeric record numeric' record'.
  destruct (_enrich loads (wryte_log_base self) now message "warning" objects)
    as [r|e] eqn:Hw; cbn [bind]; [|discriminate].
  destruct (_enrich loads (wryte_log_base self) now message "warn" objects)
    as [r'|e] eqn:Hw'; cbn [bind]; [|discriminate].
  cbn [dict_get LEVEL_CONVERSION String.eqb Ascii.eqb Bool.eqb].
  intros [= <- <-] [= <- <-].
  repeat split.
  - apply (enrich_level _ _ _ _ _ _ _ Hw).
  - apply (enrich_level _ _ _ _ _ _ _ Hw').
Qed.

Lemma level_methods_and_log_witness :
  exists record record',
    Wryte_warn json_loads bare_facade "12:00" (VStr "m") [] = Return (30%Z, record)
    /\ Wryte_log json_loads bare_facade "12:00" "warn" (VStr "m") []
       = Return (30%Z, record')
    /\ dict_get record "level" = Some (VStr "WARNING")
    /\ dict_get record' "level" = Some (VStr "WARN").
Proof.
  eexists. eexists. split; [vm_compute; reflexivity|].
  split; [vm_compute; reflexivity|].
  destruct (proj2 (proj2 (proj2 (proj2 (proj2 (proj2
              (level_methods_and_log json_loads bare_facade "12:00" (VStr "m") []))))))
              _ _ _ _ ltac:(vm_compute; reflexivity) ltac:(vm_compute; reflexivity))
    as [_ [_ [H1 H2]]].
  split; [exact H1|exact H2].
Defined.

(** ** The entry point *)

(** The name that the method chosen by [main] gives to [_enrich]. *)
Lemma main_dispatch (COLORAMA : bool) (loads : string -> option value)
    (lg : logger) (handlers : handler_store) (module_name gethostname : string)
    (pid : Z) (stream_handler : addr) (now : string)
    (level message : string) (objects : list string)
    (pretty jsonify : bool) (name : string) (no_color : bool) (wryter : Wryte) :
  dict_has LEVEL_CONVERSION (lower level) = true ->
  Wryte_init COLORAMA lg handlers module_name gethostname pid stream_handler
             (Some name) None level (Some pretty) false jsonify (negb no_color)
  = Return wryter ->
  exists numeric,
    dict_get LEVEL_CONVERSION (lower level) = Some numeric
    /\ main COLORAMA loads lg handlers module_name gethostname pid stream_handler now
            level message objects pretty jsonify name no_color
       = log_at loads wryter now
                (if String.eqb (lower level) "warn" then "warning" else lower level)
                numeric (VStr message) (map Text objects).
Proof.
  intros Hl Hinit. unfold main. rewrite Hinit. cbn [bind].
  apply level_known_iff in Hl. cbn in Hl.
  destruct Hl as [H|[H|[H|[H|[H|[H|[]]]]]]]; rewrite <- H;
    eexists; split; reflexivity.
Qed.

(** What the constructor of [main] answers: WryteError for an unknown
    level; a facade on the base of the given name otherwise, when a
    formatter can be built. *)
Lemma Wryte_init_unknown_level (COLORAMA : bool) (lg : logger) (objects : handler_store)
    (module_name gethostname : string) (pid : Z) (stream_handler : addr)
    (name hostname : option string) (level : string) (pretty : option bool)
    (jsonify color : bool) :
  dict_has LEVEL_CONVERSION (lower level) = false ->
  Wryte_init COLORAMA lg objects module_name gethostname pid stream_handler
             name hostname level pretty false jsonify color = Raise WryteError.
Proof.
  intros Hl. unfold Wryte_init. cbv zeta.
  destruct jsonify; rewrite add_handler_cases, Hl; reflexivity.
Qed.

Lemma Wryte_init_no_colorama (lg : logger) (objects : handler_store)
    (module_name gethostname : string) (pid : Z) (stream_handler : addr)
    (name hostname : option string) (level : string) (pretty : option bool)
    (color : bool) :
  dict_has LEVEL_CONVERSION (lower level) = true ->
  Wryte_init false lg objects module_name gethostname pid stream_handler
             name hostname level pretty false false color = Raise NameError.
Proof.
  intros Hl. unfold Wryte_init. cbv zeta.
  rewrite add_handler_cases, Hl. reflexivity.
Qed.

Lemma Wryte_init_returns_base (COLORAMA : bool) (lg : logger) (objects : handler_store)
    (module_name gethostname : string) (pid : Z) (stream_handler : addr)
    (name hostname : option string) (level : string) (pretty : option bool)
    (jsonify color : bool) :
  dict_has LEVEL_CONVERSION (lower level) = true ->
  jsonify = true \/ COLORAMA = true ->
  exists self,
    Wryte_init COLORAMA lg objects module_name gethostname pid stream_handler
               name hostname level pretty false jsonify color = Return self
    /\ wryte_log_base self = _get_base name hostname gethostname pid.
Proof.
  intros Hl Hok. unfold Wryte_init. cbv zeta.
  unfold dict_has in Hl.
  destruct (dict_get LEVEL_CONVERSION (lower level)) as [numeric|] eqn:Hn;
    [|discriminate Hl].
  destruct jsonify.
  - rewrite add_handler_cases. unfold dict_has. rewrite Hn.
    eexists. split; reflexivity.
  - destruct Hok as [Hj| ->]; [discriminate Hj|].
    rewrite add_handler_cases. unfold dict_has. rewrite Hn.
    eexists. split; reflexivity.
Qed.

(** X19.  [main] raises WryteError for a level that is no severity name
    in any case, before any record is built, and NameError for a known
    level when colorama is not imported and [--jsonify] is not given.
    For a known level, with [--jsonify] or colorama imported, it hands
    one record to the sink, or raises what [_enrich] raises: the record
    is enriched on the base of the given name and the host, its level is
    the upper-cased lower-case level, with WARNING for warn, and the
    numeric level is the one of the table. *)
Theorem main_outcomes (COLORAMA : bool) (loads : string -> option value)
    (lg : logger) (handlers : handler_store) (module_name gethostname : string)
    (pid : Z) (stream_handler : addr) (now : string)
    (level message : string) (objects : list string)
    (pretty jsonify : bool) (name : string) (no_color : bool) :
  (dict_has LEVEL_CONVERSION (lower level) = false ->
   main COLORAMA loads lg handlers module_name gethostname pid stream_handler now
        level message objects pretty jsonify name no_color = Raise WryteError)
  /\ (dict_has LEVEL_CONVERSION (lower level) = true ->
      jsonify = false -> COLORAMA = false ->
      main COLORAMA loads lg handlers module_name gethostname pid stream_handler now
           level message objects pretty jsonify name no_color = Raise NameError)
  /\ (dict_has LEVEL_CONVERSION (lower level) = true ->
      jsonify = true \/ COLORAMA = true ->
      exists numeric,
        dict_get LEVEL_CONVERSION (lower level) = Some numeric
        /\ main COLORAMA loads lg handlers module_name gethostname pid stream_handler now
                level message objects pretty jsonify name no_color
           = (record <- _enrich loads (_get_base (Some name) None gethostname pid) now
                                (VStr message)
                                (if String.eqb (lower level) "warn" then "warning"
                                 else lower level)
                                (map Text objects) ;;
              Return (numeric, record))%outcome).
Proof.
  split; [|split].
  - intros Hl. unfold main.
    rewrite (Wryte_init_unknown_level _ _ _ _ _ _ _ _ _ _ _ _ _ Hl). reflexivity.
  - intros Hl -> ->. unfold main.
    rewrite (Wryte_init_no_colorama _ _ _ _ _ _ _ _ _ _ _ Hl). reflexivity.
  - intros Hl Hok.
    destruct (Wryte_init_returns_base COLORAMA lg handlers module_name gethostname pid
                stream_handler (Some name) None level (Some pretty) jsonify
                (negb no_color) Hl Hok) as [wryter [Hinit Hbase]].
    destruct (main_dispatch COLORAMA loads lg handlers module_name gethostname pid
                stream_handler now level message objects pretty jsonify name no_color
                wryter Hl Hinit) as [numeric [Hn Hmain]].
    exists numeric. split; [exact Hn|].
    rewrite Hmain. unfold log_at. rewrite Hbase. reflexivity.
Qed.

Lemma main_outcomes_witness :
  main true json_loads (mk_logger 0 []) [] "wryte" "localhost" 7 1 "12:00"
       "Warn" "disk full" ["dev=sda1"] false true "Wryte" false
  = Return (30%Z,
            [("name", VStr "Wryte"); ("hostname", VStr "localhost"); ("pid", VInt 7);
             ("dev", VStr "sda1"); ("message", VStr "disk full");
             ("level", VStr "WARNING"); ("timestamp", VStr "12:00")])
  /\ main true json_loads (mk_logger 0 []) [] "wryte" "localhost" 7 1 "12:00"
          "loud" "disk full" [] false true "Wryte" false
     = Raise WryteError.
Proof.
  split.
  - destruct (proj2 (proj2 (main_outcomes true json_loads (mk_logger 0 []) [] "wryte"
                       "localhost" 7 1 "12:00" "Warn" "disk full" ["dev=sda1"]
                       false true "Wryte" false))
                eq_refl (or_introl eq_refl)) as [numeric [Hn Hmain]].
    rewrite Hmain. injection Hn as <-. vm_compute. reflexivity.
  - apply (proj1 (main_outcomes true json_loads (mk_logger 0 []) [] "wryte"
                    "localhost" 7 1 "12:00" "loud" "disk full" []
                    false true "Wryte" false)).
    reflexivity.
Defined.

(** ** The JSON round trip at any indentation *)

Lemma all_ws_append (a b : string) :
  all_ws a = true -> all_ws b = true -> all_ws (a ++ b) = true.
Proof.
  induction a as [|c a IH]; cbn [append all_ws]; intros Ha Hb; [exact Hb|].
  apply andb_true_iff in Ha as [Hc Ha]. rewrite Hc, (IH Ha Hb). reflexivity.
Qed.

Lemma all_ws_repeat (n : nat) : all_ws (repeat_string n " ") = true.
Proof.
  induction n as [|n IH]; [reflexivity|].
  cbn [repeat_string append all_ws]. rewrite IH. reflexivity.
Qed.

Lemma skip_ws_all_ws (w s : string) :
  all_ws w = true -> skip_ws (w ++ s) = skip_ws s.
Proof.
  induction w as [|c w IH]; cbn [append all_ws]; intros Hw; [reflexivity|].
  apply andb_true_iff in Hw as [Hc Hw].
  cbn [skip_ws]. rewrite Hc. apply IH, Hw.
Qed.

Lemma is_ws_ends_number (c : ascii) (r : string) :
  is_ws c = true -> ends_number (String c r) = true.
Proof.
  destruct c as [[|] [|] [|] [|] [|] [|] [|] [|]]; cbn; intros H;
    first [reflexivity | discriminate H].
Qed.

Lemma ends_number_ws (w r : string) :
  all_ws w = true -> ends_number r = true -> ends_number (w ++ r) = true.
Proof.
  destruct w as [|c w]; cbn [append all_ws]; intros Hw Hr; [exact Hr|].
  apply andb_true_iff in Hw as [Hc _]. apply is_ws_ends_number, Hc.
Qed.

Lemma item_separator_space (indent : option nat) (level : nat) :
  item_separator indent level = String "," (separator_space indent level).
Proof. destruct indent; reflexivity. Qed.

Lemma all_ws_separator_space (indent : option nat) (level : nat) :
  all_ws (separator_space indent level) = true.
Proof.
  destruct indent as [n|]; [|reflexivity].
  unfold separator_space. apply all_ws_append; [reflexivity|apply all_ws_repeat].
Qed.

Lemma all_ws_container_open (indent : option nat) (level : nat) :
  all_ws (container_open indent level) = true.
Proof.
  destruct indent as [n|]; [|reflexivity].
  unfold container_open. apply all_ws_append; [reflexivity|apply all_ws_repeat].
Qed.

Lemma all_ws_container_close (indent : option nat) (level : nat) :
  all_ws (container_close indent level) = true.
Proof.
  destruct indent as [n|]; [|reflexivity].
  unfold container_close. apply all_ws_append; [reflexivity|apply all_ws_repeat].
Qed.

Lemma json_encode_head_at (indent : option nat) (level : nat) (v : value) :
  plain_json v = true ->
  exists c s, json_encode indent level v = String c s /\ value_head c = true.
Proof.
  destruct v as [|[|]|z|literal|s|[|x l]|[|kv d]]; cbn [plain_json json_encode];
    intros Hp; try discriminate Hp;
    try (eexists; eexists; split; [reflexivity|reflexivity]).
  destruct (string_of_Z_head z) as [c [s [Hs Hc]]].
  exists c, s. split; [exact Hs|].
  destruct Hc as [Hc|[-> _]]; [|reflexivity].
  unfold value_head. rewrite Hc. reflexivity.
Qed.

(** An encoded value is where the decoder starts: no white space before
    it, and no closing bracket. *)
Lemma encode_starts (indent : option nat) (level : nat) (v : value) (rest : string) :
  plain_json v = true ->
  skip_ws (json_encode indent level v ++ rest) = json_encode indent level v ++ rest
  /\ starts_with "]" (json_encode indent level v ++ rest) = None.
Proof.
  intros Hp. destruct (json_encode_head_at indent level v Hp) as [c [s [Hs Hc]]].
  rewrite Hs. cbn [append].
  destruct (value_head_facts c Hc) as [Hws [Hb _]].
  split; [apply skip_ws_head, Hws|].
  cbn [starts_with]. rewrite Hb. reflexivity.
Qed.

Lemma elements_start (indent : option nat) (level : nat) (sep : string)
    (x : value) (l : list value) (r : string) :
  plain_json x = true ->
  skip_ws (join sep (map (json_encode indent level) (x :: l)) ++ r)
  = join sep (map (json_encode indent level) (x :: l)) ++ r
  /\ starts_with "]" (join sep (map (json_encode indent level) (x :: l)) ++ r) = None.
Proof.
  intros Hp. cbn [map].
  destruct (join_cons_app sep (json_encode indent level x)
              (map (json_encode indent level) l)) as [t Ht].
  rewrite Ht, append_assoc. apply encode_starts, Hp.
Qed.

Lemma members_start (indent : option nat) (level : nat) (sep : string)
    (kv : string * value) (d : dict) (r : string) :
  skip_ws (join sep (map (member_text_at indent level) (kv :: d)) ++ r)
  = join sep (map (member_text_at indent level) (kv :: d)) ++ r
  /\ starts_with "}" (join sep (map (member_text_at indent level) (kv :: d)) ++ r) = None.
Proof.
  cbn [map].
  destruct (join_cons_app sep (member_text_at indent level kv)
              (map (member_text_at indent level) d)) as [t Ht].
  rewrite Ht. destruct kv as [k x]. split; reflexivity.
Qed.

Lemma skip_ws_then (w : string) (c : ascii) (r : string) :
  all_ws w = true -> is_ws c = false -> skip_ws (w ++ String c r) = String c r.
Proof.
  intros Hw Hc. rewrite (skip_ws_all_ws w _ Hw). apply skip_ws_head, Hc.
Qed.

Lemma parse_elements_encode_at (indent : option nat) (level : nat) (ws1 ws2 : string)
    (l : list value) :
  all_ws ws1 = true -> all_ws ws2 = true ->
  Forall (reads_back_at indent) l ->
  forallb plain_json l = true ->
  l <> [] ->
  forall (fuel : nat) (acc : list value) (rest : string),
    (list_sum (map (fun x => S (decode_cost x)) l) <= fuel)%nat ->
    parse_elements fuel
      (join (String "," ws1) (map (json_encode indent level) l)
         ++ ws2 ++ String "]" rest) acc
    = Some (VList (List.rev acc ++ l)%list, rest).
Proof.
  intros Hw1 Hw2 Hall.
  induction Hall as [|x l Hx Hall IH]; intros Hp Hne fuel acc rest Hfuel.
  - contradiction.
  - cbn [forallb] in Hp. apply andb_true_iff in Hp as [Hpx Hpl].
    change (list_sum (map (fun x => S (decode_cost x)) (x :: l)))
      with (S (decode_cost x) + list_sum (map (fun x => S (decode_cost x)) l))%nat
      in Hfuel.
    destruct fuel as [|fuel]; [lia|].
    rewrite parse_elements_step.
    destruct l as [|y l].
    + cbn [map join].
      rewrite (Hx Hpx level fuel (ws2 ++ String "]" rest))
        by (try (apply ends_number_ws; [exact Hw2|reflexivity]); lia).
      rewrite (skip_ws_then ws2 "]" rest Hw2 eq_refl).
      cbn [starts_with]. change (Ascii.eqb "]" "]") with true. cbv iota.
      cbn [List.rev]. reflexivity.
    + cbn [map]. rewrite join_cons_cons, !append_assoc.
      cbn [append].
      rewrite (Hx Hpx level fuel) by (try reflexivity; lia).
      cbn [skip_ws]. change (is_ws ",") with false. cbv iota.
      cbn [starts_with]. change (Ascii.eqb "," "]") with false.
      change (Ascii.eqb "," ",") with true. cbv iota.
      change (json_encode indent level y :: map (json_encode indent level) l)
        with (map (json_encode indent level) (y :: l)).
      rewrite (skip_ws_all_ws ws1 _ Hw1).
      cbn [forallb] in Hpl. pose proof Hpl as Hpl'.
      apply andb_true_iff in Hpl' as [Hpy _].
      rewrite (proj1 (elements_start indent level (String "," ws1) y l _ Hpy)).
      rewrite (IH Hpl) by (try discriminate; lia).
      cbn [List.rev]. rewrite <- List.app_assoc. reflexivity.
Qed.

Lemma parse_members_encode_at (indent : option nat) (level : nat) (ws1 ws2 : string)
    (d : dict) :
  all_ws ws1 = true -> all_ws ws2 = true ->
  Forall (fun kv => reads_back_at indent (snd kv)) d ->
  forallb (fun kv => match kv with (_, x) => plain_json x end) d = true ->
  d <> [] ->
  forall (fuel : nat) (acc : dict) (rest : string),
    (list_sum (map (fun kv => match kv with (_, x) => S (decode_cost x) end) d)
     <= fuel)%nat ->
    parse_members fuel
      (join (String "," ws1) (map (member_text_at indent level) d)
         ++ ws2 ++ String "}" rest) acc
    = Some (VDict (dict_update acc d), rest).
Proof.
  intros Hw1 Hw2 Hall.
  induction Hall as [|[k x] d Hx Hall IH]; intros Hp Hne fuel acc rest Hfuel.
  - contradiction.
  - cbn [forallb] in Hp. apply andb_true_iff in Hp as [Hpx Hpd].
    cbn [snd] in Hx.
    change (list_sum (map (fun kv => match kv with (_, x) => S (decode_cost x) end)
                        ((k, x) :: d)))
      with (S (decode_cost x)
            + list_sum (map (fun kv => match kv with (_, x) => S (decode_cost x) end) d))%nat
      in Hfuel.
    destruct fuel as [|fuel]; [lia|].
    rewrite parse_members_step, dict_update_cons.
    assert (Hmember : forall tail,
               member_text_at indent level (k, x) ++ tail
               = String dquote (json_escape k
                                  ++ String dquote (String ":" (String " "
                                       (json_encode indent level x ++ tail))))).
    { intros tail. unfold member_text_at, json_string, str1.
      cbn [append]. rewrite !append_assoc. reflexivity. }
    destruct d as [|kv d].
    + cbn [map join]. rewrite Hmember.
      cbn [starts_with]. change (Ascii.eqb dquote dquote) with true. cbv iota.
      rewrite scanstring_escape.
      cbn [skip_ws]. change (is_ws ":") with false. cbv iota.
      cbn [starts_with]. change (Ascii.eqb ":" ":") with true. cbv iota.
      cbn [skip_ws]. change (is_ws " ") with true. cbv iota.
      rewrite (proj1 (encode_starts indent level x _ Hpx)).
      rewrite (Hx Hpx level fuel (ws2 ++ String "}" rest))
        by (try (apply ends_number_ws; [exact Hw2|reflexivity]); lia).
      rewrite (skip_ws_then ws2 "}" rest Hw2 eq_refl).
      cbn [starts_with]. change (Ascii.eqb "}" "}") with true. cbv iota.
      reflexivity.
    + cbn [map]. rewrite join_cons_cons, append_assoc, Hmember.
      cbn [starts_with]. change (Ascii.eqb dquote dquote) with true. cbv iota.
      rewrite scanstring_escape.
      cbn [skip_ws]. change (is_ws ":") with false. cbv iota.
      cbn [starts_with]. change (Ascii.eqb ":" ":") with true. cbv iota.
      cbn [skip_ws]. change (is_ws " ") with true. cbv iota.
      rewrite (proj1 (encode_starts indent level x _ Hpx)).
      rewrite append_assoc. cbn [append].
      rewrite (Hx Hpx level fuel) by (try reflexivity; lia).
      cbn [skip_ws]. change (is_ws ",") with false. cbv iota.
      cbn [starts_with]. change (Ascii.eqb "," "}") with false.
      change (Ascii.eqb "," ",") with true. cbv iota.
      change (member_text_at indent level kv :: map (member_text_at indent level) d)
        with (map (member_text_at indent level) (kv :: d)).
      rewrite (skip_ws_all_ws ws1 _ Hw1).
      rewrite (proj1 (members_start indent level (String "," ws1) kv d _)).
      rewrite (IH Hpd) by (try discriminate; lia).
      reflexivity.
Qed.

(** The decoder reads back the encoding of every plain value, whatever
    the indentation. *)
Lemma scan_once_encode_at (indent : option nat) (v : value) : reads_back_at indent v.
Proof.
  induction v as [|b|z|literal|s|l IH|d IH] using value_nested_ind;
    intros Hp level fuel rest Hstop Hfuel;
    (destruct fuel as [|fuel]; [cbn [decode_cost] in Hfuel; lia|]).
  - reflexivity.
  - destruct b; reflexivity.
  - apply scan_once_int, Hstop.
  - discriminate Hp.
  - apply scan_once_string.
  - cbn [plain_json] in Hp. cbn [decode_cost] in Hfuel.
    destruct l as [|x l]; [reflexivity|].
    cbn [json_encode]. rewrite item_separator_space.
    rewrite !append_assoc. cbn [append].
    rewrite scan_once_array.
    rewrite (skip_ws_all_ws _ _ (all_ws_container_open indent level)).
    pose proof Hp as Hp'. cbn [forallb] in Hp'. apply andb_true_iff in Hp' as [Hpx _].
    destruct (elements_start indent (S level)
                (String "," (separator_space indent level)) x l
                (container_close indent level ++ String "]" rest) Hpx) as [Hs1 Hs2].
    rewrite Hs1, Hs2.
    rewrite (parse_elements_encode_at indent (S level) _ _ (x :: l)
               (all_ws_separator_space indent level)
               (all_ws_container_close indent level) IH Hp)
      by (try discriminate; lia).
    reflexivity.
  - cbn [plain_json] in Hp. apply andb_true_iff in Hp as [Hu Hp].
    cbn [decode_cost] in Hfuel.
    destruct d as [|kv d]; [reflexivity|].
    cbn [json_encode]. rewrite item_separator_space.
    change (map (fun kv0 : string * value =>
                   let (k, x) := kv0 in json_string k ++ ": " ++ json_encode indent (S level) x)
                (kv :: d))
      with (map (member_text_at indent (S level)) (kv :: d)).
    rewrite !append_assoc. cbn [append].
    rewrite scan_once_object.
    rewrite (skip_ws_all_ws _ _ (all_ws_container_open indent level)).
    destruct (members_start indent (S level)
                (String "," (separator_space indent level)) kv d
                (container_close indent level ++ String "}" rest)) as [Hs1 Hs2].
    rewrite Hs1, Hs2.
    rewrite (parse_members_encode_at indent (S level) _ _ (kv :: d)
               (all_ws_separator_space indent level)
               (all_ws_container_close indent level) IH Hp)
      by (try discriminate; lia).
    rewrite (dict_update_unique [] (kv :: d) Hu) by reflexivity.
    reflexivity.
Qed.

Lemma join_length_at (sep : string) (l : list string) :
  (2 <= String.length sep)%nat ->
  l <> [] ->
  (list_sum (map (fun s => String.length s + 2) l)
   <= String.length (join sep l) + 2)%nat.
Proof.
  intros Hsep.
  induction l as [|a l IH]; intros Hne; [contradiction|].
  destruct l as [|b l].
  - cbn. lia.
  - rewrite join_cons_cons, !length_append.
    change (list_sum (map (fun s => String.length s + 2) (a :: b :: l)))%nat
      with (String.length a + 2
            + list_sum (map (fun s => String.length s + 2) (b :: l)))%nat.
    specialize (IH ltac:(discriminate)). lia.
Qed.

Lemma item_separator_length (indent : option nat) (level : nat) :
  (2 <= String.length (item_separator indent level))%nat.
Proof.
  destruct indent as [n|]; [|cbn; lia].
  unfold item_separator. rewrite !length_append. cbn [String.length nl]. lia.
Qed.

Lemma decode_cost_length_at (indent : option nat) (level : nat) (v : value) :
  (decode_cost v <= S (String.length (json_encode indent level v)))%nat.
Proof.
  revert level.
  induction v as [|b|z|literal|s|l IH|d IH] using value_nested_ind; intros level;
    try (cbn [decode_cost]; lia).
  - destruct l as [|x l]; [cbn; lia|].
    cbn [decode_cost json_encode].
    rewrite !length_append. cbn [String.length].
    pose proof (join_length_at (item_separator indent level)
                  (map (json_encode indent (S level)) (x :: l))
                  (item_separator_length indent level)) as Hj.
    assert (Hsum : (list_sum (map (fun x => S (decode_cost x)) (x :: l))
                    <= list_sum (map (fun s => String.length s + 2)
                                   (map (json_encode indent (S level)) (x :: l))))%nat).
    { clear Hj. induction IH as [|y l' Hy _ IHl]; [cbn; lia|].
      cbn [map].
      change (list_sum (?a :: ?r)) with (a + list_sum r)%nat.
      specialize (Hy (S level)). lia. }
    specialize (Hj ltac:(discriminate)). lia.
  - destruct d as [|kv d]; [cbn; lia|].
    cbn [decode_cost json_encode].
    change (map (fun kv0 : string * value =>
                   let (k, x) := kv0 in json_string k ++ ": " ++ json_encode indent (S level) x)
                (kv :: d))
      with (map (member_text_at indent (S level)) (kv :: d)).
    rewrite !length_append. cbn [String.length].
    pose proof (join_length_at (item_separator indent level)
                  (map (member_text_at indent (S level)) (kv :: d))
                  (item_separator_length indent level)) as Hj.
    assert (Hsum : (list_sum (map (fun kv => match kv with
                                             | (_, x) => S (decode_cost x)
                                             end) (kv :: d))
                    <= list_sum (map (fun s => String.length s + 2)
                                   (map (member_text_at indent (S level)) (kv :: d))))%nat).
    { clear Hj. induction IH as [|[k y] l' Hy _ IHl]; [cbn; lia|].
      cbn [map].
      change (list_sum (?a :: ?r)) with (a + list_sum r)%nat.
      cbn [snd] in Hy. specialize (Hy (S level)).
      unfold member_text_at at 1. rewrite !length_append. lia. }
    specialize (Hj ltac:(discriminate)). lia.
Qed.

(** [json.loads(json.dumps(v, indent=indent))] is [v] for every plain
    value. *)
Lemma json_loads_dumps_at (indent : option nat) (v : value) :
  plain_json v = true -> json_loads (json_dumps indent v) = Some v.
Proof.
  intros Hp. unfold json_loads, json_dumps.
  assert (Hskip : skip_ws (json_encode indent 0 v) = json_encode indent 0 v).
  { pose proof (proj1 (encode_starts indent 0 v "" Hp)) as H.
    rewrite append_nil_r in H. exact H. }
  rewrite Hskip.
  pose proof (scan_once_encode_at indent v Hp 0%nat _ "" eq_refl
                (decode_cost_length_at indent 0 v)) as H.
  rewrite append_nil_r in H. rewrite H. reflexivity.
Qed.

(** ** What the JSON formatter prints can be read back *)

(** X20.  Whatever the [pretty] flag, decoding what [JsonFormatter.format]
    renders for a plain [msg], a mapping or not, gives [msg] back: the
    indented rendering and the compact one decode to the same value. *)
Theorem json_format_round_trip_any_indent (pretty : bool) (msg : value) :
  plain_json msg = true ->
  json_loads (JsonFormatter_format pretty msg) = Some msg.
Proof.
  intros Hp. unfold JsonFormatter_format. apply json_loads_dumps_at, Hp.
Qed.

Lemma json_format_round_trip_any_indent_witness :
  json_loads
    (JsonFormatter_format true
       (VDict [("name", VStr "svc"); ("pid", VInt 42);
               ("tags", VList [VStr "a"; VNone; VList []; VDict [("k", VInt (-7))]]);
               ("nested", VDict [("k", VList [VBool false])])]))
  = Some (VDict [("name", VStr "svc"); ("pid", VInt 42);
                 ("tags", VList [VStr "a"; VNone; VList []; VDict [("k", VInt (-7))]]);
                 ("nested", VDict [("k", VList [VBool false])])]).
Proof.
  apply (json_format_round_trip_any_indent true
           (VDict [("name", VStr "svc"); ("pid", VInt 42);
                   ("tags", VList [VStr "a"; VNone; VList []; VDict [("k", VInt (-7))]]);
                   ("nested", VDict [("k", VList [VBool false])])])).
  reflexivity.
Defined.

(** ** A mapping and its JSON text *)

Lemma normalize_loop_pointwise (loads : string -> option value)
    (objects objects' : list context_object) :
  Forall2 (fun a b => normalize_object loads a = normalize_object loads b)
          objects objects' ->
  forall acc, normalize_loop loads objects acc = normalize_loop loads objects' acc.
Proof.
  induction 1 as [|a b l l' Hab _ IH]; intros acc; cbn [normalize_loop].
  - reflexivity.
  - rewrite Hab. destruct (normalize_object loads b) as [v|e]; cbn [bind];
      [apply IH|reflexivity].
Qed.

Lemma Forall2_same {A : Type} (R : A -> A -> Prop) (l : list A) :
  (forall a, R a a) -> Forall2 R l l.
Proof. intros HR. induction l; constructor; auto. Qed.

(** X21.  A plain mapping may be passed as its JSON text: at any place
    among the context objects and at any indentation of the text,
    [_normalize_objects] gives the same values, and [_enrich] the same
    record or the same exception. *)
Theorem json_text_stands_for_mapping (log_base : dict) (now : string) (message : value)
    (level : string) (before after : list context_object) (indent : option nat)
    (d : dict) :
  plain_json (VDict d) = true ->
  _normalize_objects json_loads
    (before ++ Text (json_dumps indent (VDict d)) :: after)%list
  = _normalize_objects json_loads (before ++ Mapping d :: after)%list
  /\ _enrich json_loads log_base now message level
       (before ++ Text (json_dumps indent (VDict d)) :: after)%list
     = _enrich json_loads log_base now message level (before ++ Mapping d :: after)%list.
Proof.
  intros Hp.
  assert (Hn : _normalize_objects json_loads
                 (before ++ Text (json_dumps indent (VDict d)) :: after)%list
               = _normalize_objects json_loads (before ++ Mapping d :: after)%list).
  { unfold _normalize_objects. apply normalize_loop_pointwise.
    apply Forall2_app; [apply Forall2_same; reflexivity|].
    constructor; [|apply Forall2_same; reflexivity].
    cbn [normalize_object]. rewrite (json_loads_dumps_at indent (VDict d) Hp).
    reflexivity. }
  split; [exact Hn|]. unfold _enrich. rewrite Hn. reflexivity.
Qed.

Lemma json_text_stands_for_mapping_witness :
  _enrich json_loads (_get_base (Some "svc") None "localhost" 7) "12:00" (VStr "m") "info"
    [Text "a=b"; Text (json_dumps (Some 2%nat) (VDict [("k", VList [VInt 1; VInt 2])]))]
  = Return [("name", VStr "svc"); ("hostname", VStr "localhost"); ("pid", VInt 7);
            ("a", VStr "b"); ("k", VList [VInt 1; VInt 2]); ("message", VStr "m");
            ("level", VStr "INFO"); ("timestamp", VStr "12:00")].
Proof.
  pose proof (proj2 (json_text_stands_for_mapping
                       (_get_base (Some "svc") None "localhost" 7) "12:00" (VStr "m")
                       "info" [Text "a=b"] [] (Some 2%nat)
                       [("k", VList [VInt 1; VInt 2])] eq_refl)) as H.
  cbn [List.app] in H. rewrite H.
  vm_compute. reflexivity.
Defined.

(** ** The JSON block of the console formatter *)

Lemma dict_has_filter (f : string * value -> bool) (d : dict) (k : string) :
  dict_has (filter f d) k = true -> dict_has d k = true.
Proof.
  unfold dict_has.
  induction d as [|[k0 v0] d IH]; cbn [filter dict_get]; [discriminate|].
  destruct (f (k0, v0)); cbn [dict_get];
    destruct (String.eqb k0 k); try reflexivity; exact IH.
Qed.

Lemma plain_filter (f : string * value -> bool) (d : dict) :
  plain_json (VDict d) = true -> plain_json (VDict (filter f d)) = true.
Proof.
  cbn [plain_json]. intros Hp. apply andb_true_iff in Hp as [Hu Hv].
  apply andb_true_iff. split.
  - induction d as [|[k0 v0] d IH]; cbn [filter]; [reflexivity|].
    cbn [unique_keys] in Hu. apply andb_true_iff in Hu as [Hk Hu].
    cbn [forallb] in Hv. apply andb_true_iff in Hv as [_ Hv].
    destruct (f (k0, v0)); [|apply (IH Hu Hv)].
    cbn [unique_keys]. rewrite (IH Hu Hv), andb_true_r.
    apply negb_true_iff. apply negb_true_iff in Hk.
    destruct (dict_has (filter f d) k0) eqn:Hf; [|reflexivity].
    rewrite (dict_has_filter f d k0 Hf) in Hk. discriminate Hk.
  - clear Hu. induction d as [|[k0 v0] d IH]; cbn [filter]; [reflexivity|].
    cbn [forallb] in Hv. apply andb_true_iff in Hv as [Hx Hv].
    destruct (f (k0, v0)); [|apply (IH Hv)].
    cbn [forallb]. rewrite Hx, (IH Hv). reflexivity.
Qed.

(** X22.  Without [pretty], whatever the colours: when [format] returns for
    a plain record, the text is a head line alone if the record has no
    extra field; otherwise it is a head line, a new line, and a block
    that decodes to the mapping of the extra fields, in the order of the
    record.  Without colour the head line is made of the timestamp, the
    name, the level and the message of the record. *)
Theorem console_format_json_block (COLORAMA color : bool) (msg : dict) (text : string) :
  plain_json (VDict msg) = true ->
  ConsoleFormatter_format COLORAMA false color msg = Return text ->
  exists head,
    (COLORAMA && color = false ->
     head = head_line (field msg "timestamp") (field msg "name")
                      (field msg "level") (field msg "message"))
    /\ (extra_fields msg = [] -> text = head)
    /\ (extra_fields msg <> [] ->
        exists block,
          text = head ++ nl ++ block
          /\ json_loads block = Some (VDict (extra_fields msg))).
Proof.
  intros Hp. rewrite ConsoleFormatter_format_output. unfold format_output.
  rewrite pop_expected_fields.
  destruct (first_missing msg); cbn [bind]; [discriminate|].
  assert (Hblock : json_loads (json_dumps (Some 4%nat) (VDict (extra_fields msg)))
                   = Some (VDict (extra_fields msg))).
  { apply json_loads_dumps_at. unfold extra_fields. apply plain_filter, Hp. }
  destruct (COLORAMA && color).
  - destruct (colorize (field msg "level") (field msg "timestamp") (field msg "name"))
      as [[[level timestamp] name]|e]; cbn [bind]; [|discriminate].
    intros Hret. exists (head_line timestamp name level (field msg "message")).
    split; [discriminate|].
    destruct (extra_fields msg) as [|kv extras].
    + split; [intros _; injection Hret as <-; reflexivity|intros H; contradiction].
    + split; [discriminate|]. intros _. eexists. split; [|exact Hblock].
      injection Hret as <-. reflexivity.
  - cbn [bind]. intros Hret.
    exists (head_line (field msg "timestamp") (field msg "name")
                      (field msg "level") (field msg "message")).
    split; [reflexivity|].
    destruct (extra_fields msg) as [|kv extras].
    + split; [intros _; injection Hret as <-; reflexivity|intros H; contradiction].
    + split; [discriminate|]. intros _. eexists. split; [|exact Hblock].
      injection Hret as <-. reflexivity.
Qed.

Lemma console_format_json_block_witness :
  exists head block,
    ConsoleFormatter_format true false false
      [("name", VStr "svc"); ("hostname", VStr "h1"); ("pid", VInt 42);
       ("env", VStr "prod"); ("port", VInt 80); ("message", VStr "started");
       ("level", VStr "INFO"); ("timestamp", VStr "12:00")]
    = Return (head ++ nl ++ block)
    /\ head = "12:00 - svc - INFO - started"
    /\ json_loads block = Some (VDict [("env", VStr "prod"); ("port", VInt 80)]).
Proof.
  destruct (console_format_json_block true false
              [("name", VStr "svc"); ("hostname", VStr "h1"); ("pid", VInt 42);
               ("env", VStr "prod"); ("port", VInt 80); ("message", VStr "started");
               ("level", VStr "INFO"); ("timestamp", VStr "12:00")]
              _ eq_refl eq_refl) as [head [Hhead [_ Hblock]]].
  destruct (Hblock ltac:(discriminate)) as [block [Htext Hloads]].
  exists head, block. split; [|split].
  - rewrite <- Htext. reflexivity.
  - rewrite (Hhead eq_refl). reflexivity.
  - exact Hloads.
Defined.

(** ** From a logging call to the JSON handler *)

Lemma plain_values_set (d : dict) (k : string) (v : value) :
  plain_values d = true -> plain_json v = true -> plain_values (dict_set d k v) = true.
Proof.
  unfold plain_values. intros Hd Hv.
  induction d as [|[k0 v0] d IH]; cbn [dict_set forallb].
  - rewrite Hv. reflexivity.
  - cbn [forallb] in Hd. apply andb_true_iff in Hd as [H0 Hd].
    destruct (String.eqb k0 k); cbn [forallb].
    + rewrite Hv, Hd. reflexivity.
    + rewrite H0, (IH Hd). reflexivity.
Qed.

Lemma plain_values_update (d other : dict) :
  plain_values d = true -> plain_values other = true ->
  plain_values (dict_update d other) = true.
Proof.
  revert d. induction other as [|[k v] other IH]; intros d Hd Ho.
  - exact Hd.
  - unfold plain_values in Ho. cbn [forallb] in Ho. apply andb_true_iff in Ho as [Hv Ho].
    rewrite dict_update_cons. apply IH; [apply plain_values_set; assumption|exact Ho].
Qed.

Lemma update_item_plain (item k v : value) :
  plain_json item = true -> update_item item = Return (k, v) -> plain_json v = true.
Proof.
  intros Hp.
  destruct item as [| | | |s|l|d]; cbn [update_item]; try discriminate.
  - destruct s as [|a [|b [|c s]]]; try discriminate. intros [= <- <-]. reflexivity.
  - destruct l as [|x [|y [|z l]]]; try discriminate. intros [= <- <-].
    cbn [plain_json forallb] in Hp.
    apply andb_true_iff in Hp as [_ Hp]. apply andb_true_iff in Hp as [Hp _]. exact Hp.
  - destruct d as [|[k1 v1] [|[k2 v2] [|kv d]]]; try discriminate.
    intros [= <- <-]. reflexivity.
Qed.

Lemma update_from_items_plain (items : list value) (log log' : dict) :
  plain_values log = true -> forallb plain_json items = true ->
  update_from_items log items = Return log' -> plain_values log' = true.
Proof.
  revert log. induction items as [|item items IH]; intros log Hl Hi;
    cbn [update_from_items].
  - intros [= <-]. exact Hl.
  - cbn [forallb] in Hi. apply andb_true_iff in Hi as [Hitem Hi].
    destruct (update_item item) as [[key v]|e] eqn:Hu; cbn [bind fst snd]; [|discriminate].
    destruct key; try discriminate.
    apply IH; [|exact Hi].
    apply plain_values_set; [exact Hl|apply (update_item_plain _ _ _ Hitem Hu)].
Qed.

Lemma update_with_plain (part : value) (log log' : dict) :
  plain_values log = true -> plain_json part = true ->
  update_with log part = Return log' -> plain_values log' = true.
Proof.
  intros Hl Hp.
  destruct part as [| | | |s|items|d]; cbn [update_with]; try discriminate.
  - destruct s; [|discriminate]. intros [= <-]. exact Hl.
  - apply update_from_items_plain; assumption.
  - intros [= <-]. apply plain_values_update; [exact Hl|].
    cbn [plain_json] in Hp. apply andb_true_iff in Hp as [_ Hp]. exact Hp.
Qed.

Lemma update_all_plain (parts : list value) (log log' : dict) :
  plain_values log = true -> Forall (fun v => plain_json v = true) parts ->
  update_all log parts = Return log' -> plain_values log' = true.
Proof.
  intros Hl Hp. revert log Hl.
  induction Hp as [|part parts Hpart _ IH]; intros log Hl; cbn [update_all].
  - intros [= <-]. exact Hl.
  - destruct (update_with log part) as [log1|e] eqn:H1; cbn [bind]; [|discriminate].
    apply IH. apply (update_with_plain _ _ _ Hl Hpart H1).
Qed.

Lemma normalize_object_plain (loads : string -> option value) (obj : context_object)
    (v : value) :
  plain_object loads obj = true ->
  normalize_object loads obj = Return v -> plain_json v = true.
Proof.
  destruct obj as [d|s]; cbn [plain_object normalize_object].
  - intros Hp [= <-]. exact Hp.
  - destruct (loads s) as [w|].
    + intros Hp [= <-]. exact Hp.
    + intros _. destruct (contains_char "=" s) eqn:Hc.
      * rewrite (_split_kv_returns s Hc). intros [= <-]. reflexivity.
      * intros [= <-]. reflexivity.
Qed.

Lemma normalize_objects_plain (loads : string -> option value)
    (objects : list context_object) (parts : list value) :
  forallb (plain_object loads) objects = true ->
  _normalize_objects loads objects = Return parts ->
  Forall (fun v => plain_json v = true) parts.
Proof.
  intros Hp Hn.
  destruct (_normalize_objects_returns loads objects) as [parts' [Hn' [_ Hall]]].
  rewrite Hn in Hn'. injection Hn' as <-. clear Hn.
  induction Hall as [|obj v objects parts Hv _ IH]; constructor;
    cbn [forallb] in Hp; apply andb_true_iff in Hp as [Ho Hp].
  - apply (normalize_object_plain loads obj v Ho Hv).
  - apply IH, Hp.
Qed.

(** X23.  From a logging call to the line of the JSON handler: for a
    facade on the base of [_get_base], a plain message and plain context
    objects, the record that [_enrich] returns is printed by
    [JsonFormatter.format], with or without [pretty], as text that
    decodes to that record: every field keeps its place and its value. *)
Theorem logged_record_reads_back (loads : string -> option value)
    (name hostname : option string) (gethostname : string) (pid : Z)
    (now : string) (message : value) (level : string)
    (objects : list context_object) (record : dict) (pretty : bool) :
  plain_json message = true ->
  forallb (plain_object loads) objects = true ->
  _enrich loads (_get_base name hostname gethostname pid) now message level objects
  = Return record ->
  json_loads (JsonFormatter_format pretty (VDict record)) = Some (VDict record).
Proof.
  intros Hm Ho Hrun.
  unfold JsonFormatter_format. apply json_loads_dumps_at.
  cbn [plain_json]. apply andb_true_iff. split.
  - apply (enrich_unique_keys _ _ _ _ _ _ _ Hrun). reflexivity.
  - destruct (enrich_returns_update _ _ _ _ _ _ _ Hrun) as [parts [log [Hn [Hall ->]]]].
    apply plain_values_update.
    + apply (update_all_plain parts (_get_base name hostname gethostname pid) log);
        [|apply (normalize_objects_plain _ _ _ Ho Hn)|exact Hall].
      destruct name; reflexivity.
    + unfold plain_values. cbn [forallb]. rewrite Hm. reflexivity.
Qed.

Lemma logged_record_reads_back_witness :
  exists record,
    _enrich json_loads (_get_base (Some "svc") None "localhost" 7) "12:00"
            (VStr "disk full") "error"
            [Text "dev=sda1"; Mapping [("free", VInt 0); ("pid", VInt 1)]; Text "x"]
    = Return record
    /\ json_loads (JsonFormatter_format true (VDict record)) = Some (VDict record).
Proof.
  eexists. split; [vm_compute; reflexivity|].
  apply (logged_record_reads_back json_loads (Some "svc") None "localhost" 7 "12:00"
           (VStr "disk full") "error"
           [Text "dev=sda1"; Mapping [("free", VInt 0); ("pid", VInt 1)]; Text "x"]
           _ true eq_refl).
  - vm_compute. reflexivity.
  - vm_compute. reflexivity.
Defined.

(** ** The default handlers *)

(** X24.  The default handlers have fixed names, whatever [uuid4] would
    answer.  For a known level [add_default_json_handler] returns
    ["_json"] and gives the handler a JSON formatter that is pretty when
    the facade is; [add_default_console_handler] returns ["_console"] and
    gives a console formatter that is pretty whatever the facade says,
    with the colour flag of the facade, and raises NameError when
    colorama is not imported.  Both raise WryteError for an unknown
    level. *)
Theorem default_handlers (COLORAMA : bool) (uuid4 : string) (self : Wryte)
    (stream_handler : addr) (level : string) :
  (dict_has LEVEL_CONVERSION (lower level) = false ->
   add_default_json_handler COLORAMA uuid4 self stream_handler level = Raise WryteError
   /\ add_default_console_handler COLORAMA uuid4 self stream_handler level
      = Raise WryteError)
  /\ (dict_has LEVEL_CONVERSION (lower level) = true ->
      (exists self',
          add_default_json_handler COLORAMA uuid4 self stream_handler level
          = Return ("_json", self')
          /\ store_get (wryte_handlers self') stream_handler
             = mk_handler (Some "_json")
                          (Some (JsonFormatter (flag_or (wryte_pretty self) false))))
      /\ (COLORAMA = true ->
          exists self',
            add_default_console_handler COLORAMA uuid4 self stream_handler level
            = Return ("_console", self')
            /\ store_get (wryte_handlers self') stream_handler
               = mk_handler (Some "_console")
                            (Some (ConsoleFormatter true (wryte_color self))))
      /\ (COLORAMA = false ->
          add_default_console_handler COLORAMA uuid4 self stream_handler level
          = Raise NameError)).
Proof.
  unfold add_default_json_handler, add_default_console_handler.
  rewrite !add_handler_cases. split.
  - intros ->. split; reflexivity.
  - intros Hl. rewrite Hl. unfold dict_has in Hl.
    destruct (dict_get LEVEL_CONVERSION (lower level)) as [numeric|];
      [|discriminate Hl].
    cbn [negb String.eqb Ascii.eqb Bool.eqb orb andb].
    split; [|split].
    + eexists. split; [reflexivity|].
      cbn [wryte_handlers]. rewrite store_get_set_same. reflexivity.
    + intros ->. eexists. split; [reflexivity|].
      cbn [wryte_handlers]. rewrite store_get_set_same.
      destruct (wryte_pretty self) as [[|]|]; reflexivity.
    + intros ->. reflexivity.
Qed.

Lemma default_handlers_witness :
  (exists self',
      add_default_console_handler true "u" 
        (mk_Wryte "svc" (Some false) false [] (mk_logger 0 []) []) 3 "Error"
      = Return ("_console", self')
      /\ store_get (wryte_handlers self') 3
         = mk_handler (Some "_console") (Some (ConsoleFormatter true false)))
  /\ add_default_console_handler false "u"
       (mk_Wryte "svc" (Some false) false [] (mk_logger 0 []) []) 3 "Error"
     = Raise NameError.
Proof.
  split.
  - apply (proj1 (proj2 (proj2 (default_handlers true "u"
                                  (mk_Wryte "svc" (Some false) false [] (mk_logger 0 []) [])
                                  3 "Error") eq_refl))).
    reflexivity.
  - apply (proj2 (proj2 (proj2 (default_handlers false "u"
                                  (mk_Wryte "svc" (Some false) false [] (mk_logger 0 []) [])
                                  3 "Error") eq_refl))).
    reflexivity.
Defined.

(** ** A facade without a name *)

(** What a facade that [__init__] returns keeps of its arguments. *)
Lemma Wryte_init_keeps (COLORAMA : bool) (lg : logger) (objects : handler_store)
    (module_name gethostname : string) (pid : Z) (stream_handler : addr)
    (name hostname : option string) (level : string) (pretty : option bool)
    (bare jsonify color : bool) (self : Wryte) :
  Wryte_init COLORAMA lg objects module_name gethostname pid stream_handler
             name hostname level pretty bare jsonify color = Return self ->
  wryte_log_base self = _get_base name hostname gethostname pid
  /\ wryte_name self = match name with
                       | Some (String _ _ as n) => n
                       | Some EmptyString | None => module_name
                       end.
Proof.
  unfold Wryte_init. cbv zeta.
  destruct bare; [intros [= <-]; split; reflexivity|].
  destruct jsonify; rewrite add_handler_cases;
    destruct (negb (dict_has LEVEL_CONVERSION (lower level))); cbn [bind];
      try discriminate;
    cbn [negb String.eqb Ascii.eqb Bool.eqb orb andb];
    try (destruct COLORAMA; cbn [negb bind]; try discriminate);
    destruct (dict_get LEVEL_CONVERSION (lower level)); cbn [bind snd];
      try discriminate;
    intros [= <-]; split; reflexivity.
Qed.

(** X25.  A facade built without a name keeps the module name as its own
    name, but the records it logs carry None as their name; on such a
    record, with no context object, a console formatter with colour
    raises TypeError whatever the level and the message, since None is
    added to the colour code. *)
Theorem unnamed_facade_colour_fails (COLORAMA : bool) (lg : logger)
    (objects : handler_store) (module_name gethostname : string) (pid : Z)
    (stream_handler : addr) (hostname : option string) (level : string)
    (pretty : option bool) (bare jsonify color : bool) (self : Wryte)
    (loads : string -> option value) (now : string) (message : value)
    (log_level : string) (formatter_pretty : bool) :
  Wryte_init COLORAMA lg objects module_name gethostname pid stream_handler
             None hostname level pretty bare jsonify color = Return self ->
  wryte_name self = module_name
  /\ exists record,
       _enrich loads (wryte_log_base self) now message log_level [] = Return record
       /\ dict_get record "name" = Some VNone
       /\ ConsoleFormatter_format true formatter_pretty true record = Raise TypeError.
Proof.
  intros Hinit. destruct (Wryte_init_keeps _ _ _ _ _ _ _ _ _ _ _ _ _ _ _ Hinit)
    as [Hbase Hname].
  split; [exact Hname|]. rewrite Hbase.
  eexists. split; [reflexivity|]. split; [reflexivity|].
  rewrite ConsoleFormatter_format_output. unfold format_output.
  rewrite pop_expected_fields.
  assert (Hm : first_missing
                 (dict_update (_get_base None hostname gethostname pid)
                    [("message", message); ("level", VStr (upper log_level));
                     ("timestamp", VStr now)]) = None) by reflexivity.
  rewrite Hm. cbn [bind andb].
  assert (Hf : forall k,
             field (dict_update (_get_base None hostname gethostname pid)
                      [("message", message); ("level", VStr (upper log_level));
                       ("timestamp", VStr now)]) k
             = match (if String.eqb k "timestamp" then Some (VStr now)
                      else if String.eqb k "level" then Some (VStr (upper log_level))
                      else if String.eqb k "message" then Some message
                      else dict_get (_get_base None hostname gethostname pid) k) with
               | Some v => v
               | None => VNone
               end).
  { intros k. unfold field. rewrite dict_get_final_update. reflexivity. }
  rewrite !Hf. cbn [String.eqb Ascii.eqb Bool.eqb dict_get _get_base].
  unfold colorize, ConsoleFormatter_get_level_color. cbn [bind].
  destruct (dict_get _ (lower (upper log_level))); reflexivity.
Qed.

Lemma unnamed_facade_colour_fails_witness :
  exists self record,
    Wryte_init true (mk_logger 0 []) [] "wryte" "localhost" 7 1
               None None "info" None false false true = Return self
    /\ wryte_name self = "wryte"
    /\ _enrich json_loads (wryte_log_base self) "12:00" (VStr "m") "info" []
       = Return record
    /\ ConsoleFormatter_format true true true record = Raise TypeError.
Proof.
  eexists. 
  destruct (unnamed_facade_colour_fails true (mk_logger 0 []) [] "wryte" "localhost" 7 1
              None "info" None false false true _ json_loads "12:00" (VStr "m") "info"
              true eq_refl) as [Hname [record [Hrun [_ Hfmt]]]].
  exists record. split; [reflexivity|]. split; [exact Hname|].
  split; [exact Hrun|exact Hfmt].
Defined.
